(** * Bare-metal node deployment: the provisioning orchestrator and the
      config-drive builder of [openstack/baremetal/v1/nodes]

    The Go sources hold two revisions of [deployment.go] that differ in
    what travels on the progress channel:
    - the _state-struct_ revision ([chan DeploymentState], a name with a
      percentage), embedded in [Module StructVariant];
    - the _integer-channel_ revision ([chan<- int]), embedded in
      [Module IntVariant].
    A third, earlier revision, whose channel carries the state names
    ([chan string]), is kept in the sources next to the config-drive
    builder and embedded in [Module StringVariant]; [createNodes] of the
    command-line tool is in [Module main].
    All are embedded function by function.  The remote Ironic service is
    outside the repository: it is a [ServiceClient] over an arbitrary world
    type [W], so a theorem stated for every client holds for every
    deterministic remote.  The polling loops have no bound in the source;
    here they take [fuel], and a run that is still going when the fuel is
    gone ends in [OutOfFuel]. *)

From Stdlib Require Import ZArith NArith String Ascii Strings.Byte List Bool Lia.
From stdpp Require Import base option list strings pretty gmap.

Open Scope string_scope.
Open Scope list_scope.
Open Scope Z_scope.

(** ** Go values shared by both revisions *)

(** A Go [error]: [None] is [nil], [Some msg] a non-nil error with its
    message. *)
Definition error := option string.

Definition isNil (e : error) : bool :=
  match e with None => true | Some _ => false end.

(** The part of gophercloud's package [nodes] the orchestrator uses. *)
Module nodes.

Record Node := mkNode { Name : string; ProvisionState : string }.

(** The value [Extract] leaves behind when the call failed. *)
Definition zeroNode : Node := mkNode "" "".

Definition Verifying  := "verifying".
Definition Manageable := "manageable".
Definition Available  := "available".
Definition Active     := "active".
Definition DeployWait := "wait call-back".
Definition Deploying  := "deploying".
Definition Cleaning   := "cleaning".

Record UpdateOperation :=
  mkUpdateOperation { Op : string; Path : string; Value : list (string * string) }.
Definition UpdateOpts := list UpdateOperation.
Definition AddOp := "add".

Record ProvisionStateOpts :=
  mkProvisionStateOpts { Target : string; ConfigDrive : string }.

(** The three remote operations, as state transformers of the world [W].
    [Get] hands back a node value next to its error, as
    [nodes.Get(...).Extract()] does. *)
Record ServiceClient (W : Type) := mkServiceClient {
  Get : string -> W -> (Node * error) * W;
  Update : string -> UpdateOpts -> W -> error * W;
  ChangeProvisionState : string -> ProvisionStateOpts -> W -> error * W
}.
Arguments Get {W}.
Arguments Update {W}.
Arguments ChangeProvisionState {W}.

End nodes.

(** ** Channels, events and runs *)

(** The channels a run can hold: the one the caller passed in, which the
    caller drains ([for x := range status] in the command-line tool), and
    one made inside [Deploy], which nobody else can reach.  A [nil] channel
    is [None]. *)
Inductive Chan := caller_chan | fresh_chan.

(** What a run does to the outside, in program order.  [EvSend c v] is
    the statement [c <- v] being executed; [delivered] says when it gets
    past that statement. *)
Inductive Event (M : Type) :=
| EvGet (uuid : string)
| EvUpdate (uuid : string) (opts : nodes.UpdateOpts)
| EvChangeProvisionState (uuid : string) (opts : nodes.ProvisionStateOpts)
| EvSleep
| EvSend (c : option Chan) (v : M)
| EvClose (c : Chan).
Arguments EvGet {M}.
Arguments EvUpdate {M}.
Arguments EvChangeProvisionState {M}.
Arguments EvSleep {M}.
Arguments EvSend {M}.
Arguments EvClose {M}.

(** A send on a [nil] channel blocks forever, and so does a send on an
    unbuffered channel without a receiver. *)
Definition delivered (c : option Chan) : bool :=
  match c with Some caller_chan => true | _ => false end.

(** How a function call ends. *)
Inductive Outcome :=
| Returned (e : error)
| Blocked
| OutOfFuel.

(** How a [for] loop ends: by [break], or by ending the enclosing call. *)
Inductive Exit :=
| Break
| Stop (o : Outcome).

Record Run (X D W M : Type) := mkRun {
  exit : X;
  dep : D;
  world : W;
  trace : list (Event M)
}.
Arguments mkRun {X D W M}.
Arguments exit {X D W M}.
Arguments dep {X D W M}.
Arguments world {X D W M}.
Arguments trace {X D W M}.

Section Runs.
Context {X D W M : Type}.

Definition emit (e : Event M) (r : Run X D W M) : Run X D W M :=
  mkRun (exit r) (dep r) (world r) (e :: trace r).

(** [c <- v], then [k]. *)
Definition send (blocked : X) (c : option Chan) (v : M) (d : D) (w : W)
    (k : Run X D W M) : Run X D W M :=
  if delivered c then emit (EvSend c v) k
  else mkRun blocked d w [EvSend c v].

End Runs.

(** The code after a loop runs when the loop was left by [break]. *)
Definition andThen {D W M : Type} (r : Run Exit D W M)
    (k : D -> W -> Run Outcome D W M) : Run Outcome D W M :=
  match exit r with
  | Break =>
      let r' := k (dep r) (world r) in
      mkRun (exit r') (dep r') (world r') (trace r ++ trace r')
  | Stop o => mkRun o (dep r) (world r) (trace r)
  end.

(** [defer close(c)]: runs when the function returns. *)
Definition deferClose {D W M : Type} (c : Chan) (r : Run Outcome D W M)
    : Run Outcome D W M :=
  match exit r with
  | Returned _ => mkRun (exit r) (dep r) (world r) (trace r ++ [EvClose c])
  | _ => r
  end.

(** *** Readings of a trace *)

Section Readings.
Context {M : Type}.

(** The values the caller receives. *)
Fixpoint sent (tr : list (Event M)) : list M :=
  match tr with
  | [] => []
  | EvSend c v :: tr' => if delivered c then v :: sent tr' else sent tr'
  | _ :: tr' => sent tr'
  end.

(** Every executed send statement, with its channel. *)
Fixpoint sendAttempts (tr : list (Event M)) : list (option Chan * M) :=
  match tr with
  | [] => []
  | EvSend c v :: tr' => (c, v) :: sendAttempts tr'
  | _ :: tr' => sendAttempts tr'
  end.

Fixpoint patchCalls (tr : list (Event M)) : list nodes.UpdateOpts :=
  match tr with
  | [] => []
  | EvUpdate _ opts :: tr' => opts :: patchCalls tr'
  | _ :: tr' => patchCalls tr'
  end.

(** The targets of the provision-state changes requested. *)
Fixpoint requested (tr : list (Event M)) : list string :=
  match tr with
  | [] => []
  | EvChangeProvisionState _ opts :: tr' => nodes.Target opts :: requested tr'
  | _ :: tr' => requested tr'
  end.

Fixpoint polls (tr : list (Event M)) : nat :=
  match tr with
  | [] => O
  | EvGet _ :: tr' => S (polls tr')
  | _ :: tr' => polls tr'
  end.

Fixpoint closes (tr : list (Event M)) : nat :=
  match tr with
  | [] => O
  | EvClose _ :: tr' => S (closes tr')
  | _ :: tr' => closes tr'
  end.

End Readings.

(** [nondecreasing l]: no element is smaller than the one before it. *)
Fixpoint nondecreasing (l : list Z) : bool :=
  match l with
  | x :: ((y :: _) as l') => (x <=? y) && nondecreasing l'
  | _ => true
  end.

Fixpoint increasing (l : list Z) : bool :=
  match l with
  | x :: ((y :: _) as l') => (x <? y) && increasing l'
  | _ => true
  end.

(** ** The integer-channel revision *)

Module IntVariant.

Definition DeploymentState := string.

Definition StateBegin : DeploymentState := "BEGIN".
Definition StateBeginPercent : Z := 0.
Definition StateConfigure : DeploymentState := "CONFIGURE".
Definition StateConfigurePercent : Z := 10.
Definition StateManage : DeploymentState := "MANAGE".
Definition StateManagePercent : Z := 15.
Definition StateWaitManage : DeploymentState := "WAIT_MANAGE".
Definition StateWaitManagePercent : Z := 20.
Definition StateProvide : DeploymentState := "PROVIDE".
Definition StateProvidePercent : Z := 25.
Definition StateWaitProvide : DeploymentState := "WAIT_PROVIDE".
Definition StateWaitProvidePercent : Z := 30.
Definition StateDeploy : DeploymentState := "DEPLOY".
Definition StateDeployPercent : Z := 35.
Definition StateWaitDeploy : DeploymentState := "WAIT_DEPLOY".
Definition StateWaitDeployPercent : Z := 95.
Definition StateDone : DeploymentState := "DONE".
Definition StateDonePercent : Z := 100.



Section Orchestrator.
Context {W : Type}.

(** [ConfigDriveBuilder]: anything with a [ToConfigDrive] method. *)
Definition ConfigDriveBuilder := W -> (string * error) * W.

(** Go's [int] is [Z] here: the one computation on [currentPercent] is
    [currentPercent + 2] under [currentPercent < 95], which stays far
    from the ends of a machine integer. *)
Record Deployment := mkDeployment {
  NodeUUID : string;
  UpdateOpts : nodes.UpdateOpts;
  ConfigDrive : ConfigDriveBuilder;
  Error : error;
  Timeout : Z;
  Delay : Z;
  currentState : DeploymentState;
  currentPercent : Z;
  status : option Chan
}.

Definition set_Error (e : error) (d : Deployment) : Deployment :=
  mkDeployment (NodeUUID d) (UpdateOpts d) (ConfigDrive d) e (Timeout d)
    (Delay d) (currentState d) (currentPercent d) (status d).
Definition set_currentState (s : DeploymentState) (d : Deployment) : Deployment :=
  mkDeployment (NodeUUID d) (UpdateOpts d) (ConfigDrive d) (Error d) (Timeout d)
    (Delay d) s (currentPercent d) (status d).
Definition set_currentPercent (p : Z) (d : Deployment) : Deployment :=
  mkDeployment (NodeUUID d) (UpdateOpts d) (ConfigDrive d) (Error d) (Timeout d)
    (Delay d) (currentState d) p (status d).
Definition set_status (c : option Chan) (d : Deployment) : Deployment :=
  mkDeployment (NodeUUID d) (UpdateOpts d) (ConfigDrive d) (Error d) (Timeout d)
    (Delay d) (currentState d) (currentPercent d) c.

(** The field [deployment.client]: [Deploy] stores its argument there
    and the methods only read it. *)
Variable client : nodes.ServiceClient W.

Definition CallRun := Run Outcome Deployment W Z.
Definition LoopRun := Run Exit Deployment W Z.

(** Every method ends in [return deployment.nextState()]; the
    dispatcher is the argument [nextState] here and is tied to
    [nextState] below. *)

Definition done (d : Deployment) (w : W) : CallRun :=
  send Blocked (status d) StateDonePercent d w
    (mkRun (Returned (Error d)) d w []).

Definition configure (nextState : Deployment -> W -> CallRun)
    (d : Deployment) (w : W) : CallRun :=
  if negb (Nat.eqb (length (UpdateOpts d)) 0) then
    let '(err, w1) := nodes.Update client (NodeUUID d) (UpdateOpts d) w in
    emit (EvUpdate (NodeUUID d) (UpdateOpts d))
      (nextState (if isNil err then d else set_Error err d) w1)
  else nextState d w.

Definition manage (nextState : Deployment -> W -> CallRun)
    (d : Deployment) (w : W) : CallRun :=
  let opts := nodes.mkProvisionStateOpts "manage" "" in
  let '(err, w1) := nodes.ChangeProvisionState client (NodeUUID d) opts w in
  emit (EvChangeProvisionState (NodeUUID d) opts)
    (nextState (if isNil err then d else set_Error err d) w1).

Fixpoint waitManageLoop (fuel : nat) (d : Deployment) (w : W) : LoopRun :=
  match fuel with
  | O => mkRun (Stop OutOfFuel) d w []
  | S fuel' =>
      let '((node, err), w1) := nodes.Get client (NodeUUID d) w in
      emit (EvGet (NodeUUID d))
        (if negb (isNil err) then mkRun Break (set_Error err d) w1 []
         else if String.eqb (nodes.ProvisionState node) nodes.Manageable then
           mkRun Break d w1 []
         else if String.eqb (nodes.ProvisionState node) nodes.Verifying then
           emit EvSleep (waitManageLoop fuel' d w1)
         else
           waitManageLoop fuel'
             (set_Error (Some ("manage failed: " +:+ nodes.Name node
                               +:+ " current state is: "
                               +:+ nodes.ProvisionState node)) d) w1)
  end.

Definition waitManage (fuel : nat) (nextState : Deployment -> W -> CallRun)
    (d : Deployment) (w : W) : CallRun :=
  andThen (waitManageLoop fuel d w) nextState.

Definition provide (nextState : Deployment -> W -> CallRun)
    (d : Deployment) (w : W) : CallRun :=
  let opts := nodes.mkProvisionStateOpts "provide" "" in
  let '(err, w1) := nodes.ChangeProvisionState client (NodeUUID d) opts w in
  emit (EvChangeProvisionState (NodeUUID d) opts)
    (nextState (set_Error err d) w1).

Fixpoint waitProvideLoop (fuel : nat) (d : Deployment) (w : W) : LoopRun :=
  match fuel with
  | O => mkRun (Stop OutOfFuel) d w []
  | S fuel' =>
      let '((node, err), w1) := nodes.Get client (NodeUUID d) w in
      emit (EvGet (NodeUUID d))
        (if negb (isNil err) then mkRun Break (set_Error err d) w1 []
         else if String.eqb (nodes.ProvisionState node) nodes.Available then
           mkRun Break d w1 []
         else if String.eqb (nodes.ProvisionState node) nodes.Cleaning then
           emit EvSleep (waitProvideLoop fuel' d w1)
         else
           mkRun (Stop (Returned (Some ("provide failed, " +:+ nodes.Name node
                                        +:+ " current state is: "
                                        +:+ nodes.ProvisionState node))))
             d w1 [])
  end.

Definition waitProvide (fuel : nat) (nextState : Deployment -> W -> CallRun)
    (d : Deployment) (w : W) : CallRun :=
  andThen (waitProvideLoop fuel d w) nextState.

Definition deploy (nextState : Deployment -> W -> CallRun)
    (d : Deployment) (w : W) : CallRun :=
  let '((configDrive, err), w1) := ConfigDrive d w in
  if negb (isNil err) then nextState (set_Error err d) w1
  else
    let opts := nodes.mkProvisionStateOpts "active" configDrive in
    let '(err, w2) := nodes.ChangeProvisionState client (NodeUUID d) opts w1 in
    emit (EvChangeProvisionState (NodeUUID d) opts)
      (nextState (set_Error err d) w2).

Fixpoint waitDeployLoop (fuel : nat) (d : Deployment) (w : W) : LoopRun :=
  match fuel with
  | O => mkRun (Stop OutOfFuel) d w []
  | S fuel' =>
      let '((node, err), w1) := nodes.Get client (NodeUUID d) w in
      emit (EvGet (NodeUUID d))
        (if negb (isNil err) then mkRun Break (set_Error err d) w1 []
         else if String.eqb (nodes.ProvisionState node) nodes.Active then
           mkRun Break d w1 []
         else if String.eqb (nodes.ProvisionState node) nodes.DeployWait
                 || String.eqb (nodes.ProvisionState node) nodes.Deploying then
           if currentPercent d <? StateWaitDeployPercent then
             let d' := set_currentPercent (currentPercent d + 2) d in
             send (Stop Blocked) (status d') (currentPercent d') d' w1
               (emit EvSleep (waitDeployLoop fuel' d' w1))
           else emit EvSleep (waitDeployLoop fuel' d w1)
         else
           mkRun Break
             (set_Error (Some ("deploy failed: " +:+ nodes.Name node
                               +:+ " current state is: "
                               +:+ nodes.ProvisionState node)) d) w1 [])
  end.

Definition waitDeploy (fuel : nat) (nextState : Deployment -> W -> CallRun)
    (d : Deployment) (w : W) : CallRun :=
  andThen (waitDeployLoop fuel d w) nextState.

(** The dispatcher.  [fuel] bounds the depth of the chain of calls and
    the number of rounds of each polling loop. *)
Fixpoint nextState (fuel : nat) (d : Deployment) (w : W) : CallRun :=
  match fuel with
  | O => mkRun OutOfFuel d w []
  | S fuel' =>
      if negb (isNil (Error d)) then done d w
      else
        let state := currentState d in
        (* the statements after the switch: report, then go on *)
        let go (d' : Deployment) (next : Deployment -> W -> CallRun) :=
          send Blocked (status d') (currentPercent d') d' w (next d' w) in
        if String.eqb state StateBegin then
          go (set_currentState StateConfigure d) (configure (nextState fuel'))
        else if String.eqb state StateConfigure then
          go (set_currentState StateManage d) (manage (nextState fuel'))
        else if String.eqb state StateManage then
          go (set_currentState StateWaitManage
                (set_currentPercent StateConfigurePercent d))
             (waitManage fuel' (nextState fuel'))
        else if String.eqb state StateWaitManage then
          go (set_currentState StateProvide
                (set_currentPercent StateManagePercent d))
             (provide (nextState fuel'))
        else if String.eqb state StateProvide then
          go (set_currentState StateWaitProvide
                (set_currentPercent StateWaitManagePercent d))
             (waitProvide fuel' (nextState fuel'))
        else if String.eqb state StateWaitProvide then
          go (set_currentState StateDeploy
                (set_currentPercent StateProvidePercent d))
             (deploy (nextState fuel'))
        else if String.eqb state StateDeploy then
          go (set_currentState StateWaitDeploy
                (set_currentPercent StateWaitProvidePercent d))
             (waitDeploy fuel' (nextState fuel'))
        else if String.eqb state StateWaitDeploy then
          go (set_currentState StateDone
                (set_currentPercent StateDeployPercent d))
             done
        else mkRun (Returned (Some "unknown state")) d w []
  end.

Definition Deploy (fuel : nat) (deployment : Deployment)
    (percent : option Chan) (w : W) : CallRun :=
  let d := set_currentState StateBegin deployment in
  match percent with
  | Some c =>
      let d := set_status percent d in
      send Blocked (status d) StateBeginPercent d w
        (deferClose c (nextState fuel d w))
  | None =>
      let d := set_status (Some fresh_chan) d in
      deferClose fresh_chan (nextState fuel d w)
  end.

End Orchestrator.

Arguments Deployment : clear implicits.

End IntVariant.

(** ** The state-struct revision *)

Module StructVariant.

Record DeploymentState := mkState { Name : string; Percentage : Z }.

(** Go's [==] on the struct, which the [switch] of the dispatcher uses. *)
Definition state_eqb (a b : DeploymentState) : bool :=
  String.eqb (Name a) (Name b) && (Percentage a =? Percentage b).

Definition StateBegin       := mkState "BEGIN" 0.
Definition StateConfigure   := mkState "CONFIGURE" 5.
Definition StateManage      := mkState "MANAGE" 15.
Definition StateWaitManage  := mkState "WAIT_MANAGE" 20.
Definition StateProvide     := mkState "PROVIDE" 30.
Definition StateWaitProvide := mkState "WAIT_PROVIDE" 35.
Definition StateDeploy      := mkState "DEPLOY" 40.
Definition StateWaitDeploy  := mkState "WAIT_DEPLOY" 50.
Definition StateDone        := mkState "DONE" 100.
Definition StateError       := mkState "ERROR" 100.

Section Orchestrator.
Context {W : Type}.

Definition ConfigDriveBuilder := W -> (string * error) * W.

Record Deployment := mkDeployment {
  NodeUUID : string;
  UpdateOpts : nodes.UpdateOpts;
  ConfigDrive : ConfigDriveBuilder;
  Error : error;
  Timeout : Z;
  Delay : Z;
  currentState : DeploymentState;
  status : option Chan
}.

Definition set_Error (e : error) (d : Deployment) : Deployment :=
  mkDeployment (NodeUUID d) (UpdateOpts d) (ConfigDrive d) e (Timeout d)
    (Delay d) (currentState d) (status d).
Definition set_currentState (s : DeploymentState) (d : Deployment) : Deployment :=
  mkDeployment (NodeUUID d) (UpdateOpts d) (ConfigDrive d) (Error d) (Timeout d)
    (Delay d) s (status d).
Definition set_status (c : option Chan) (d : Deployment) : Deployment :=
  mkDeployment (NodeUUID d) (UpdateOpts d) (ConfigDrive d) (Error d) (Timeout d)
    (Delay d) (currentState d) c.

Variable client : nodes.ServiceClient W.

Definition CallRun := Run Outcome Deployment W DeploymentState.
Definition LoopRun := Run Exit Deployment W DeploymentState.

(** [if deployment.status != nil { deployment.status <- v }], then [k]. *)
Definition sendIfSet (v : DeploymentState) (d : Deployment) (w : W)
    (k : CallRun) : CallRun :=
  match status d with
  | Some _ => send Blocked (status d) v d w k
  | None => k
  end.

Definition done (d : Deployment) (w : W) : CallRun :=
  mkRun (Returned (Error d)) d w [].

Definition configure (nextState : Deployment -> W -> CallRun)
    (d : Deployment) (w : W) : CallRun :=
  if negb (Nat.eqb (length (UpdateOpts d)) 0) then
    let '(err, w1) := nodes.Update client (NodeUUID d) (UpdateOpts d) w in
    emit (EvUpdate (NodeUUID d) (UpdateOpts d))
      (nextState (if isNil err then d else set_Error err d) w1)
  else nextState d w.

Definition manage (nextState : Deployment -> W -> CallRun)
    (d : Deployment) (w : W) : CallRun :=
  let opts := nodes.mkProvisionStateOpts "manage" "" in
  let '(err, w1) := nodes.ChangeProvisionState client (NodeUUID d) opts w in
  emit (EvChangeProvisionState (NodeUUID d) opts)
    (nextState (if isNil err then d else set_Error err d) w1).

Fixpoint waitManageLoop (fuel : nat) (d : Deployment) (w : W) : LoopRun :=
  match fuel with
  | O => mkRun (Stop OutOfFuel) d w []
  | S fuel' =>
      let '((node, err), w1) := nodes.Get client (NodeUUID d) w in
      emit (EvGet (NodeUUID d))
        (if negb (isNil err) then mkRun Break (set_Error err d) w1 []
         else if String.eqb (nodes.ProvisionState node) nodes.Manageable then
           mkRun Break d w1 []
         else if String.eqb (nodes.ProvisionState node) nodes.Verifying then
           emit EvSleep (waitManageLoop fuel' d w1)
         else
           waitManageLoop fuel'
             (set_Error (Some ("manage failed: node's current state is: "
                               +:+ nodes.ProvisionState node)) d) w1)
  end.

Definition waitManage (fuel : nat) (nextState : Deployment -> W -> CallRun)
    (d : Deployment) (w : W) : CallRun :=
  andThen (waitManageLoop fuel d w) nextState.

Definition provide (nextState : Deployment -> W -> CallRun)
    (d : Deployment) (w : W) : CallRun :=
  let opts := nodes.mkProvisionStateOpts "provide" "" in
  let '(err, w1) := nodes.ChangeProvisionState client (NodeUUID d) opts w in
  emit (EvChangeProvisionState (NodeUUID d) opts)
    (nextState (set_Error err d) w1).

(** The body of [for node, err := Get(...); err == nil; { ... }], entered
    only with [err == nil]: the init statement ran once, before the
    loop, and nothing in the body or the (empty) post statement polls
    again, so [node] is the same in every round. *)
Fixpoint waitProvideLoop (fuel : nat) (node : nodes.Node) (d : Deployment)
    (w : W) : LoopRun :=
  match fuel with
  | O => mkRun (Stop OutOfFuel) d w []
  | S fuel' =>
      if String.eqb (nodes.ProvisionState node) nodes.Available then
        mkRun Break d w []
      else if String.eqb (nodes.ProvisionState node) nodes.Cleaning then
        emit EvSleep (waitProvideLoop fuel' node d w)
      else
        mkRun (Stop (Returned (Some ("provide failed, node's current state is: "
                                     +:+ nodes.ProvisionState node))))
          d w []
  end.

Definition waitProvide (fuel : nat) (nextState : Deployment -> W -> CallRun)
    (d : Deployment) (w : W) : CallRun :=
  (* var err error: the variable the assignment after the loop reads *)
  let outerErr : error := None in
  (* node, err := ...: new variables, scoped to the for statement *)
  let '((node, err), w1) := nodes.Get client (NodeUUID d) w in
  emit (EvGet (NodeUUID d))
    (andThen
       (if isNil err then waitProvideLoop fuel node d w1
        else mkRun Break d w1 [])
       (fun d' w' => nextState (set_Error outerErr d') w')).

Definition deploy (nextState : Deployment -> W -> CallRun)
    (d : Deployment) (w : W) : CallRun :=
  let '((configDrive, err), w1) := ConfigDrive d w in
  if negb (isNil err) then nextState (set_Error err d) w1
  else
    let opts := nodes.mkProvisionStateOpts "active" configDrive in
    let '(err, w2) := nodes.ChangeProvisionState client (NodeUUID d) opts w1 in
    emit (EvChangeProvisionState (NodeUUID d) opts)
      (nextState (set_Error err d) w2).

(** [percentage] is the local variable of [waitDeploy]. *)
Fixpoint waitDeployLoop (fuel : nat) (percentage : Z) (d : Deployment)
    (w : W) : LoopRun :=
  match fuel with
  | O => mkRun (Stop OutOfFuel) d w []
  | S fuel' =>
      let '((node, err), w1) := nodes.Get client (NodeUUID d) w in
      let d1 := if negb (isNil err) then set_Error err d else d in
      emit (EvGet (NodeUUID d))
        (if String.eqb (nodes.ProvisionState node) nodes.Active then
           mkRun Break d1 w1 []
         else if String.eqb (nodes.ProvisionState node) nodes.DeployWait
                 || String.eqb (nodes.ProvisionState node) nodes.Deploying then
           let percentage' :=
             if percentage <? 99 then percentage + 1 else percentage in
           send (Stop Blocked) (status d1)
             (mkState "WAIT_DEPLOY" percentage') d1 w1
             (emit EvSleep (waitDeployLoop fuel' percentage' d1 w1))
         else
           mkRun Break
             (set_Error (Some ("deploy failed: node's current state is: "
                               +:+ nodes.ProvisionState node)) d1) w1 [])
  end.

Definition waitDeploy (fuel : nat) (nextState : Deployment -> W -> CallRun)
    (d : Deployment) (w : W) : CallRun :=
  andThen (waitDeployLoop fuel 50 d w) nextState.

Fixpoint nextState (fuel : nat) (d : Deployment) (w : W) : CallRun :=
  match fuel with
  | O => mkRun OutOfFuel d w []
  | S fuel' =>
      if negb (isNil (Error d)) then sendIfSet StateError d w (done d w)
      else
        let state := currentState d in
        let go (d' : Deployment) (next : Deployment -> W -> CallRun) :=
          sendIfSet (currentState d') d' w (next d' w) in
        if state_eqb state StateBegin then
          go (set_currentState StateConfigure d) (configure (nextState fuel'))
        else if state_eqb state StateConfigure then
          go (set_currentState StateManage d) (manage (nextState fuel'))
        else if state_eqb state StateManage then
          go (set_currentState StateWaitManage d)
             (waitManage fuel' (nextState fuel'))
        else if state_eqb state StateWaitManage then
          go (set_currentState StateProvide d) (provide (nextState fuel'))
        else if state_eqb state StateProvide then
          go (set_currentState StateWaitProvide d)
             (waitProvide fuel' (nextState fuel'))
        else if state_eqb state StateWaitProvide then
          go (set_currentState StateDeploy d) (deploy (nextState fuel'))
        else if state_eqb state StateDeploy then
          go (set_currentState StateWaitDeploy d)
             (waitDeploy fuel' (nextState fuel'))
        else if state_eqb state StateWaitDeploy then
          go (set_currentState StateDone d) done
        else mkRun (Returned (Some "unknown state")) d w []
  end.

(** [status'] is the parameter [status] of the Go function. *)
Definition Deploy (fuel : nat) (deployment : Deployment)
    (status' : option Chan) (w : W) : CallRun :=
  let d := set_currentState StateBegin deployment in
  match status' with
  | Some c =>
      let d := set_status status' d in
      send Blocked (status d) StateBegin d w
        (deferClose c (nextState fuel d w))
  | None => nextState fuel d w
  end.

End Orchestrator.

Arguments Deployment : clear implicits.

End StructVariant.

(** ** The string-channel revision

    An earlier revision of the orchestrator, kept next to the config-drive
    builder: the progress channel carries the state names ([chan string]),
    the node is always patched with its instance info and its properties,
    and each of the three waits polls the node in the init statement of
    its [for], once. *)

Module StringVariant.

Definition DeploymentState := string.

Definition StateBegin : DeploymentState := "BEGIN".
Definition StateConfigure : DeploymentState := "CONFIGURE".
Definition StateManage : DeploymentState := "MANAGE".
Definition StateWaitManage : DeploymentState := "WAIT_MANAGE".
Definition StateProvide : DeploymentState := "PROVIDE".
Definition StateWaitProvide : DeploymentState := "WAIT_PROVIDE".
Definition StateDeploy : DeploymentState := "DEPLOY".
Definition StateWaitDeploy : DeploymentState := "WAIT_DEPLOY".
Definition StateDone : DeploymentState := "DONE".

Section Orchestrator.
Context {W : Type}.

(** The two [map[string]string] fields are the values of the patch
    operations. *)
Record Deployment := mkDeployment {
  NodeUUID : string;
  InstanceInfo : list (string * string);
  Properties : list (string * string);
  Error : error;
  currentState : DeploymentState;
  status : option Chan
}.

Definition set_Error (e : error) (d : Deployment) : Deployment :=
  mkDeployment (NodeUUID d) (InstanceInfo d) (Properties d) e
    (currentState d) (status d).
Definition set_currentState (s : DeploymentState) (d : Deployment) : Deployment :=
  mkDeployment (NodeUUID d) (InstanceInfo d) (Properties d) (Error d)
    s (status d).
Definition set_status (c : option Chan) (d : Deployment) : Deployment :=
  mkDeployment (NodeUUID d) (InstanceInfo d) (Properties d) (Error d)
    (currentState d) c.

Variable client : nodes.ServiceClient W.

Definition CallRun := Run Outcome Deployment W string.
Definition LoopRun := Run Exit Deployment W string.

(** [if deployment.status != nil { deployment.status <- v }], then [k]. *)
Definition sendIfSet (v : string) (d : Deployment) (w : W)
    (k : CallRun) : CallRun :=
  match status d with
  | Some _ => send Blocked (status d) v d w k
  | None => k
  end.

Definition done (d : Deployment) (w : W) : CallRun :=
  mkRun (Returned (Error d)) d w [].

Definition configure (nextState : Deployment -> W -> CallRun)
    (d : Deployment) (w : W) : CallRun :=
  let opts :=
    [nodes.mkUpdateOperation nodes.AddOp "/instance_info" (InstanceInfo d);
     nodes.mkUpdateOperation nodes.AddOp "/properties" (Properties d)] in
  let '(err, w1) := nodes.Update client (NodeUUID d) opts w in
  emit (EvUpdate (NodeUUID d) opts)
    (nextState (if isNil err then d else set_Error err d) w1).

Definition manage (nextState : Deployment -> W -> CallRun)
    (d : Deployment) (w : W) : CallRun :=
  let opts := nodes.mkProvisionStateOpts "manage" "" in
  let '(err, w1) := nodes.ChangeProvisionState client (NodeUUID d) opts w in
  emit (EvChangeProvisionState (NodeUUID d) opts)
    (nextState (if isNil err then d else set_Error err d) w1).

(** The body of [for node, err := Get(...); err == nil; { ... }], entered
    only with [err == nil]: the init statement ran once, before the loop,
    and neither the body nor the (empty) post statement polls again, so
    [node] is the same in every round. *)
Fixpoint waitManageLoop (fuel : nat) (node : nodes.Node) (d : Deployment)
    (w : W) : LoopRun :=
  match fuel with
  | O => mkRun (Stop OutOfFuel) d w []
  | S fuel' =>
      if String.eqb (nodes.ProvisionState node) nodes.Manageable then
        mkRun Break d w []
      else if String.eqb (nodes.ProvisionState node) nodes.Verifying then
        emit EvSleep (waitManageLoop fuel' node d w)
      else
        waitManageLoop fuel' node
          (set_Error (Some ("Manage failed, node's current state is: "
                            +:+ nodes.ProvisionState node)) d) w
  end.

Definition waitManage (fuel : nat) (nextState : Deployment -> W -> CallRun)
    (d : Deployment) (w : W) : CallRun :=
  (* var err error: the variable the test after the loop reads *)
  let outerErr : error := None in
  (* node, err := ...: new variables, scoped to the for statement *)
  let '((node, err), w1) := nodes.Get client (NodeUUID d) w in
  emit (EvGet (NodeUUID d))
    (andThen
       (if isNil err then waitManageLoop fuel node d w1
        else mkRun Break d w1 [])
       (fun d' w' =>
          nextState (if isNil outerErr then d' else set_Error outerErr d') w')).

Definition provide (nextState : Deployment -> W -> CallRun)
    (d : Deployment) (w : W) : CallRun :=
  let opts := nodes.mkProvisionStateOpts "provide" "" in
  let '(err, w1) := nodes.ChangeProvisionState client (NodeUUID d) opts w in
  emit (EvChangeProvisionState (NodeUUID d) opts)
    (if negb (isNil err) then
       mkRun (Returned (Some "Could not change node to 'provide'.")) d w1 []
     else nextState d w1).

Fixpoint waitProvideLoop (fuel : nat) (node : nodes.Node) (d : Deployment)
    (w : W) : LoopRun :=
  match fuel with
  | O => mkRun (Stop OutOfFuel) d w []
  | S fuel' =>
      if String.eqb (nodes.ProvisionState node) nodes.Available then
        mkRun Break d w []
      else if String.eqb (nodes.ProvisionState node) nodes.Cleaning then
        emit EvSleep (waitProvideLoop fuel' node d w)
      else
        mkRun (Stop (Returned (Some ("Provide failed, node's current state is: "
                                     +:+ nodes.ProvisionState node))))
          d w []
  end.

Definition waitProvide (fuel : nat) (nextState : Deployment -> W -> CallRun)
    (d : Deployment) (w : W) : CallRun :=
  let '((node, err), w1) := nodes.Get client (NodeUUID d) w in
  emit (EvGet (NodeUUID d))
    (andThen
       (if isNil err then waitProvideLoop fuel node d w1
        else mkRun Break d w1 [])
       nextState).

Definition deploy (nextState : Deployment -> W -> CallRun)
    (d : Deployment) (w : W) : CallRun :=
  let opts := nodes.mkProvisionStateOpts "active" "" in
  let '(err, w1) := nodes.ChangeProvisionState client (NodeUUID d) opts w in
  emit (EvChangeProvisionState (NodeUUID d) opts)
    (if negb (isNil err) then
       mkRun (Returned (Some "Could not change node to 'active'.")) d w1 []
     else nextState d w1).

Fixpoint waitDeployLoop (fuel : nat) (node : nodes.Node) (d : Deployment)
    (w : W) : LoopRun :=
  match fuel with
  | O => mkRun (Stop OutOfFuel) d w []
  | S fuel' =>
      if String.eqb (nodes.ProvisionState node) nodes.Active then
        mkRun Break d w []
      else if String.eqb (nodes.ProvisionState node) nodes.DeployWait then
        emit EvSleep (waitDeployLoop fuel' node d w)
      else
        waitDeployLoop fuel' node
          (set_Error (Some ("Deploy failed, node's current state is: "
                            +:+ nodes.ProvisionState node)) d) w
  end.

Definition waitDeploy (fuel : nat) (nextState : Deployment -> W -> CallRun)
    (d : Deployment) (w : W) : CallRun :=
  let outerErr : error := None in
  let '((node, err), w1) := nodes.Get client (NodeUUID d) w in
  emit (EvGet (NodeUUID d))
    (andThen
       (if isNil err then waitDeployLoop fuel node d w1
        else mkRun Break d w1 [])
       (fun d' w' =>
          nextState (if isNil outerErr then d' else set_Error outerErr d') w')).

Fixpoint nextState (fuel : nat) (d : Deployment) (w : W) : CallRun :=
  match fuel with
  | O => mkRun OutOfFuel d w []
  | S fuel' =>
      if negb (isNil (Error d)) then sendIfSet "ERROR" d w (done d w)
      else
        let state := currentState d in
        let go (d' : Deployment) (next : Deployment -> W -> CallRun) :=
          sendIfSet (currentState d') d' w (next d' w) in
        if String.eqb state StateBegin then
          go (set_currentState StateConfigure d) (configure (nextState fuel'))
        else if String.eqb state StateConfigure then
          go (set_currentState StateManage d) (manage (nextState fuel'))
        else if String.eqb state StateManage then
          go (set_currentState StateWaitManage d)
             (waitManage fuel' (nextState fuel'))
        else if String.eqb state StateWaitManage then
          go (set_currentState StateProvide d) (provide (nextState fuel'))
        else if String.eqb state StateProvide then
          go (set_currentState StateWaitProvide d)
             (waitProvide fuel' (nextState fuel'))
        else if String.eqb state StateWaitProvide then
          go (set_currentState StateDeploy d) (deploy (nextState fuel'))
        else if String.eqb state StateDeploy then
          go (set_currentState StateWaitDeploy d)
             (waitDeploy fuel' (nextState fuel'))
        else if String.eqb state StateWaitDeploy then
          go (set_currentState StateDone d) done
        else mkRun (Returned (Some "Unknown state")) d w []
  end.

(** [status'] is the parameter [status] of the Go function: the first
    send is on the parameter, before the field is set. *)
Definition Deploy (fuel : nat) (deployment : Deployment)
    (status' : option Chan) (w : W) : CallRun :=
  let d := set_currentState StateBegin deployment in
  match status' with
  | Some c =>
      send Blocked status' StateBegin d w
        (deferClose c (nextState fuel (set_status status' d) w))
  | None => nextState fuel d w
  end.

End Orchestrator.

End StringVariant.

(** ** User data and the config drive *)

(** [base64.StdEncoding.EncodeToString]: the alphabet of RFC 4648, three
    bytes to four characters, padded with [=]. *)
Module base64.

Definition encodeStd : string :=
  "ABCDEFGHIJKLMNOPQRSTUVWXYZabcdefghijklmnopqrstuvwxyz0123456789+/".

Definition sextet (n : N) : ascii :=
  match String.get (N.to_nat n) encodeStd with
  | Some c => c
  | None => "="%char
  end.

Definition pad : ascii := "="%char.

Fixpoint EncodeToString (src : list byte) : string :=
  match src with
  | [] => EmptyString
  | [a] =>
      let v := (Byte.to_N a * 65536)%N in
      String (sextet (v / 262144)) (String (sextet ((v / 4096) mod 64))
        (String pad (String pad EmptyString)))
  | [a; b] =>
      let v := (Byte.to_N a * 65536 + Byte.to_N b * 256)%N in
      String (sextet (v / 262144)) (String (sextet ((v / 4096) mod 64))
        (String (sextet ((v / 64) mod 64)) (String pad EmptyString)))
  | a :: b :: c :: rest =>
      let v := (Byte.to_N a * 65536 + Byte.to_N b * 256 + Byte.to_N c)%N in
      String (sextet (v / 262144)) (String (sextet ((v / 4096) mod 64))
        (String (sextet ((v / 64) mod 64)) (String (sextet (v mod 64))
          (EncodeToString rest))))
  end.

End base64.

Module configdrive.

(** The operating system as [ToConfigDrive] sees it: the files by
    absolute path, the directories made, a counter for the names
    [TempDir] hands out, and [faults], which decides call by call
    whether the next system call fails ([Some e]) or not. *)
Record OS := mkOS {
  files : gmap string (list byte);
  dirs : list string;
  tempSeq : N;
  faults : list error
}.

(** A computation on the operating system that may fail. *)
Definition IO (A : Type) := OS -> (A + string) * OS.

Definition ret {A} (a : A) : IO A := fun os => (inl a, os).
Definition raise {A} (e : string) : IO A := fun os => (inr e, os).
Definition bind {A B} (m : IO A) (k : A -> IO B) : IO B :=
  fun os =>
    match m os with
    | (inl a, os') => k a os'
    | (inr e, os') => (inr e, os')
    end.

Notation "x <- m ;; k" := (bind m (fun x => k))
  (at level 100, m at next level, right associativity).

(** A Go result pair [(a, err)] in [IO]. *)
Definition lift {A} (r : A * error) : IO A :=
  match r with
  | (a, None) => ret a
  | (_, Some e) => raise e
  end.

(** A system call: fails when the oracle says so, else does [ok]. *)
Definition syscall {A} (ok : OS -> A * OS) : IO A :=
  fun os =>
    match faults os with
    | Some e :: rest =>
        (inr e, mkOS (files os) (dirs os) (tempSeq os) rest)
    | None :: rest =>
        let '(a, os') := ok (mkOS (files os) (dirs os) (tempSeq os) rest) in
        (inl a, os')
    | [] => let '(a, os') := ok os in (inl a, os')
    end.

(** [ioutil.TempDir("", prefix)]: a new directory under the default
    temporary directory, named by the prefix and a number not used
    before. *)
Definition TempDir (prefix : string) : IO string :=
  syscall (fun os =>
    let name := "/tmp/" +:+ prefix +:+ pretty (tempSeq os) in
    (name, mkOS (files os) (name :: dirs os) (N.succ (tempSeq os)) (faults os))).

Definition MkdirAll (path : string) : IO unit :=
  syscall (fun os =>
    (tt, mkOS (files os) (path :: dirs os) (tempSeq os) (faults os))).

Definition WriteFile (path : string) (data : list byte) : IO unit :=
  syscall (fun os =>
    (tt, mkOS (<[path := data]> (files os)) (dirs os) (tempSeq os) (faults os))).

(** [filepath.FromSlash] where the separator is the slash. *)
Definition FromSlash (path : string) : string := path.

Fixpoint stripPrefix (pre s : string) : option string :=
  match pre with
  | EmptyString => Some s
  | String a pre' =>
      match s with
      | String b s' => if Ascii.eqb a b then stripPrefix pre' s' else None
      | EmptyString => None
      end
  end.

(** The files below [directory], each with its path relative to it. *)
Definition stagedTree (directory : string) (os : OS)
    : list (string * list byte) :=
  omap (fun '(p, data) =>
          match stripPrefix (directory +:+ "/") p with
          | Some rel => Some (rel, data)
          | None => None
          end)
       (map_to_list (files os)).

(** [m] goes through on a system without faults, and leaves it so. *)
Definition succeeds {A} (m : IO A) : Prop :=
  forall os, faults os = [] ->
    exists a os', m os = (inl a, os') /\ faults os' = [].

(** The older revision of [ToUserData] ([requests.go]) returns a Go
    string. *)
Module requests.
Definition UserDataString_ToUserData (data : string) : string * error :=
  (data, None).
End requests.

Section Builder.
(** A Go [map[string]interface{}] and the two encoders of
    [encoding/json], which fail on values JSON cannot represent. *)
Variable GoMap : Type.
Variable json_MarshalIndent : GoMap -> string -> string -> list byte * error.
Variable json_Marshal : GoMap -> list byte * error.

(** The two implementers of the interface [UserDataBuilder]. *)
Inductive UserDataBuilder :=
| UserDataMap (data : GoMap)
| UserDataString (data : string).

Definition ToUserData (data : UserDataBuilder) : list byte * error :=
  match data with
  | UserDataMap m => json_MarshalIndent m "" "    "
  | UserDataString s => (list_byte_of_string s, None)
  end.

(** In each field [None] is Go's [nil]. *)
Record ConfigDrive := mkConfigDrive {
  UserData : option UserDataBuilder;
  MetaData : option GoMap;
  NetworkData : option GoMap
}.

(** The image format and the compression are codecs outside the
    repository. *)
Variable mkisofs : list (string * list byte) -> list byte.
Variable gzip : list byte -> list byte.

(** Modelled from the spec: [PackDirectoryAsISO] is called by
    [ToConfigDrive] and defined in a file of the package that is not
    among the sources.  The spec has it package the entire staged
    directory tree into a single ISO-9660 image, compress the image
    with gzip, and fail on any underlying I/O or archive-construction
    failure. *)
Definition PackDirectoryAsISO (directory : string) : IO (list byte) :=
  syscall (fun os => (gzip (mkisofs (stagedTree directory os)), os)).

Definition buildConfigDrive (configDrive : ConfigDrive) : IO string :=
  directory <- TempDir "gophercloud" ;;
  let path := FromSlash (directory +:+ "/openstack/latest") in
  _ <- MkdirAll path ;;
  _ <- match UserData configDrive with
       | Some userData =>
           let userDataPath := FromSlash (path +:+ "/user_data") in
           data <- lift (ToUserData userData) ;;
           WriteFile userDataPath data
       | None => ret tt
       end ;;
  _ <- match MetaData configDrive with
       | Some metaData =>
           let metaDataPath := FromSlash (path +:+ "/meta_data.json") in
           data <- lift (json_Marshal metaData) ;;
           WriteFile metaDataPath data
       | None => ret tt
       end ;;
  _ <- match NetworkData configDrive with
       | Some networkData =>
           let networkDataPath := FromSlash (path +:+ "/network_data.json") in
           data <- lift (json_Marshal networkData) ;;
           WriteFile networkDataPath data
       | None => ret tt
       end ;;
  result <- PackDirectoryAsISO directory ;;
  ret (base64.EncodeToString result).

(** The Go result pair: [("", err)] on every failing path. *)
Definition ToConfigDrive (configDrive : ConfigDrive) (os : OS)
    : (string * error) * OS :=
  match buildConfigDrive configDrive os with
  | (inl s, os') => ((s, None), os')
  | (inr e, os') => ((EmptyString, Some e), os')
  end.

End Builder.

Arguments UserDataMap {GoMap}.
Arguments UserDataString {GoMap}.
Arguments ToUserData {GoMap}.
Arguments mkConfigDrive {GoMap}.
Arguments UserData {GoMap}.
Arguments MetaData {GoMap}.
Arguments NetworkData {GoMap}.
Arguments buildConfigDrive {GoMap}.
Arguments ToConfigDrive {GoMap}.

End configdrive.

(** ** A scripted remote

    The world is the list of answers the coming polls will get; once the
    list is used up every further poll gets [rest].  The patch call and the
    provision-state changes succeed. *)

Module Scripted.

Definition World := list (nodes.Node * error).

Definition client (rest : nodes.Node * error) : nodes.ServiceClient World :=
  nodes.mkServiceClient World
    (fun _ w => match w with
                | [] => (rest, [])
                | r :: w' => (r, w')
                end)
    (fun _ _ w => (None, w))
    (fun _ _ w => (None, w)).

(** A successful poll that finds the node in provision state [s]. *)
Definition reports (s : string) : nodes.Node * error :=
  (nodes.mkNode "master-0" s, None).

(** A failed poll, with the node value gophercloud returns then. *)
Definition fails (msg : string) : nodes.Node * error :=
  (nodes.zeroNode, Some msg).

Definition builtDrive : World -> (string * error) * World :=
  fun w => (("Y29uZmlnLWRyaXZl", None), w).

Definition instanceInfo : nodes.UpdateOpts :=
  [nodes.mkUpdateOperation nodes.AddOp "/instance_info" [("root_gb", "25")]].

(** Deployments as a caller builds them: the unexported fields hold
    their zero values. *)
Definition newInt (opts : nodes.UpdateOpts) : IntVariant.Deployment World :=
  IntVariant.mkDeployment "uuid-0" opts builtDrive None 0 0 "" 0 None.

Definition newStruct (opts : nodes.UpdateOpts) : StructVariant.Deployment World :=
  StructVariant.mkDeployment "uuid-0" opts builtDrive None 0 0
    (StructVariant.mkState "" 0) None.

End Scripted.

(** ** A remote that refuses

    As the scripted remote, but the patch call answers [patchErr] and
    every provision-state change answers [changeErr]. *)

Module Faulty.

Definition client (patchErr changeErr : error) (rest : nodes.Node * error)
    : nodes.ServiceClient Scripted.World :=
  nodes.mkServiceClient Scripted.World
    (fun _ w => match w with
                | [] => (rest, [])
                | r :: w' => (r, w')
                end)
    (fun _ _ w => (patchErr, w))
    (fun _ _ w => (changeErr, w)).

(** A config-drive builder whose build fails. *)
Definition brokenDrive : Scripted.World -> (string * error) * Scripted.World :=
  fun w => (("", Some "genisoimage: not found"), w).

Definition newInt (drive : Scripted.World -> (string * error) * Scripted.World)
    : IntVariant.Deployment Scripted.World :=
  IntVariant.mkDeployment "uuid-0" Scripted.instanceInfo drive None 0 0
    IntVariant.StateWaitProvide 25 (Some caller_chan).

Definition newStruct (drive : Scripted.World -> (string * error) * Scripted.World)
    : StructVariant.Deployment Scripted.World :=
  StructVariant.mkDeployment "uuid-0" Scripted.instanceInfo drive None 0 0
    StructVariant.StateWaitProvide (Some caller_chan).

End Faulty.

(** ** A remote that always answers the same

    Every poll gets [answer], every command is accepted, and there is
    nothing to remember. *)

Module Steady.

Definition client (answer : nodes.Node * error) : nodes.ServiceClient unit :=
  nodes.mkServiceClient unit
    (fun _ w => (answer, w))
    (fun _ _ w => (None, w))
    (fun _ _ w => (None, w)).

End Steady.

(** ** Deployments of the string-channel revision *)

Module StringSample.

(** A deployment as a caller builds it. *)
Definition new : StringVariant.Deployment :=
  StringVariant.mkDeployment "uuid-0" [("root_gb", "25")] [("cpus", "8")]
    None "" None.

(** The names a caller reads from the channel in a successful run. *)
Definition announced : list string :=
  [StringVariant.StateBegin; StringVariant.StateConfigure;
   StringVariant.StateManage; StringVariant.StateWaitManage;
   StringVariant.StateProvide; StringVariant.StateWaitProvide;
   StringVariant.StateDeploy; StringVariant.StateWaitDeploy;
   StringVariant.StateDone].

End StringSample.

(** ** A sample config drive

    Stand-ins for what lies outside the repository, to run the builder:
    an image format that lists each file after its path, a compression
    that stores, and an encoder that knows the empty JSON object only. *)

Module Sample.

Definition listing (tree : list (string * list byte)) : list byte :=
  flat_map (fun '(path, data) =>
              list_byte_of_string path ++ [x00] ++ data ++ [x00]) tree.

Definition stored (image : list byte) : list byte := image.

Definition marshalIndent (m : unit) (prefix indent : string)
    : list byte * error :=
  (list_byte_of_string "{}", None).

Definition marshal (m : unit) : list byte * error :=
  (list_byte_of_string "{}", None).

Definition cloudInit : configdrive.ConfigDrive unit :=
  configdrive.mkConfigDrive
    (Some (configdrive.UserDataString "#cloud-init")) (Some tt) None.

Definition emptyDisk : configdrive.OS := configdrive.mkOS ∅ [] 7 [].

Definition built : (string * error) * configdrive.OS :=
  configdrive.ToConfigDrive marshalIndent marshal listing stored
    cloudInit emptyDisk.

End Sample.

(** ** Summaries of a call *)

Definition percentage (v : Z) : Prop := 0 <= v <= 100.

(** The states the dispatcher has a case for. *)
Definition int_dispatchable (s : IntVariant.DeploymentState) : bool :=
  existsb (String.eqb s)
    [IntVariant.StateBegin; IntVariant.StateConfigure; IntVariant.StateManage;
     IntVariant.StateWaitManage; IntVariant.StateProvide;
     IntVariant.StateWaitProvide; IntVariant.StateDeploy;
     IntVariant.StateWaitDeploy].

Definition struct_dispatchable (s : StructVariant.DeploymentState) : bool :=
  existsb (StructVariant.state_eqb s)
    [StructVariant.StateBegin; StructVariant.StateConfigure;
     StructVariant.StateManage; StructVariant.StateWaitManage;
     StructVariant.StateProvide; StructVariant.StateWaitProvide;
     StructVariant.StateDeploy; StructVariant.StateWaitDeploy].

(** What holds of a call of the integer-channel dispatcher, seen from
    outside: it closes nothing, it sends percentages, and when it returns
    it has either gone through [done], with the error it returns on the
    deployment and 100 as the last value sent, or left [waitProvide] by
    its early return. *)
Definition int_accounted {W : Type}
    (r : Run Outcome (IntVariant.Deployment W) W Z) : Prop :=
  closes (trace r) = O
  /\ Forall percentage (map snd (sendAttempts (trace r)))
  /\ forall e, exit r = Returned e ->
       (IntVariant.Error (dep r) = e
        /\ last (sent (trace r)) = Some IntVariant.StateDonePercent)
       \/ (e <> None
           /\ IntVariant.Error (dep r) = None
           /\ IntVariant.currentState (dep r) = IntVariant.StateWaitProvide).

(** The same for the state-struct dispatcher, whose last value is the
    DONE state or the ERROR marker. *)
Definition struct_accounted {W : Type}
    (r : Run Outcome (StructVariant.Deployment W) W StructVariant.DeploymentState)
    : Prop :=
  closes (trace r) = O
  /\ Forall (fun s => percentage (StructVariant.Percentage s))
       (map snd (sendAttempts (trace r)))
  /\ forall e, exit r = Returned e ->
       (StructVariant.Error (dep r) = e
        /\ last (sent (trace r))
           = Some (if isNil e then StructVariant.StateDone
                   else StructVariant.StateError))
       \/ (e <> None
           /\ StructVariant.Error (dep r) = None
           /\ StructVariant.currentState (dep r) = StructVariant.StateWaitProvide).

(** What the three polling loops of the integer-channel revision leave
    alone. *)
Definition int_frame {W : Type} (d : IntVariant.Deployment W)
    (r : Run Exit (IntVariant.Deployment W) W Z) : Prop :=
  closes (trace r) = O
  /\ requested (trace r) = []
  /\ IntVariant.status (dep r) = IntVariant.status d
  /\ IntVariant.currentState (dep r) = IntVariant.currentState d.

Definition struct_frame {W : Type} (d : StructVariant.Deployment W)
    (r : Run Exit (StructVariant.Deployment W) W StructVariant.DeploymentState)
    : Prop :=
  closes (trace r) = O
  /\ requested (trace r) = []
  /\ StructVariant.status (dep r) = StructVariant.status d
  /\ StructVariant.currentState (dep r) = StructVariant.currentState d.

(** ** The commands a run sends to the remote *)

(** The calls of a trace that change the node, in order: "patch" for the
    update call, and the target of each provision-state change. *)
Fixpoint mutations {M : Type} (tr : list (Event M)) : list string :=
  match tr with
  | [] => []
  | EvUpdate _ _ :: tr' => "patch" :: mutations tr'
  | EvChangeProvisionState _ opts :: tr' => nodes.Target opts :: mutations tr'
  | _ :: tr' => mutations tr'
  end.

(** What is still to be sent when the dispatcher is entered in state [s]
    with the patch operations [opts]: the whole happy path from BEGIN, the
    patch only when there is something to patch. *)
Definition int_plan (s : IntVariant.DeploymentState) (opts : nodes.UpdateOpts)
    : list string :=
  if String.eqb s IntVariant.StateBegin then
    (if negb (Nat.eqb (length opts) 0) then ["patch"] else [])
    ++ ["manage"; "provide"; "active"]
  else if String.eqb s IntVariant.StateConfigure then
    ["manage"; "provide"; "active"]
  else if String.eqb s IntVariant.StateManage then ["provide"; "active"]
  else if String.eqb s IntVariant.StateWaitManage then ["provide"; "active"]
  else if String.eqb s IntVariant.StateProvide then ["active"]
  else if String.eqb s IntVariant.StateWaitProvide then ["active"]
  else [].

Definition struct_plan (s : StructVariant.DeploymentState)
    (opts : nodes.UpdateOpts) : list string :=
  if StructVariant.state_eqb s StructVariant.StateBegin then
    (if negb (Nat.eqb (length opts) 0) then ["patch"] else [])
    ++ ["manage"; "provide"; "active"]
  else if StructVariant.state_eqb s StructVariant.StateConfigure then
    ["manage"; "provide"; "active"]
  else if StructVariant.state_eqb s StructVariant.StateManage then
    ["provide"; "active"]
  else if StructVariant.state_eqb s StructVariant.StateWaitManage then
    ["provide"; "active"]
  else if StructVariant.state_eqb s StructVariant.StateProvide then ["active"]
  else if StructVariant.state_eqb s StructVariant.StateWaitProvide then
    ["active"]
  else [].

(** A call follows a plan: what it sends is the beginning of the plan, and
    all of it when the call returns no error. *)
Definition on_plan {D W M : Type} (plan : list string)
    (r : Run Outcome D W M) : Prop :=
  mutations (trace r) `prefix_of` plan
  /\ (exit r = Returned None -> mutations (trace r) = plan).

(** ** Sequences that climb *)

(** [climbs lo hi l]: [l] is non-decreasing and lies between [lo] and
    [hi]. *)
Fixpoint climbs (lo hi : Z) (l : list Z) : Prop :=
  match l with
  | [] => lo <= hi
  | x :: l' => lo <= x /\ climbs x hi l'
  end.

(** The percentage of the state the state-struct dispatcher enters from
    state [s]; 100 where it ends the run. *)
Definition struct_next (s : StructVariant.DeploymentState) : Z :=
  if StructVariant.state_eqb s StructVariant.StateBegin then
    StructVariant.Percentage StructVariant.StateConfigure
  else if StructVariant.state_eqb s StructVariant.StateConfigure then
    StructVariant.Percentage StructVariant.StateManage
  else if StructVariant.state_eqb s StructVariant.StateManage then
    StructVariant.Percentage StructVariant.StateWaitManage
  else if StructVariant.state_eqb s StructVariant.StateWaitManage then
    StructVariant.Percentage StructVariant.StateProvide
  else if StructVariant.state_eqb s StructVariant.StateProvide then
    StructVariant.Percentage StructVariant.StateWaitProvide
  else if StructVariant.state_eqb s StructVariant.StateWaitProvide then
    StructVariant.Percentage StructVariant.StateDeploy
  else if StructVariant.state_eqb s StructVariant.StateDeploy then
    StructVariant.Percentage StructVariant.StateWaitDeploy
  else 100.

(** ** The files of a config drive *)





(** The first error of a sequence of steps. *)
Fixpoint firstError (errors : list error) : error :=
  match errors with
  | [] => None
  | Some e :: _ => Some e
  | None :: rest => firstError rest
  end.

(** ** The course of the string-channel revision *)

(** A stretch of a run in which nothing goes out: no send, no command,
    no poll, no close. *)
Definition silent {M : Type} (tr : list (Event M)) : Prop :=
  sendAttempts tr = [] /\ mutations tr = [] /\ polls tr = O /\ closes tr = O.

(** What follows [s] in [l]. *)
Fixpoint after (s : string) (l : list string) : list string :=
  match l with
  | [] => []
  | x :: l' => if String.eqb s x then l' else after s l'
  end.

(** The state names still to be announced when the dispatcher is entered
    in state [s]. *)
Definition string_rest (s : string) : list string :=
  after s StringSample.announced.

(** The command sent to the remote on entering a state. *)
Definition string_command (s : string) : option string :=
  if String.eqb s StringVariant.StateConfigure then Some "patch"
  else if String.eqb s StringVariant.StateManage then Some "manage"
  else if String.eqb s StringVariant.StateProvide then Some "provide"
  else if String.eqb s StringVariant.StateDeploy then Some "active"
  else None.

Definition string_plan (s : string) : list string :=
  omap string_command (string_rest s).

(** The states that poll the node. *)
Definition string_waits (s : string) : bool :=
  String.eqb s StringVariant.StateWaitManage
  || String.eqb s StringVariant.StateWaitProvide
  || String.eqb s StringVariant.StateWaitDeploy.

Definition string_polls_left (s : string) : nat :=
  length (filter (fun x => Is_true (string_waits x)) (string_rest s)).

(** The errors the string-channel revision returns without recording
    them. *)
Definition string_unrecorded (e : string) : Prop :=
  e = "Could not change node to 'provide'."
  \/ e = "Could not change node to 'active'."
  \/ exists state, e = "Provide failed, node's current state is: " +:+ state.

(** A call started on deployment [d] stays within [n] polls and the
    commands of [plan], closes nothing, keeps the channel of [d], and
    sends nothing when that channel is [nil]. *)
Definition string_within {W : Type} (d : StringVariant.Deployment)
    (n : nat) (plan : list string)
    (r : Run Outcome StringVariant.Deployment W string) : Prop :=
  (polls (trace r) <= n)%nat
  /\ mutations (trace r) `prefix_of` plan
  /\ closes (trace r) = O
  /\ StringVariant.status (dep r) = StringVariant.status d
  /\ (StringVariant.status d = None -> sendAttempts (trace r) = []).

(** How a wait loop started on [d] and [w] can end: left at once with
    nothing done, never left, or ending the call at once. *)
Definition string_loop_ends {W : Type} (d : StringVariant.Deployment) (w : W)
    (r : Run Exit StringVariant.Deployment W string) : Prop :=
  r = mkRun Break d w []
  \/ (exit r = Stop OutOfFuel
      /\ StringVariant.status (dep r) = StringVariant.status d
      /\ silent (trace r))
  \/ exists state,
       r = mkRun (Stop (Returned
                          (Some ("Provide failed, node's current state is: "
                                 +:+ state)))) d w [].

(** The states from which the dispatcher goes on. *)
Definition string_dispatchable (s : string) : bool :=
  existsb (String.eqb s)
    [StringVariant.StateBegin; StringVariant.StateConfigure;
     StringVariant.StateManage; StringVariant.StateWaitManage;
     StringVariant.StateProvide; StringVariant.StateWaitProvide;
     StringVariant.StateDeploy; StringVariant.StateWaitDeploy].

(** What a call that has returned has to show.  Without an error: the
    names [names] were received, the commands [plan] were sent, the node
    was polled [n] times and no error is left on the deployment.  With an
    error: it is recorded and "ERROR" was the last name received, or it is
    one of the unrecorded ones and the deployment holds none. *)
Definition string_accounted {W : Type} (names plan : list string) (n : nat)
    (r : Run Outcome StringVariant.Deployment W string) : Prop :=
  match exit r with
  | Returned None =>
      sent (trace r) = names /\ mutations (trace r) = plan
      /\ polls (trace r) = n /\ StringVariant.Error (dep r) = None
  | Returned (Some e) =>
      (StringVariant.Error (dep r) = Some e
       /\ last (sent (trace r)) = Some "ERROR")
      \/ (StringVariant.Error (dep r) = None /\ string_unrecorded e)
  | _ => True
  end.

(** ** The command-line tool: creating the nodes

    [createNodes] of the tool that drives the orchestrator reads a JSON
    file, decodes it twice, once for the nodes and once for their ports,
    and creates each node and then its ports on the remote.  The file
    system and the two decodings are functions of the environment; the
    remote is a pair of state transformers, as for the orchestrator. *)

Module main.

(** The fields of [nodes.Node] the tool reads. *)
Record Node := mkNode { UUID : string; Name : string }.

Definition newline : string := String "010"%char EmptyString.

Section CreateNodes.
Context {NodeOpts PortFields W : Type}.

(** [nodes.CreateOpts]: the tool reads its field [Name]. *)
Variable optsName : NodeOpts -> string.

(** [ports.CreateOpts]: the tool writes its field [NodeUUID] and passes
    the other fields on. *)
Record PortOpts := mkPortOpts { NodeUUID : string; fields : PortFields }.

Record Client := mkClient {
  nodesCreate : NodeOpts -> W -> (Node * error) * W;
  portsCreate : PortOpts -> W -> error * W
}.

(** What the tool does to the outside, in program order. *)
Inductive Call :=
| Printf (line : string)
| NodesCreate (opts : NodeOpts)
| PortsCreate (opts : PortOpts).

Variable ReadFile : string -> list byte * error.
(** [json.Unmarshal] into [createOpts] and into [portOpts]; an entry of
    the latter is a name with its ports. *)
Variable unmarshalCreateOpts : list byte -> list NodeOpts * error.
Variable unmarshalPortOpts : list byte -> list (string * list PortOpts) * error.

Variable client : Client.

(** [for _, port := range portNodes.Ports { ... }] *)
Fixpoint createPorts (uuid : string) (ports : list PortOpts) (w : W)
    : error * W * list Call :=
  match ports with
  | [] => (None, w, [])
  | port :: ports' =>
      let port := mkPortOpts uuid (fields port) in
      let '(err, w1) := portsCreate client port w in
      match err with
      | Some e => (Some e, w1, [PortsCreate port])
      | None =>
          let '(err', w2, calls) := createPorts uuid ports' w1 in
          (err', w2, PortsCreate port :: calls)
      end
  end.

(** [for _, portNodes := range portOpts.Nodes { ... }] *)
Fixpoint createPortsOf (node : Node)
    (portNodes : list (string * list PortOpts)) (w : W)
    : error * W * list Call :=
  match portNodes with
  | [] => (None, w, [])
  | (name, ports) :: portNodes' =>
      if String.eqb name (Name node) then
        let '(err, w1, calls) := createPorts (UUID node) ports w in
        match err with
        | Some e => (Some e, w1, calls)
        | None =>
            let '(err', w2, calls') := createPortsOf node portNodes' w1 in
            (err', w2, calls ++ calls')
        end
      else createPortsOf node portNodes' w
  end.

(** [for _, node := range createOpts.Opts { ... }], then the final
    [return createdNodes, nil]. *)
Fixpoint createLoop (opts : list NodeOpts)
    (portNodes : list (string * list PortOpts)) (createdNodes : list Node)
    (w : W) : (list Node * error) * W * list Call :=
  match opts with
  | [] => ((createdNodes, None), w, [])
  | node :: opts' =>
      let line := Printf ("Creating node " +:+ optsName node +:+ newline) in
      let '((created, err), w1) := nodesCreate client node w in
      match err with
      | Some e => (([], Some e), w1, [line; NodesCreate node])
      | None =>
          let createdNodes := createdNodes ++ [created] in
          let '(err, w2, calls) := createPortsOf created portNodes w1 in
          match err with
          | Some e => (([], Some e), w2, line :: NodesCreate node :: calls)
          | None =>
              let '(result, w3, calls') :=
                createLoop opts' portNodes createdNodes w2 in
              (result, w3, line :: NodesCreate node :: calls ++ calls')
          end
      end
  end.

Definition createNodes (path : string) (w : W)
    : (list Node * error) * W * list Call :=
  let '(contents, err) := ReadFile path in
  match err with
  | Some e => (([], Some e), w, [])
  | None =>
      let '(createOpts, err) := unmarshalCreateOpts contents in
      match err with
      | Some e => (([], Some e), w, [])
      | None =>
          let '(portOpts, err) := unmarshalPortOpts contents in
          match err with
          | Some e => (([], Some e), w, [])
          | None => createLoop createOpts portOpts [] w
          end
      end
  end.

(** *** Readings of the calls *)

Fixpoint nodeRequests (calls : list Call) : list NodeOpts :=
  match calls with
  | [] => []
  | NodesCreate opts :: calls' => opts :: nodeRequests calls'
  | _ :: calls' => nodeRequests calls'
  end.

Fixpoint portRequests (calls : list Call) : list PortOpts :=
  match calls with
  | [] => []
  | PortsCreate opts :: calls' => opts :: portRequests calls'
  | _ :: calls' => portRequests calls'
  end.

(** The ports the file lists under the name of [node], bound to it. *)
Definition portsFor (portNodes : list (string * list PortOpts)) (node : Node)
    : list PortOpts :=
  map (fun port => mkPortOpts (UUID node) (fields port))
    (flat_map snd
       (filter (fun entry => String.eqb (fst entry) (Name node) = true)
          portNodes)).

End CreateNodes.

Arguments PortOpts : clear implicits.
Arguments Client : clear implicits.
Arguments Call : clear implicits.

End main.

(** A file of two nodes, the first with two ports, and a remote that
    numbers the nodes it creates and refuses a port that has no
    address. *)
Module Inventory.

Definition file : string := "nodes.json".

Definition ReadFile (path : string) : list byte * error :=
  if String.eqb path file then (list_byte_of_string "{}", None)
  else ([], Some "open: no such file or directory").

Definition nodeOpts : list string := ["master-0"; "master-1"].

Definition portOpts : list (string * list (main.PortOpts string)) :=
  [("master-0", [main.mkPortOpts "" "52:54:00:00:00:01";
                 main.mkPortOpts "" "52:54:00:00:00:02"]);
   ("master-1", [main.mkPortOpts "" ""])].

Definition client : main.Client string string nat :=
  main.mkClient
    (fun name n => ((main.mkNode ("uuid-" +:+ pretty n) name, None), S n))
    (fun port n =>
       (if String.eqb (main.fields port) "" then Some "address is required"
        else None, n)).

Definition createNodes (ports : list (string * list (main.PortOpts string)))
    : (list main.Node * error) * nat * list (main.Call string string) :=
  main.createNodes (fun name => name) ReadFile (fun _ => (nodeOpts, None))
    (fun _ => (ports, None)) client file O.

End Inventory.

(** * Properties *)

(** ** Traces *)

Section TraceLemmas.
Context {M : Type}.
Implicit Types tr : list (Event M).

Lemma sent_app tr1 tr2 : sent (tr1 ++ tr2) = sent tr1 ++ sent tr2.
Proof.
  induction tr1 as [|e tr1 IH]; [reflexivity|].
  destruct e; simpl; try assumption.
  destruct (delivered c); simpl; congruence.
Qed.

Lemma sendAttempts_app tr1 tr2 :
  sendAttempts (tr1 ++ tr2) = sendAttempts tr1 ++ sendAttempts tr2.
Proof.
  induction tr1 as [|e tr1 IH]; [reflexivity|].
  destruct e; simpl; congruence.
Qed.

Lemma patchCalls_app tr1 tr2 :
  patchCalls (tr1 ++ tr2) = patchCalls tr1 ++ patchCalls tr2.
Proof.
  induction tr1 as [|e tr1 IH]; [reflexivity|].
  destruct e; simpl; congruence.
Qed.

Lemma requested_app tr1 tr2 :
  requested (tr1 ++ tr2) = requested tr1 ++ requested tr2.
Proof.
  induction tr1 as [|e tr1 IH]; [reflexivity|].
  destruct e; simpl; congruence.
Qed.

Lemma closes_app tr1 tr2 : closes (tr1 ++ tr2) = (closes tr1 + closes tr2)%nat.
Proof.
  induction tr1 as [|e tr1 IH]; [reflexivity|].
  destruct e; simpl; congruence.
Qed.

End TraceLemmas.

Section RunLemmas.
Context {D W M : Type}.

Lemma trace_send {X} (blocked : X) c (v : M) (d : D) (w : W) k :
  trace (send blocked c v d w k)
  = EvSend c v :: (if delivered c then trace k else []).
Proof. unfold send. destruct (delivered c); reflexivity. Qed.

Lemma exit_send_delivered {X} (blocked : X) c (v : M) (d : D) (w : W) k :
  delivered c = true -> exit (send blocked c v d w k) = exit k.
Proof. unfold send. intros ->. reflexivity. Qed.

Lemma trace_andThen (r : Run Exit D W M) k :
  trace (andThen r k)
  = trace r ++ match exit r with
               | Break => trace (k (dep r) (world r))
               | Stop _ => []
               end.
Proof.
  unfold andThen. destruct (exit r); simpl; [reflexivity|].
  symmetry. apply app_nil_r.
Qed.

Lemma exit_andThen (r : Run Exit D W M) k :
  exit (andThen r k)
  = match exit r with
    | Break => exit (k (dep r) (world r))
    | Stop o => o
    end.
Proof. unfold andThen. destruct (exit r); reflexivity. Qed.

Lemma dep_andThen (r : Run Exit D W M) k :
  dep (andThen r k)
  = match exit r with
    | Break => dep (k (dep r) (world r))
    | Stop _ => dep r
    end.
Proof. unfold andThen. destruct (exit r); reflexivity. Qed.

Lemma trace_deferClose c (r : Run Outcome D W M) :
  trace (deferClose c r)
  = trace r ++ match exit r with Returned _ => [EvClose c] | _ => [] end.
Proof.
  unfold deferClose. destruct (exit r); simpl; try reflexivity;
    symmetry; apply app_nil_r.
Qed.

Lemma exit_deferClose c (r : Run Outcome D W M) :
  exit (deferClose c r) = exit r.
Proof. unfold deferClose. destruct (exit r) eqn:E; simpl; congruence. Qed.

End RunLemmas.

(** ** The progress reported by the integer-channel revision *)

Section IntProgress.
Import IntVariant.
Context {W : Type} (client : nodes.ServiceClient W).

Lemma nextState_S fuel (d : Deployment W) w :
  nextState client (S fuel) d w
  = if negb (isNil (Error d)) then done d w
    else
      let go d' next :=
        send Blocked (status d') (currentPercent d') d' w (next d' w) in
      if String.eqb (currentState d) StateBegin then
        go (set_currentState StateConfigure d)
           (configure client (nextState client fuel))
      else if String.eqb (currentState d) StateConfigure then
        go (set_currentState StateManage d)
           (manage client (nextState client fuel))
      else if String.eqb (currentState d) StateManage then
        go (set_currentState StateWaitManage
              (set_currentPercent StateConfigurePercent d))
           (waitManage client fuel (nextState client fuel))
      else if String.eqb (currentState d) StateWaitManage then
        go (set_currentState StateProvide
              (set_currentPercent StateManagePercent d))
           (provide client (nextState client fuel))
      else if String.eqb (currentState d) StateProvide then
        go (set_currentState StateWaitProvide
              (set_currentPercent StateWaitManagePercent d))
           (waitProvide client fuel (nextState client fuel))
      else if String.eqb (currentState d) StateWaitProvide then
        go (set_currentState StateDeploy
              (set_currentPercent StateProvidePercent d))
           (deploy client (nextState client fuel))
      else if String.eqb (currentState d) StateDeploy then
        go (set_currentState StateWaitDeploy
              (set_currentPercent StateWaitProvidePercent d))
           (waitDeploy client fuel (nextState client fuel))
      else if String.eqb (currentState d) StateWaitDeploy then
        go (set_currentState StateDone
              (set_currentPercent StateDeployPercent d))
           done
      else mkRun (Returned (Some "unknown state")) d w [].
Proof. reflexivity. Qed.

(** One round of the WAIT_DEPLOY loop, case by case. *)
Lemma waitDeployLoop_S fuel (d : Deployment W) w :
  waitDeployLoop client (S fuel) d w
  = let '((node, err), w1) := nodes.Get client (NodeUUID d) w in
    emit (EvGet (NodeUUID d))
      (if negb (isNil err) then mkRun Break (set_Error err d) w1 []
       else if String.eqb (nodes.ProvisionState node) nodes.Active then
         mkRun Break d w1 []
       else if String.eqb (nodes.ProvisionState node) nodes.DeployWait
               || String.eqb (nodes.ProvisionState node) nodes.Deploying then
         if currentPercent d <? StateWaitDeployPercent then
           let d' := set_currentPercent (currentPercent d + 2) d in
           send (Stop Blocked) (status d') (currentPercent d') d' w1
             (emit EvSleep (waitDeployLoop client fuel d' w1))
         else emit EvSleep (waitDeployLoop client fuel d w1)
       else
         mkRun Break
           (set_Error (Some ("deploy failed: " +:+ nodes.Name node
                             +:+ " current state is: "
                             +:+ nodes.ProvisionState node)) d) w1 []).
Proof. reflexivity. Qed.

(** The values the WAIT_DEPLOY loop puts on the channel climb from the
    percentage the loop started with and stay at or below 96. *)
Lemma waitDeployLoop_ramp fuel : forall (d : Deployment W) w ramp,
  ramp = map snd (sendAttempts (trace (waitDeployLoop client fuel d w))) ->
  increasing (currentPercent d :: ramp) = true
  /\ Forall (fun v => currentPercent d < v <= StateWaitDeployPercent + 1) ramp.
Proof.
  assert (Hnil : forall p : Z,
             increasing [p] = true
             /\ Forall (fun v => p < v <= StateWaitDeployPercent + 1) [])
    by (split; [reflexivity|constructor]).
  induction fuel as [|fuel IH]; intros d w ramp Hr; [subst ramp; apply Hnil|].
  rewrite waitDeployLoop_S in Hr.
  destruct (nodes.Get client (NodeUUID d) w) as [[node err] w1].
  destruct err as [e|]; [subst ramp; apply Hnil|].
  cbn [isNil negb] in Hr.
  destruct (String.eqb (nodes.ProvisionState node) nodes.Active);
    [subst ramp; apply Hnil|].
  destruct (String.eqb (nodes.ProvisionState node) nodes.DeployWait
            || String.eqb (nodes.ProvisionState node) nodes.Deploying);
    [|subst ramp; apply Hnil].
  destruct (currentPercent d <? StateWaitDeployPercent) eqn:Hlt.
  - apply Z.ltb_lt in Hlt. unfold StateWaitDeployPercent in *.
    cbv zeta in Hr. unfold emit at 1 in Hr. cbn [trace sendAttempts] in Hr.
    rewrite trace_send in Hr. cbn [sendAttempts map snd] in Hr.
    set (d' := set_currentPercent (currentPercent d + 2) d) in *.
    assert (Hcp : currentPercent d' = currentPercent d + 2) by reflexivity.
    destruct (delivered (status d')).
    + cbn [trace emit sendAttempts] in Hr.
      destruct (IH d' w1 _ eq_refl) as [IHinc IHall].
      rewrite Hcp in *. subst ramp. split.
      * cbn [increasing]. cbn [increasing] in IHinc. rewrite IHinc.
        apply andb_true_iff. split; [apply Z.ltb_lt; lia|reflexivity].
      * constructor; [lia|].
        eapply Forall_impl; [exact IHall|]. cbv beta. intros v Hv. lia.
    + cbn [sendAttempts map snd] in Hr. rewrite Hcp in Hr. subst ramp. split.
      * cbn [increasing]. rewrite andb_true_r. apply Z.ltb_lt. lia.
      * constructor; [lia|constructor].
  - unfold emit at 1 2 in Hr. cbn [trace sendAttempts] in Hr.
    exact (IH d w1 ramp Hr).
Qed.

End IntProgress.


(** ** Runs against the scripted remote *)

(** C1: a successful run of the integer-channel [Deploy] whose WAIT_DEPLOY
    polls find the node deploying three times before it is active returns
    no error, sends only values between 0 and 100, ends with 100 and one
    close, and yet sends 35 right after 36: the dispatcher sets the
    percentage back to the DEPLOY weight when it leaves WAIT_DEPLOY, so the
    sequence is not non-decreasing. *)
Theorem C1_progress_falls_back_after_ramp :
  let run :=
    IntVariant.Deploy (Scripted.client (Scripted.reports "active")) 12
      (Scripted.newInt Scripted.instanceInfo) (Some caller_chan)
      [Scripted.reports "manageable"; Scripted.reports "available";
       Scripted.reports "deploying"; Scripted.reports "deploying";
       Scripted.reports "deploying"; Scripted.reports "active"] in
  exit run = Returned None
  /\ IntVariant.currentState (dep run) = IntVariant.StateDone
  /\ sent (trace run) = [0; 0; 0; 10; 15; 20; 25; 30; 32; 34; 36; 35; 100]
  /\ nondecreasing (sent (trace run)) = false
  /\ forallb (fun v => (0 <=? v) && (v <=? 100)) (sent (trace run)) = true
  /\ closes (trace run) = 1%nat
  /\ last (trace run) = Some (EvClose caller_chan).
Proof. vm_compute. repeat split; reflexivity. Qed.

(** C3: when the poll of WAIT_PROVIDE finds the node in "clean failed",
    both revisions return the error to the caller of [Deploy] and leave
    the [Error] field of the deployment [nil]. *)
Theorem C3_wait_provide_error_not_recorded :
  let polled := [Scripted.reports "manageable"; Scripted.reports "clean failed"] in
  let runInt :=
    IntVariant.Deploy (Scripted.client (Scripted.reports "active")) 12
      (Scripted.newInt Scripted.instanceInfo) (Some caller_chan) polled in
  let runStruct :=
    StructVariant.Deploy (Scripted.client (Scripted.reports "active")) 12
      (Scripted.newStruct Scripted.instanceInfo) (Some caller_chan) polled in
  exit runInt
    = Returned (Some "provide failed, master-0 current state is: clean failed")
  /\ IntVariant.Error (dep runInt) = None
  /\ IntVariant.currentState (dep runInt) = IntVariant.StateWaitProvide
  /\ exit runStruct
     = Returned (Some "provide failed, node's current state is: clean failed")
  /\ StructVariant.Error (dep runStruct) = None
  /\ StructVariant.currentState (dep runStruct) = StructVariant.StateWaitProvide.
Proof. vm_compute. repeat split; reflexivity. Qed.

(** In the state-struct revision a failed poll in WAIT_PROVIDE is not an
    error at all: the run goes on and ends in DONE. *)
Example struct_wait_provide_drops_transport_failure :
  let run :=
    StructVariant.Deploy (Scripted.client (Scripted.reports "active")) 12
      (Scripted.newStruct Scripted.instanceInfo) (Some caller_chan)
      [Scripted.reports "manageable"; Scripted.fails "connection refused"] in
  exit run = Returned None
  /\ StructVariant.currentState (dep run) = StructVariant.StateDone
  /\ requested (trace run) = ["manage"; "provide"; "active"].
Proof. vm_compute. repeat split; reflexivity. Qed.

(** C10: the same failure seen from the channel.  The run ends with an
    error; the last value the caller receives before the one close is 20
    in the integer-channel revision and the WAIT_PROVIDE state, with
    percentage 35, in the state-struct revision. *)
Theorem C10_last_value_on_wait_provide_failure :
  let polled := [Scripted.reports "manageable"; Scripted.reports "clean failed"] in
  let runInt :=
    IntVariant.Deploy (Scripted.client (Scripted.reports "active")) 12
      (Scripted.newInt Scripted.instanceInfo) (Some caller_chan) polled in
  let runStruct :=
    StructVariant.Deploy (Scripted.client (Scripted.reports "active")) 12
      (Scripted.newStruct Scripted.instanceInfo) (Some caller_chan) polled in
  (exists e, exit runInt = Returned (Some e))
  /\ last (sent (trace runInt)) = Some 20
  /\ closes (trace runInt) = 1%nat
  /\ last (trace runInt) = Some (EvClose caller_chan)
  /\ (exists e, exit runStruct = Returned (Some e))
  /\ last (sent (trace runStruct)) = Some StructVariant.StateWaitProvide
  /\ StructVariant.Percentage StructVariant.StateWaitProvide = 35
  /\ closes (trace runStruct) = 1%nat
  /\ last (trace runStruct) = Some (EvClose caller_chan).
Proof.
  vm_compute. repeat split; try reflexivity; eexists; reflexivity.
Qed.

(** C8: in the state-struct revision the WAIT_DEPLOY loop reads the node
    after a failed poll.  With the zero node gophercloud returns, the
    transport error just recorded is overwritten by a "deploy failed"
    error naming an empty state; with a node value that says "deploying",
    the loop sends, sleeps and polls again. *)
Theorem C8_struct_wait_deploy_reads_node_after_failed_poll :
  let d := StructVariant.set_status (Some caller_chan)
             (Scripted.newStruct Scripted.instanceInfo) in
  let loop := StructVariant.waitDeployLoop
                (Scripted.client (Scripted.reports "active")) 5 50 d in
  StructVariant.Error (dep (loop [Scripted.fails "connection refused"]))
    = Some "deploy failed: node's current state is: "
  /\ polls (trace (loop [Scripted.fails "connection refused"])) = 1%nat
  /\ StructVariant.Error
       (dep (loop [(nodes.mkNode "master-0" "active", Some "connection refused")]))
     = Some "connection refused"
  /\ trace (loop [(nodes.mkNode "master-0" "deploying", Some "connection refused")])
     = [EvGet "uuid-0";
        EvSend (Some caller_chan) (StructVariant.mkState "WAIT_DEPLOY" 51);
        EvSleep;
        EvGet "uuid-0"].
Proof. vm_compute. repeat split; reflexivity. Qed.

(** With a [nil] channel the integer-channel [Deploy] makes a channel
    nobody receives from, and the first send of the run never completes,
    whatever the remote does. *)
Lemma int_nil_channel_blocks {W : Type} (client : nodes.ServiceClient W)
    fuel (d : IntVariant.Deployment W) w :
  let run := IntVariant.Deploy client (S fuel) d None w in
  exit run = Blocked
  /\ sendAttempts (trace run)
     = [(Some fresh_chan,
         if isNil (IntVariant.Error d) then IntVariant.currentPercent d
         else IntVariant.StateDonePercent)].
Proof.
  cbv zeta. unfold IntVariant.Deploy. cbv zeta.
  rewrite exit_deferClose, trace_deferClose, nextState_S.
  cbn [IntVariant.Error IntVariant.set_status IntVariant.set_currentState
       IntVariant.currentState].
  destruct (IntVariant.Error d) as [e|]; cbn [isNil negb]; split; reflexivity.
Qed.

(** C9: with a [nil] progress channel neither revision reaches a terminal
    state once a send is due.  The state-struct revision executes the
    unguarded send of its WAIT_DEPLOY loop on the [nil] channel and stays
    there, however much fuel the run gets; the integer-channel revision
    makes a channel of its own and, for every remote and every deployment,
    blocks on the first send. *)
Theorem C9_nil_channel_run_blocks_on_send :
  let runStruct fuel :=
    StructVariant.Deploy (Scripted.client (Scripted.reports "active")) fuel
      (Scripted.newStruct Scripted.instanceInfo) None
      [Scripted.reports "manageable"; Scripted.reports "available";
       Scripted.reports "deploying"] in
  (forall fuel,
     exit (runStruct fuel) = (if (fuel <? 8)%nat then OutOfFuel else Blocked))
  /\ (forall fuel,
        sendAttempts (trace (runStruct (8 + fuel)%nat))
        = [(None, StructVariant.mkState "WAIT_DEPLOY" 51)])
  /\ (forall (W : Type) (client : nodes.ServiceClient W) fuel
        (d : IntVariant.Deployment W) (w : W),
        let runInt := IntVariant.Deploy client (S fuel) d None w in
        exit runInt = Blocked
        /\ exists v, sendAttempts (trace runInt) = [(Some fresh_chan, v)]).
Proof.
  cbv zeta. split; [|split].
  - intros fuel.
    do 8 (destruct fuel as [|fuel]; [reflexivity|]).
    reflexivity.
  - intros fuel. reflexivity.
  - intros W client fuel d w.
    destruct (int_nil_channel_blocks client fuel d w) as [Hexit Hsend].
    split; [exact Hexit|]. eexists. exact Hsend.
Qed.

(** ** WAIT_MANAGE against a node that stays in an unexpected state *)

Lemma int_waitManageLoop_enroll fuel : forall d,
  exit (IntVariant.waitManageLoop
          (Scripted.client (Scripted.reports "enroll")) fuel d [])
  = Stop OutOfFuel.
Proof.
  induction fuel as [|fuel IH]; intros d; [reflexivity|].
  simpl. apply IH.
Qed.

Lemma struct_waitManageLoop_enroll fuel : forall d,
  exit (StructVariant.waitManageLoop
          (Scripted.client (Scripted.reports "enroll")) fuel d [])
  = Stop OutOfFuel.
Proof.
  induction fuel as [|fuel IH]; intros d; [reflexivity|].
  simpl. apply IH.
Qed.

(** C2: a node that answers every poll of WAIT_MANAGE with "enroll" keeps
    both revisions in the loop for ever: with any amount of fuel the run
    is still going when the fuel is gone, so it never terminates in
    ERROR. *)
Theorem C2_wait_manage_never_terminates_on_unexpected_state :
  forall fuel,
    exit (IntVariant.Deploy (Scripted.client (Scripted.reports "enroll")) fuel
            (Scripted.newInt Scripted.instanceInfo) (Some caller_chan) [])
    = OutOfFuel
    /\ exit (StructVariant.Deploy (Scripted.client (Scripted.reports "enroll")) fuel
               (Scripted.newStruct Scripted.instanceInfo) (Some caller_chan) [])
       = OutOfFuel.
Proof.
  intros fuel.
  do 3 (destruct fuel as [|fuel]; [split; reflexivity|]).
  split.
  - unfold IntVariant.Deploy. cbv zeta.
    rewrite exit_send_delivered by reflexivity. rewrite exit_deferClose.
    match goal with
    | |- exit (IntVariant.nextState ?c _ ?d ?w) = _ =>
        change (exit (IntVariant.waitManage c fuel (IntVariant.nextState c fuel)
                        (IntVariant.set_currentState IntVariant.StateWaitManage
                           (IntVariant.set_currentPercent
                              IntVariant.StateConfigurePercent d)) w)
                = OutOfFuel)
    end.
    unfold IntVariant.waitManage.
    rewrite exit_andThen, int_waitManageLoop_enroll. reflexivity.
  - unfold StructVariant.Deploy. cbv zeta.
    rewrite exit_send_delivered by reflexivity. rewrite exit_deferClose.
    match goal with
    | |- exit (StructVariant.nextState ?c _ ?d ?w) = _ =>
        change (exit (StructVariant.waitManage c fuel (StructVariant.nextState c fuel)
                        (StructVariant.set_currentState
                           StructVariant.StateWaitManage d) w)
                = OutOfFuel)
    end.
    unfold StructVariant.waitManage.
    rewrite exit_andThen, struct_waitManageLoop_enroll. reflexivity.
Qed.

(** What the run has done by the time it spins: it has asked for "manage"
    and nothing else, and the error is on the deployment. *)
Example wait_manage_spin_so_far :
  let runInt :=
    IntVariant.Deploy (Scripted.client (Scripted.reports "enroll")) 40
      (Scripted.newInt Scripted.instanceInfo) (Some caller_chan) [] in
  requested (trace runInt) = ["manage"]
  /\ polls (trace runInt) = 37%nat
  /\ IntVariant.Error (dep runInt)
     = Some "manage failed: master-0 current state is: enroll"
  /\ closes (trace runInt) = 0%nat.
Proof. vm_compute. repeat split; reflexivity. Qed.

(** ** User data *)

Lemma length_list_byte_of_string (s : string) :
  length (list_byte_of_string s) = String.length s.
Proof. induction s as [|a s IH]; [reflexivity|]. simpl. f_equal. exact IH. Qed.

(** C7: serializing a literal user-data payload never fails, and the bytes
    returned are the bytes of the string: as many, and read back as a
    string they are the payload again.  The older revision, which returns
    a Go string, returns the payload itself. *)
Theorem C7_literal_user_data_is_returned_unchanged :
  forall (GoMap : Type)
    (json_MarshalIndent : GoMap -> string -> string -> list byte * error)
    (payload : string),
    let result :=
      configdrive.ToUserData json_MarshalIndent
        (configdrive.UserDataString payload) in
    snd result = None
    /\ fst result = list_byte_of_string payload
    /\ string_of_list_byte (fst result) = payload
    /\ length (fst result) = String.length payload
    /\ configdrive.requests.UserDataString_ToUserData payload = (payload, None).
Proof.
  intros GoMap json_MarshalIndent payload. cbv zeta.
  cbn [configdrive.ToUserData fst snd].
  repeat split.
  - apply string_of_list_byte_of_string.
  - apply length_list_byte_of_string.
Qed.

(** ** The config drive *)

Section ConfigDriveFacts.
Import configdrive.

Lemma append_assoc (a b c : string) : (a +:+ b) +:+ c = a +:+ (b +:+ c).
Proof.
  induction a as [|x a IH]; [reflexivity|].
  change (String x ((a +:+ b) +:+ c) = String x (a +:+ (b +:+ c))).
  f_equal. exact IH.
Qed.

Lemma stripPrefix_app (pre s : string) : stripPrefix pre (pre +:+ s) = Some s.
Proof.
  induction pre as [|x pre IH]; [reflexivity|].
  change (stripPrefix (String x pre) (String x (pre +:+ s)) = Some s).
  cbn [stripPrefix]. rewrite Ascii.eqb_refl. exact IH.
Qed.

Lemma stripPrefix_Some (pre : string) : forall s rel,
  stripPrefix pre s = Some rel -> s = pre +:+ rel.
Proof.
  induction pre as [|x pre IH]; intros s rel H.
  - cbn [stripPrefix] in H. injection H as ->. reflexivity.
  - destruct s as [|y s]; cbn [stripPrefix] in H; [discriminate|].
    destruct (Ascii.eqb x y) eqn:E; [|discriminate].
    apply Ascii.eqb_eq in E. subst y.
    change (String x s = String x (pre +:+ rel)). f_equal. apply IH, H.
Qed.

Lemma bind_inl {A B} (m : IO A) (k : A -> IO B) os b os' :
  bind m k os = (inl b, os') ->
  exists a os1, m os = (inl a, os1) /\ k a os1 = (inl b, os').
Proof.
  unfold bind. destruct (m os) as [[a|e] os1]; [|discriminate].
  intros H. exists a, os1. split; [reflexivity|exact H].
Qed.

Lemma syscall_inl {A} (ok : OS -> A * OS) os a os' :
  syscall ok os = (inl a, os') ->
  exists os0, files os0 = files os /\ ok os0 = (a, os').
Proof.
  unfold syscall. destruct (faults os) as [|[e|] rest].
  - destruct (ok os) as [a0 os0] eqn:E. intros [= <- <-].
    exists os. split; [reflexivity|exact E].
  - discriminate.
  - destruct (ok _) as [a0 os0] eqn:E. intros [= <- <-].
    eexists. split; [|exact E]. reflexivity.
Qed.

Lemma TempDir_inl prefix os directory os' :
  TempDir prefix os = (inl directory, os') -> files os' = files os.
Proof.
  intros H. apply syscall_inl in H as (os0 & Hf & H).
  injection H as _ <-. exact Hf.
Qed.

Lemma MkdirAll_inl path os u os' :
  MkdirAll path os = (inl u, os') -> files os' = files os.
Proof.
  intros H. apply syscall_inl in H as (os0 & Hf & H).
  injection H as _ <-. exact Hf.
Qed.

Lemma WriteFile_inl path data os u os' :
  WriteFile path data os = (inl u, os') ->
  files os' = <[path := data]> (files os).
Proof.
  intros H. apply syscall_inl in H as (os0 & Hf & H).
  injection H as _ <-. cbn [files]. rewrite Hf. reflexivity.
Qed.

(** Writing an optional JSON document at [path] leaves every other file
    as it was. *)
Lemma write_optional_inl {A} (field : option A) (marshal : A -> list byte * error)
    path os u os' :
  match field with
  | Some v => data <- lift (marshal v) ;; WriteFile path data
  | None => ret tt
  end os = (inl u, os') ->
  forall q, q <> path -> files os' !! q = files os !! q.
Proof.
  destruct field as [v|]; intros H q Hq.
  - apply bind_inl in H as (data & os1 & Hm & Hw).
    unfold lift in Hm. destruct (marshal v) as [data0 [e|]]; [discriminate|].
    injection Hm as <- <-.
    apply WriteFile_inl in Hw. rewrite Hw.
    apply lookup_insert_ne. congruence.
  - injection H as _ <-. reflexivity.
Qed.

Lemma stagedTree_files directory os1 os2 :
  files os1 = files os2 -> stagedTree directory os1 = stagedTree directory os2.
Proof. unfold stagedTree. intros ->. reflexivity. Qed.

(** A file of the staging directory is in the staged tree under its
    relative path, and is the only entry there. *)
Lemma stagedTree_lookup directory os rel data :
  files os !! (directory +:+ "/" +:+ rel) = Some data ->
  forall data', (rel, data') ∈ stagedTree directory os <-> data' = data.
Proof.
  intros Hfile data'. unfold stagedTree. rewrite list_elem_of_omap. split.
  - intros [[p b] [Hin Hrel]].
    destruct (stripPrefix (directory +:+ "/") p) as [rel'|] eqn:E; [|discriminate].
    injection Hrel as -> ->.
    apply stripPrefix_Some in E. subst p.
    apply elem_of_map_to_list in Hin.
    rewrite append_assoc in Hin. congruence.
  - intros ->. exists (directory +:+ "/" +:+ rel, data). split.
    + apply elem_of_map_to_list. exact Hfile.
    + rewrite <- append_assoc, stripPrefix_app. reflexivity.
Qed.

End ConfigDriveFacts.

(** ** Patch calls *)

(** Case analysis on the tests of a conditional chain. *)
Ltac split_ifs :=
  repeat match goal with
         | |- context [if ?b then _ else _] => destruct b
         end.

(** The induction hypothesis of a loop, at the deployment and world the
    next round runs with. *)
Ltac use_loop_IH IH :=
  match goal with
  | |- context [trace (?loop ?client ?fuel ?d ?w)] => exact (IH d w)
  end.

Section IntPatchCalls.
Import IntVariant.
Context {W : Type} (client : nodes.ServiceClient W).

Lemma int_waitManageLoop_patch fuel : forall (d : Deployment W) w,
  patchCalls (trace (waitManageLoop client fuel d w)) = []
  /\ UpdateOpts (dep (waitManageLoop client fuel d w)) = UpdateOpts d.
Proof.
  induction fuel as [|fuel IH]; intros d w; [split; reflexivity|].
  cbn [waitManageLoop].
  destruct (nodes.Get client (NodeUUID d) w) as [[node err] w1].
  split_ifs; cbn [emit trace dep patchCalls]; try (split; reflexivity);
    use_loop_IH IH.
Qed.

Lemma int_waitProvideLoop_patch fuel : forall (d : Deployment W) w,
  patchCalls (trace (waitProvideLoop client fuel d w)) = []
  /\ UpdateOpts (dep (waitProvideLoop client fuel d w)) = UpdateOpts d.
Proof.
  induction fuel as [|fuel IH]; intros d w; [split; reflexivity|].
  cbn [waitProvideLoop].
  destruct (nodes.Get client (NodeUUID d) w) as [[node err] w1].
  split_ifs; cbn [emit trace dep patchCalls]; try (split; reflexivity);
    use_loop_IH IH.
Qed.

Lemma int_waitDeployLoop_patch fuel : forall (d : Deployment W) w,
  patchCalls (trace (waitDeployLoop client fuel d w)) = []
  /\ UpdateOpts (dep (waitDeployLoop client fuel d w)) = UpdateOpts d.
Proof.
  induction fuel as [|fuel IH]; intros d w; [split; reflexivity|].
  cbn [waitDeployLoop].
  destruct (nodes.Get client (NodeUUID d) w) as [[node err] w1].
  unfold send.
  split_ifs; cbn [emit trace dep patchCalls]; try (split; reflexivity);
    use_loop_IH IH.
Qed.

(** A loop followed by the dispatcher makes no patch call when the
    dispatcher makes none. *)
Lemma int_andThen_patch (r : Run Exit (Deployment W) W Z) k (d : Deployment W) :
  patchCalls (trace r) = [] /\ UpdateOpts (dep r) = UpdateOpts d ->
  UpdateOpts d = [] ->
  (forall d' w', UpdateOpts d' = [] -> patchCalls (trace (k d' w')) = []) ->
  patchCalls (trace (andThen r k)) = [].
Proof.
  intros [Htr Hopts] Hd Hk.
  rewrite trace_andThen, patchCalls_app, Htr.
  destruct (exit r); [|reflexivity].
  apply Hk. congruence.
Qed.

Lemma int_nextState_patch fuel : forall (d : Deployment W) w,
  UpdateOpts d = [] ->
  patchCalls (trace (nextState client fuel d w)) = [].
Proof.
  induction fuel as [|fuel IH]; intros d w Hopts; [reflexivity|].
  rewrite nextState_S.
  assert (Hdone : forall (d' : Deployment W) w',
             patchCalls (trace (done d' w')) = []).
  { intros d' w'. unfold done. rewrite trace_send. cbn [patchCalls].
    destruct (delivered _); reflexivity. }
  destruct (negb (isNil (Error d))); [apply Hdone|].
  cbv zeta.
  split_ifs; try reflexivity;
    rewrite trace_send; cbn [patchCalls];
    (destruct (delivered _); [|reflexivity]).
  - (* configure *)
    unfold configure.
    cbn [UpdateOpts set_currentState set_currentPercent].
    rewrite Hopts. cbn [length Nat.eqb negb]. apply IH. exact Hopts.
  - (* manage *)
    unfold manage.
    destruct (nodes.ChangeProvisionState _ _ _ _) as [err w1].
    cbn [emit trace patchCalls]. apply IH.
    destruct (isNil err); exact Hopts.
  - (* waitManage *)
    unfold waitManage.
    eapply int_andThen_patch;
      [apply int_waitManageLoop_patch|exact Hopts|exact IH].
  - (* provide *)
    unfold provide.
    destruct (nodes.ChangeProvisionState _ _ _ _) as [err w1].
    cbn [emit trace patchCalls]. apply IH. exact Hopts.
  - (* waitProvide *)
    unfold waitProvide.
    eapply int_andThen_patch;
      [apply int_waitProvideLoop_patch|exact Hopts|exact IH].
  - (* deploy *)
    unfold deploy.
    destruct (ConfigDrive _ _) as [[configDrive err] w1].
    destruct (negb (isNil err)); [apply IH; exact Hopts|].
    destruct (nodes.ChangeProvisionState _ _ _ _) as [err2 w2].
    cbn [emit trace patchCalls]. apply IH. exact Hopts.
  - (* waitDeploy *)
    unfold waitDeploy.
    eapply int_andThen_patch;
      [apply int_waitDeployLoop_patch|exact Hopts|exact IH].
  - (* done *)
    apply Hdone.
Qed.

Lemma int_Deploy_patch fuel (d : Deployment W) percent w :
  UpdateOpts d = [] ->
  patchCalls (trace (Deploy client fuel d percent w)) = [].
Proof.
  intros Hopts. unfold Deploy.
  destruct percent as [c|]; cbv zeta.
  - rewrite trace_send. cbn [patchCalls].
    destruct (delivered _); [|reflexivity].
    rewrite trace_deferClose, patchCalls_app, int_nextState_patch by exact Hopts.
    destruct (exit _); reflexivity.
  - rewrite trace_deferClose, patchCalls_app, int_nextState_patch by exact Hopts.
    destruct (exit _); reflexivity.
Qed.

(** With nothing to patch, [configure] in state CONFIGURE is the
    dispatcher's step into MANAGE. *)
Lemma int_configure_advances fuel (d : Deployment W) w :
  UpdateOpts d = [] -> Error d = None ->
  let d1 := set_currentState StateConfigure d in
  let d2 := set_currentState StateManage d1 in
  configure client (nextState client (S fuel)) d1 w
  = send Blocked (status d2) (currentPercent d2) d2 w
      (manage client (nextState client fuel) d2 w).
Proof.
  intros Hopts Herr. cbv zeta. unfold configure.
  cbn [UpdateOpts set_currentState]. rewrite Hopts.
  cbn [length Nat.eqb negb]. rewrite nextState_S.
  cbn [Error set_currentState currentState]. rewrite Herr. reflexivity.
Qed.

End IntPatchCalls.

Section StructPatchCalls.
Import StructVariant.
Context {W : Type} (client : nodes.ServiceClient W).

Lemma struct_nextState_S fuel (d : Deployment W) w :
  nextState client (S fuel) d w
  = if negb (isNil (Error d)) then sendIfSet StateError d w (done d w)
    else
      let go d' next := sendIfSet (currentState d') d' w (next d' w) in
      if state_eqb (currentState d) StateBegin then
        go (set_currentState StateConfigure d)
           (configure client (nextState client fuel))
      else if state_eqb (currentState d) StateConfigure then
        go (set_currentState StateManage d)
           (manage client (nextState client fuel))
      else if state_eqb (currentState d) StateManage then
        go (set_currentState StateWaitManage d)
           (waitManage client fuel (nextState client fuel))
      else if state_eqb (currentState d) StateWaitManage then
        go (set_currentState StateProvide d)
           (provide client (nextState client fuel))
      else if state_eqb (currentState d) StateProvide then
        go (set_currentState StateWaitProvide d)
           (waitProvide client fuel (nextState client fuel))
      else if state_eqb (currentState d) StateWaitProvide then
        go (set_currentState StateDeploy d)
           (deploy client (nextState client fuel))
      else if state_eqb (currentState d) StateDeploy then
        go (set_currentState StateWaitDeploy d)
           (waitDeploy client fuel (nextState client fuel))
      else if state_eqb (currentState d) StateWaitDeploy then
        go (set_currentState StateDone d) done
      else mkRun (Returned (Some "unknown state")) d w [].
Proof. reflexivity. Qed.

Lemma trace_sendIfSet v (d : Deployment W) w k :
  trace (sendIfSet v d w k)
  = match status d with
    | Some _ => EvSend (status d) v :: (if delivered (status d) then trace k else [])
    | None => trace k
    end.
Proof.
  unfold sendIfSet. destruct (status d); [apply trace_send|reflexivity].
Qed.

Lemma patchCalls_sendIfSet v (d : Deployment W) w k :
  patchCalls (trace k) = [] -> patchCalls (trace (sendIfSet v d w k)) = [].
Proof.
  intros Hk. rewrite trace_sendIfSet.
  destruct (status d); [|exact Hk].
  cbn [patchCalls]. destruct (delivered _); [exact Hk|reflexivity].
Qed.

Lemma struct_waitManageLoop_patch fuel : forall (d : Deployment W) w,
  patchCalls (trace (waitManageLoop client fuel d w)) = []
  /\ UpdateOpts (dep (waitManageLoop client fuel d w)) = UpdateOpts d.
Proof.
  induction fuel as [|fuel IH]; intros d w; [split; reflexivity|].
  cbn [waitManageLoop].
  destruct (nodes.Get client (NodeUUID d) w) as [[node err] w1].
  split_ifs; cbn [emit trace dep patchCalls]; try (split; reflexivity);
    use_loop_IH IH.
Qed.

Lemma struct_waitProvideLoop_patch fuel node : forall (d : Deployment W) w,
  patchCalls (trace (waitProvideLoop fuel node d w)) = []
  /\ UpdateOpts (dep (waitProvideLoop fuel node d w)) = UpdateOpts d.
Proof.
  induction fuel as [|fuel IH]; intros d w; [split; reflexivity|].
  cbn [waitProvideLoop].
  split_ifs; cbn [emit trace dep patchCalls]; try (split; reflexivity).
  apply IH.
Qed.

Lemma struct_waitDeployLoop_patch fuel : forall percentage (d : Deployment W) w,
  patchCalls (trace (waitDeployLoop client fuel percentage d w)) = []
  /\ UpdateOpts (dep (waitDeployLoop client fuel percentage d w)) = UpdateOpts d.
Proof.
  induction fuel as [|fuel IH]; intros percentage d w; [split; reflexivity|].
  cbn [waitDeployLoop].
  destruct (nodes.Get client (NodeUUID d) w) as [[node err] w1].
  unfold send.
  split_ifs; cbn [emit trace dep patchCalls]; try (split; reflexivity);
    match goal with
    | |- context [waitDeployLoop client fuel ?p ?d' ?w'] => exact (IH p d' w')
    end.
Qed.

Lemma struct_andThen_patch (r : Run Exit (Deployment W) W DeploymentState) k
    (d : Deployment W) :
  patchCalls (trace r) = [] /\ UpdateOpts (dep r) = UpdateOpts d ->
  UpdateOpts d = [] ->
  (forall d' w', UpdateOpts d' = [] -> patchCalls (trace (k d' w')) = []) ->
  patchCalls (trace (andThen r k)) = [].
Proof.
  intros [Htr Hopts] Hd Hk.
  rewrite trace_andThen, patchCalls_app, Htr.
  destruct (exit r); [|reflexivity].
  apply Hk. congruence.
Qed.

Lemma struct_nextState_patch fuel : forall (d : Deployment W) w,
  UpdateOpts d = [] ->
  patchCalls (trace (nextState client fuel d w)) = [].
Proof.
  induction fuel as [|fuel IH]; intros d w Hopts; [reflexivity|].
  rewrite struct_nextState_S.
  destruct (negb (isNil (Error d)));
    [apply patchCalls_sendIfSet; reflexivity|].
  cbv zeta.
  split_ifs; try reflexivity; apply patchCalls_sendIfSet.
  - (* configure *)
    unfold configure. cbn [UpdateOpts set_currentState].
    rewrite Hopts. cbn [length Nat.eqb negb]. apply IH. exact Hopts.
  - (* manage *)
    unfold manage.
    destruct (nodes.ChangeProvisionState _ _ _ _) as [err w1].
    cbn [emit trace patchCalls]. apply IH.
    destruct (isNil err); exact Hopts.
  - (* waitManage *)
    unfold waitManage.
    eapply struct_andThen_patch;
      [apply struct_waitManageLoop_patch|exact Hopts|exact IH].
  - (* provide *)
    unfold provide.
    destruct (nodes.ChangeProvisionState _ _ _ _) as [err w1].
    cbn [emit trace patchCalls]. apply IH. exact Hopts.
  - (* waitProvide *)
    unfold waitProvide. cbv zeta.
    destruct (nodes.Get _ _ _) as [[node err] w1].
    cbn [emit trace patchCalls].
    eapply struct_andThen_patch
      with (d := set_currentState StateWaitProvide d); [|exact Hopts|].
    + destruct (isNil err);
        [apply struct_waitProvideLoop_patch|split; reflexivity].
    + intros d' w' Hd'. apply IH. exact Hd'.
  - (* deploy *)
    unfold deploy.
    destruct (ConfigDrive _ _) as [[configDrive err] w1].
    destruct (negb (isNil err)); [apply IH; exact Hopts|].
    destruct (nodes.ChangeProvisionState _ _ _ _) as [err2 w2].
    cbn [emit trace patchCalls]. apply IH. exact Hopts.
  - (* waitDeploy *)
    unfold waitDeploy.
    eapply struct_andThen_patch;
      [apply struct_waitDeployLoop_patch|exact Hopts|exact IH].
  - (* done *)
    reflexivity.
Qed.

Lemma struct_Deploy_patch fuel (d : Deployment W) status' w :
  UpdateOpts d = [] ->
  patchCalls (trace (Deploy client fuel d status' w)) = [].
Proof.
  intros Hopts. unfold Deploy.
  destruct status' as [c|]; cbv zeta.
  - rewrite trace_send. cbn [patchCalls].
    destruct (delivered _); [|reflexivity].
    rewrite trace_deferClose, patchCalls_app, struct_nextState_patch
      by exact Hopts.
    destruct (exit _); reflexivity.
  - apply struct_nextState_patch. exact Hopts.
Qed.

Lemma struct_configure_advances fuel (d : Deployment W) w :
  UpdateOpts d = [] -> Error d = None ->
  let d1 := set_currentState StateConfigure d in
  let d2 := set_currentState StateManage d1 in
  configure client (nextState client (S fuel)) d1 w
  = sendIfSet StateManage d2 w (manage client (nextState client fuel) d2 w).
Proof.
  intros Hopts Herr. cbv zeta. unfold configure.
  cbn [UpdateOpts set_currentState]. rewrite Hopts.
  cbn [length Nat.eqb negb]. rewrite struct_nextState_S.
  cbn [Error set_currentState currentState]. rewrite Herr. reflexivity.
Qed.

End StructPatchCalls.

(** ** CONFIGURE with nothing to patch *)

Section ReachesManage.
Context {W : Type} (client : nodes.ServiceClient W).

(** The run up to the request for "manage", integer-channel revision. *)
Lemma int_Deploy_reaches_manage fuel (d : IntVariant.Deployment W) w :
  IntVariant.UpdateOpts d = [] -> IntVariant.Error d = None ->
  exists rest,
    trace (IntVariant.Deploy client (S (S (S fuel))) d (Some caller_chan) w)
    = EvSend (Some caller_chan) IntVariant.StateBeginPercent
      :: EvSend (Some caller_chan) (IntVariant.currentPercent d)
      :: EvSend (Some caller_chan) (IntVariant.currentPercent d)
      :: EvChangeProvisionState (IntVariant.NodeUUID d)
           (nodes.mkProvisionStateOpts "manage" "")
      :: rest.
Proof.
  intros Hopts Herr. unfold IntVariant.Deploy. cbv zeta.
  rewrite trace_send.
  cbn [delivered IntVariant.set_status IntVariant.status
       IntVariant.set_currentState].
  rewrite trace_deferClose, nextState_S.
  cbn [IntVariant.Error IntVariant.set_status IntVariant.set_currentState
       IntVariant.currentState].
  rewrite Herr. cbn [isNil negb].
  change (String.eqb IntVariant.StateBegin IntVariant.StateBegin) with true.
  cbv zeta iota. rewrite trace_send.
  cbn [delivered IntVariant.set_status IntVariant.status
       IntVariant.set_currentState].
  match goal with
  | |- context [IntVariant.configure client _
                  (IntVariant.set_currentState IntVariant.StateConfigure ?d0) w] =>
      rewrite (int_configure_advances client (S fuel) d0 w Hopts Herr)
  end.
  cbv zeta. rewrite trace_send.
  cbn [delivered IntVariant.set_status IntVariant.status
       IntVariant.set_currentState IntVariant.currentPercent].
  unfold IntVariant.manage.
  cbn [IntVariant.NodeUUID IntVariant.set_currentState IntVariant.set_status].
  destruct (nodes.ChangeProvisionState client (IntVariant.NodeUUID d) _ w)
    as [err w1].
  cbn [emit trace]. eexists. cbn [app]. reflexivity.
Qed.

(** The same for the state-struct revision, where the states entered
    are the values sent. *)
Lemma struct_Deploy_reaches_manage fuel (d : StructVariant.Deployment W) w :
  StructVariant.UpdateOpts d = [] -> StructVariant.Error d = None ->
  exists rest,
    trace (StructVariant.Deploy client (S (S (S fuel))) d (Some caller_chan) w)
    = EvSend (Some caller_chan) StructVariant.StateBegin
      :: EvSend (Some caller_chan) StructVariant.StateConfigure
      :: EvSend (Some caller_chan) StructVariant.StateManage
      :: EvChangeProvisionState (StructVariant.NodeUUID d)
           (nodes.mkProvisionStateOpts "manage" "")
      :: rest.
Proof.
  intros Hopts Herr. unfold StructVariant.Deploy. cbv zeta.
  rewrite trace_send.
  cbn [delivered StructVariant.set_status StructVariant.status
       StructVariant.set_currentState].
  rewrite trace_deferClose, struct_nextState_S.
  cbn [StructVariant.Error StructVariant.set_status
       StructVariant.set_currentState StructVariant.currentState].
  rewrite Herr. cbn [isNil negb].
  change (StructVariant.state_eqb StructVariant.StateBegin
            StructVariant.StateBegin) with true.
  cbv zeta iota. rewrite trace_sendIfSet.
  cbn [delivered StructVariant.set_status StructVariant.status
       StructVariant.set_currentState StructVariant.currentState].
  match goal with
  | |- context [StructVariant.configure client _
                  (StructVariant.set_currentState
                     StructVariant.StateConfigure ?d0) w] =>
      rewrite (struct_configure_advances client (S fuel) d0 w Hopts Herr)
  end.
  cbv zeta. rewrite trace_sendIfSet.
  cbn [delivered StructVariant.set_status StructVariant.status
       StructVariant.set_currentState].
  unfold StructVariant.manage.
  cbn [StructVariant.NodeUUID StructVariant.set_currentState
       StructVariant.set_status].
  destruct (nodes.ChangeProvisionState client (StructVariant.NodeUUID d) _ w)
    as [err w1].
  cbn [emit trace]. eexists. cbn [app]. reflexivity.
Qed.

End ReachesManage.

(** C5: for a deployment without patch operations (and without an error
    left in it), in both revisions: the whole run makes no patch call,
    whatever the remote and the channel; [configure], entered in state
    CONFIGURE, does nothing but hand over to the dispatcher, which sets
    the state to MANAGE, reports and calls [manage]; and a run with the
    caller's channel goes BEGIN, CONFIGURE, MANAGE and then asks the remote
    for "manage". *)
Theorem C5_configure_without_patch_operations :
  forall (W : Type) (client : nodes.ServiceClient W) (fuel : nat)
    (dI : IntVariant.Deployment W) (dS : StructVariant.Deployment W)
    (status : option Chan) (w : W),
    IntVariant.UpdateOpts dI = [] ->
    IntVariant.Error dI = None ->
    StructVariant.UpdateOpts dS = [] ->
    StructVariant.Error dS = None ->
    patchCalls (trace (IntVariant.Deploy client fuel dI status w)) = []
    /\ patchCalls (trace (StructVariant.Deploy client fuel dS status w)) = []
    /\ (let d1 := IntVariant.set_currentState IntVariant.StateConfigure dI in
        let d2 := IntVariant.set_currentState IntVariant.StateManage d1 in
        IntVariant.configure client (IntVariant.nextState client (S fuel)) d1 w
        = send Blocked (IntVariant.status d2) (IntVariant.currentPercent d2) d2 w
            (IntVariant.manage client (IntVariant.nextState client fuel) d2 w))
    /\ (let d1 := StructVariant.set_currentState StructVariant.StateConfigure dS in
        let d2 := StructVariant.set_currentState StructVariant.StateManage d1 in
        StructVariant.configure client (StructVariant.nextState client (S fuel)) d1 w
        = StructVariant.sendIfSet StructVariant.StateManage d2 w
            (StructVariant.manage client (StructVariant.nextState client fuel) d2 w))
    /\ (exists rest,
          trace (IntVariant.Deploy client (S (S (S fuel))) dI (Some caller_chan) w)
          = EvSend (Some caller_chan) 0
            :: EvSend (Some caller_chan) (IntVariant.currentPercent dI)
            :: EvSend (Some caller_chan) (IntVariant.currentPercent dI)
            :: EvChangeProvisionState (IntVariant.NodeUUID dI)
                 (nodes.mkProvisionStateOpts "manage" "")
            :: rest)
    /\ (exists rest,
          trace (StructVariant.Deploy client (S (S (S fuel))) dS (Some caller_chan) w)
          = EvSend (Some caller_chan) StructVariant.StateBegin
            :: EvSend (Some caller_chan) StructVariant.StateConfigure
            :: EvSend (Some caller_chan) StructVariant.StateManage
            :: EvChangeProvisionState (StructVariant.NodeUUID dS)
                 (nodes.mkProvisionStateOpts "manage" "")
            :: rest).
Proof.
  intros W client fuel dI dS status w HoI HeI HoS HeS.
  split; [apply int_Deploy_patch; exact HoI|].
  split; [apply struct_Deploy_patch; exact HoS|].
  split; [apply int_configure_advances; assumption|].
  split; [apply struct_configure_advances; assumption|].
  split; [apply int_Deploy_reaches_manage; assumption|].
  apply struct_Deploy_reaches_manage; assumption.
Qed.

Lemma C5_configure_without_patch_operations_witness :
  let client := Scripted.client (Scripted.reports "active") in
  let polled := [Scripted.reports "manageable"; Scripted.reports "available"] in
  IntVariant.UpdateOpts (Scripted.newInt []) = []
  /\ StructVariant.UpdateOpts (Scripted.newStruct []) = []
  /\ patchCalls (trace (IntVariant.Deploy client 12 (Scripted.newInt [])
                          (Some caller_chan) polled)) = []
  /\ patchCalls (trace (StructVariant.Deploy client 12 (Scripted.newStruct [])
                          (Some caller_chan) polled)) = [].
Proof.
  cbv zeta.
  split; [reflexivity|]. split; [reflexivity|].
  pose proof (C5_configure_without_patch_operations Scripted.World
                (Scripted.client (Scripted.reports "active")) 12
                (Scripted.newInt []) (Scripted.newStruct []) (Some caller_chan)
                [Scripted.reports "manageable"; Scripted.reports "available"]
                eq_refl eq_refl eq_refl eq_refl) as H.
  exact (conj (proj1 H) (proj1 (proj2 H))).
Defined.

(** ** The built config drive *)

(** C6: when the config-drive spec has user data and [ToConfigDrive]
    succeeds, the staging directory holds the file
    openstack/latest/user_data with exactly the bytes [ToUserData]
    returned, the staged tree has that file once, under that relative
    path, and the string returned is the standard base64 encoding of the
    gzip-compressed ISO image of the staged tree. *)
Theorem C6_user_data_file_in_built_config_drive :
  forall (GoMap : Type)
    (json_MarshalIndent : GoMap -> string -> string -> list byte * error)
    (json_Marshal : GoMap -> list byte * error)
    (mkisofs : list (string * list byte) -> list byte)
    (gzip : list byte -> list byte)
    (configDrive : configdrive.ConfigDrive GoMap)
    (userData : configdrive.UserDataBuilder GoMap)
    (os os' : configdrive.OS) (result : string),
    configdrive.UserData configDrive = Some userData ->
    configdrive.ToConfigDrive json_MarshalIndent json_Marshal mkisofs gzip
      configDrive os = ((result, None), os') ->
    exists directory data,
      configdrive.ToUserData json_MarshalIndent userData = (data, None)
      /\ configdrive.files os' !! (directory +:+ "/openstack/latest/user_data")
         = Some data
      /\ (forall data',
            ("openstack/latest/user_data", data')
              ∈ configdrive.stagedTree directory os'
            <-> data' = data)
      /\ result
         = base64.EncodeToString
             (gzip (mkisofs (configdrive.stagedTree directory os'))).
Proof.
  intros GoMap json_MarshalIndent json_Marshal mkisofs gzip configDrive userData
    os os' result HuserData Hbuilt.
  unfold configdrive.ToConfigDrive in Hbuilt.
  destruct (configdrive.buildConfigDrive _ _ _ _ _ _) as [[s|e] os1] eqn:Hrun;
    [|discriminate].
  injection Hbuilt as -> ->.
  unfold configdrive.buildConfigDrive in Hrun.
  apply bind_inl in Hrun as (directory & os2 & Htemp & Hrun).
  apply bind_inl in Hrun as (u1 & os3 & Hmkdir & Hrun).
  apply bind_inl in Hrun as (u2 & os4 & Huser & Hrun).
  apply bind_inl in Hrun as (u3 & os5 & Hmeta & Hrun).
  apply bind_inl in Hrun as (u4 & os6 & Hnet & Hrun).
  apply bind_inl in Hrun as (image & os7 & Hpack & Hret).
  injection Hret as <- <-.
  rewrite HuserData in Huser.
  apply bind_inl in Huser as (data & os3' & Hser & Hwrite).
  unfold configdrive.lift in Hser.
  destruct (configdrive.ToUserData json_MarshalIndent userData)
    as [data0 [e|]] eqn:HtoUserData; [discriminate|].
  injection Hser as <- <-.
  apply WriteFile_inl in Hwrite.
  unfold configdrive.PackDirectoryAsISO in Hpack.
  apply syscall_inl in Hpack as (os0 & Hfiles0 & Hpack).
  injection Hpack as <- <-.
  unfold configdrive.FromSlash in *.
  set (path := directory +:+ "/openstack/latest") in *.
  assert (Hfile : configdrive.files os0 !! (path +:+ "/user_data") = Some data0).
  { rewrite Hfiles0.
    rewrite (write_optional_inl _ _ _ _ _ _ Hnet) by (intros H; apply (inj _) in H; discriminate).
    rewrite (write_optional_inl _ _ _ _ _ _ Hmeta) by (intros H; apply (inj _) in H; discriminate).
    rewrite Hwrite. apply lookup_insert_eq. }
  assert (Hpath : path +:+ "/user_data"
                  = directory +:+ "/" +:+ "openstack/latest/user_data").
  { unfold path. rewrite append_assoc. reflexivity. }
  exists directory, data0.
  split; [reflexivity|].
  split.
  { rewrite <- Hfile, Hpath. reflexivity. }
  split; [|reflexivity].
  apply stagedTree_lookup. rewrite <- Hpath. exact Hfile.
Qed.

Lemma C6_user_data_file_in_built_config_drive_witness :
  configdrive.UserData Sample.cloudInit
    = Some (configdrive.UserDataString "#cloud-init")
  /\ snd (fst Sample.built) = None
  /\ exists directory data,
       configdrive.ToUserData Sample.marshalIndent
         (configdrive.UserDataString "#cloud-init") = (data, None)
       /\ configdrive.files (snd Sample.built)
            !! (directory +:+ "/openstack/latest/user_data") = Some data
       /\ (forall data',
             ("openstack/latest/user_data", data')
               ∈ configdrive.stagedTree directory (snd Sample.built)
             <-> data' = data)
       /\ fst (fst Sample.built)
          = base64.EncodeToString
              (Sample.stored
                 (Sample.listing
                    (configdrive.stagedTree directory (snd Sample.built)))).
Proof.
  split; [reflexivity|]. split; [vm_compute; reflexivity|].
  apply (C6_user_data_file_in_built_config_drive unit Sample.marshalIndent
           Sample.marshal Sample.listing Sample.stored Sample.cloudInit
           (configdrive.UserDataString "#cloud-init") Sample.emptyDisk
           (snd Sample.built) (fst (fst Sample.built))).
  - reflexivity.
  - vm_compute. reflexivity.
Defined.

(** The sample drive, built: the string handed to the remote encodes the
    metadata file and the user-data file. *)
Example sample_config_drive :
  fst Sample.built
  = ("b3BlbnN0YWNrL2xhdGVzdC9tZXRhX2RhdGEuanNvbgB7fQBvcGVuc3RhY2svbGF0ZXN0L3VzZXJfZGF0YQAjY2xvdWQtaW5pdAA=",
     None).
Proof. vm_compute. reflexivity. Qed.

(** RFC 4648's test vectors. *)
Example base64_rfc4648 :
  map (fun s => base64.EncodeToString (list_byte_of_string s))
      [""; "f"; "fo"; "foo"; "foob"; "fooba"; "foobar"]
  = [""; "Zg=="; "Zm8="; "Zm9v"; "Zm9vYg=="; "Zm9vYmE="; "Zm9vYmFy"].
Proof. vm_compute. reflexivity. Qed.

(** ** What every run of the integer-channel revision does *)

(** Case analysis on a conditional chain that keeps each test's outcome. *)
Ltac split_ifs_eqn :=
  repeat match goal with
         | |- context [if ?b then _ else _] => destruct b eqn:?
         end.

Section IntRuns.
Import IntVariant.
Context {W : Type} (client : nodes.ServiceClient W).

Lemma int_waitManageLoop_frame fuel : forall (d : Deployment W) w,
  int_frame d (waitManageLoop client fuel d w)
  /\ sendAttempts (trace (waitManageLoop client fuel d w)) = []
  /\ currentPercent (dep (waitManageLoop client fuel d w)) = currentPercent d
  /\ forall e, exit (waitManageLoop client fuel d w) <> Stop (Returned e).
Proof.
  unfold int_frame.
  induction fuel as [|fuel IH]; intros d w; [repeat split; discriminate|].
  cbn [waitManageLoop].
  destruct (nodes.Get client (NodeUUID d) w) as [[node err] w1].
  split_ifs; cbn [emit trace dep exit closes requested sendAttempts];
    try (repeat split; discriminate); use_loop_IH IH.
Qed.

Lemma int_waitProvideLoop_frame fuel : forall (d : Deployment W) w,
  int_frame d (waitProvideLoop client fuel d w)
  /\ sendAttempts (trace (waitProvideLoop client fuel d w)) = []
  /\ currentPercent (dep (waitProvideLoop client fuel d w)) = currentPercent d
  /\ forall e, exit (waitProvideLoop client fuel d w) = Stop (Returned e) ->
       e <> None /\ Error (dep (waitProvideLoop client fuel d w)) = Error d.
Proof.
  unfold int_frame.
  induction fuel as [|fuel IH]; intros d w; [repeat split; discriminate|].
  cbn [waitProvideLoop].
  destruct (nodes.Get client (NodeUUID d) w) as [[node err] w1].
  split_ifs; cbn [emit trace dep exit closes requested sendAttempts];
    try (repeat split; discriminate); try use_loop_IH IH.
  split; [repeat split|]. do 2 (split; [reflexivity|]).
  intros e' [= <-]. split; [discriminate|reflexivity].
Qed.

Lemma int_waitDeployLoop_frame fuel : forall (d : Deployment W) w,
  int_frame d (waitDeployLoop client fuel d w)
  /\ forall e, exit (waitDeployLoop client fuel d w) <> Stop (Returned e).
Proof.
  unfold int_frame.
  induction fuel as [|fuel IH]; intros d w; [repeat split; discriminate|].
  cbn [waitDeployLoop].
  destruct (nodes.Get client (NodeUUID d) w) as [[node err] w1].
  unfold send.
  split_ifs; cbn [emit trace dep exit closes requested sendAttempts];
    try (repeat split; discriminate); use_loop_IH IH.
Qed.

(** The loop of WAIT_DEPLOY keeps the percentage a percentage. *)
Lemma int_waitDeployLoop_percentage fuel : forall (d : Deployment W) w,
  percentage (currentPercent d) ->
  percentage (currentPercent (dep (waitDeployLoop client fuel d w))).
Proof.
  unfold percentage.
  induction fuel as [|fuel IH]; intros d w Hd; [exact Hd|].
  cbn [waitDeployLoop].
  destruct (nodes.Get client (NodeUUID d) w) as [[node err] w1].
  unfold send.
  destruct (currentPercent d <? StateWaitDeployPercent) eqn:Hlt;
    split_ifs; cbn [emit trace dep]; try exact Hd; try (apply IH; exact Hd).
  all: apply Z.ltb_lt in Hlt; unfold StateWaitDeployPercent in Hlt;
    try (apply IH; cbn [currentPercent set_currentPercent]; lia);
    cbn [currentPercent set_currentPercent]; lia.
Qed.

Lemma int_waitDeployLoop_sends fuel (d : Deployment W) w :
  percentage (currentPercent d) ->
  Forall percentage (map snd (sendAttempts (trace (waitDeployLoop client fuel d w)))).
Proof.
  intros Hd.
  destruct (waitDeployLoop_ramp client fuel d w _ eq_refl) as [_ Hall].
  eapply Forall_impl; [exact Hall|]. cbv beta.
  unfold percentage, StateWaitDeployPercent in *. intros v Hv. lia.
Qed.

(** *** How the summary passes through the statements of a method *)

Lemma int_accounted_send v (d : Deployment W) w k :
  percentage v -> int_accounted k ->
  int_accounted (send Blocked (Some caller_chan) v d w k).
Proof.
  unfold int_accounted. intros Hv (Hclose & Hsends & Hret).
  cbn [send delivered emit trace exit dep closes sendAttempts sent map snd].
  split; [exact Hclose|]. split; [constructor; assumption|].
  intros e He. destruct (Hret e He) as [[Herr Hlast]|Hearly];
    [left|right; exact Hearly].
  split; [exact Herr|]. rewrite last_cons, Hlast. reflexivity.
Qed.

Lemma int_accounted_done (d : Deployment W) w :
  status d = Some caller_chan -> int_accounted (done d w).
Proof.
  intros Hst. unfold done, int_accounted. rewrite Hst.
  cbn [send delivered emit trace exit dep closes sendAttempts sent map snd last].
  split; [reflexivity|]. split.
  - constructor; [|constructor]. unfold percentage, StateDonePercent. lia.
  - intros e [= <-]. left. split; reflexivity.
Qed.

Lemma int_accounted_blocked (d : Deployment W) w tr :
  closes tr = O -> Forall percentage (map snd (sendAttempts tr)) ->
  forall o, (forall e, o <> Returned e) ->
  int_accounted (mkRun o d w tr).
Proof.
  intros Hclose Hsends o Ho. unfold int_accounted. cbn [trace exit dep].
  split; [exact Hclose|]. split; [exact Hsends|].
  intros e He. exfalso. exact (Ho e He).
Qed.

Lemma int_accounted_andThen (r : Run Exit (Deployment W) W Z) k :
  closes (trace r) = O ->
  Forall percentage (map snd (sendAttempts (trace r))) ->
  (exit r = Break -> int_accounted (k (dep r) (world r))) ->
  (forall e, exit r = Stop (Returned e) ->
     e <> None /\ Error (dep r) = None /\ currentState (dep r) = StateWaitProvide) ->
  int_accounted (andThen r k).
Proof.
  intros Hclose Hsends Hbreak Hstop. unfold andThen.
  destruct (exit r) as [|o] eqn:Hexit.
  - destruct (Hbreak eq_refl) as (Hc & Hs & Hret).
    unfold int_accounted. cbn [trace exit dep].
    rewrite closes_app, sendAttempts_app, map_app, sent_app, Hclose, Hc.
    split; [reflexivity|]. split; [apply Forall_app; split; assumption|].
    intros e He. destruct (Hret e He) as [[Herr Hlast]|Hearly];
      [left|right; exact Hearly].
    split; [exact Herr|]. rewrite last_app, Hlast. reflexivity.
  - unfold int_accounted. cbn [trace exit dep].
    split; [exact Hclose|]. split; [exact Hsends|].
    intros e ->. right. apply Hstop. reflexivity.
Qed.

Lemma int_dispatchable_false s :
  String.eqb s StateBegin = false -> String.eqb s StateConfigure = false ->
  String.eqb s StateManage = false -> String.eqb s StateWaitManage = false ->
  String.eqb s StateProvide = false -> String.eqb s StateWaitProvide = false ->
  String.eqb s StateDeploy = false -> String.eqb s StateWaitDeploy = false ->
  int_dispatchable s = false.
Proof.
  intros H1 H2 H3 H4 H5 H6 H7 H8. unfold int_dispatchable. cbn [existsb].
  rewrite H1, H2, H3, H4, H5, H6, H7, H8. reflexivity.
Qed.

(** The dispatcher, entered with the caller's channel, a percentage and a
    state it has a case for, is accounted for. *)
Lemma int_nextState_accounted fuel : forall (d : Deployment W) w,
  status d = Some caller_chan ->
  percentage (currentPercent d) ->
  int_dispatchable (currentState d) = true ->
  int_accounted (nextState client fuel d w).
Proof.
  assert (Hpct : forall v, In v [StateConfigurePercent; StateManagePercent;
                                 StateWaitManagePercent; StateProvidePercent;
                                 StateWaitProvidePercent; StateDeployPercent] ->
                           percentage v).
  { intros v Hv. unfold percentage. cbn [In] in Hv.
    repeat destruct Hv as [<-|Hv]; try (vm_compute; split; discriminate).
    destruct Hv. }
  induction fuel as [|fuel IH]; intros d w Hst Hcp Hknown.
  { apply int_accounted_blocked; try discriminate; [reflexivity|constructor]. }
  rewrite nextState_S.
  destruct (negb (isNil (Error d))) eqn:Herr; [apply int_accounted_done, Hst|].
  apply negb_false_iff in Herr.
  assert (Hnil : Error d = None) by (destruct (Error d); [discriminate|reflexivity]).
  cbv zeta.
  split_ifs_eqn;
    cbn [status set_currentState set_currentPercent currentPercent];
    try rewrite Hst.
  - (* configure *)
    apply int_accounted_send; [exact Hcp|].
    unfold configure.
    cbn [UpdateOpts NodeUUID set_currentState].
    destruct (negb _); [|apply IH; assumption || reflexivity].
    destruct (nodes.Update _ _ _ _) as [err w1].
    change (int_accounted
              (nextState client fuel
                 (if isNil err then set_currentState StateConfigure d
                  else set_Error err (set_currentState StateConfigure d)) w1)).
    destruct (isNil err); apply IH; assumption || reflexivity.
  - (* manage *)
    apply int_accounted_send; [exact Hcp|].
    unfold manage. cbn [NodeUUID set_currentState].
    destruct (nodes.ChangeProvisionState _ _ _ _) as [err w1].
    change (int_accounted
              (nextState client fuel
                 (if isNil err then set_currentState StateManage d
                  else set_Error err (set_currentState StateManage d)) w1)).
    destruct (isNil err); apply IH; assumption || reflexivity.
  - (* waitManage *)
    apply int_accounted_send; [apply Hpct; cbn [In]; tauto|].
    unfold waitManage.
    match goal with
    | |- int_accounted (andThen (waitManageLoop client fuel ?d' w) _) =>
        destruct (int_waitManageLoop_frame fuel d' w)
          as ((Hc & _ & Hs & Hstate) & Hnone & Hkeep & Hnoret)
    end.
    apply int_accounted_andThen.
    + exact Hc.
    + rewrite Hnone. constructor.
    + intros _. apply IH.
      * rewrite Hs. exact Hst.
      * rewrite Hkeep. apply Hpct. cbn [In]. tauto.
      * rewrite Hstate. reflexivity.
    + intros e He. destruct (Hnoret e He).
  - (* provide *)
    apply int_accounted_send; [apply Hpct; cbn [In]; tauto|].
    unfold provide. cbn [NodeUUID set_currentState set_currentPercent].
    destruct (nodes.ChangeProvisionState _ _ _ _) as [err w1].
    change (int_accounted
              (nextState client fuel
                 (set_Error err
                    (set_currentState StateProvide
                       (set_currentPercent StateManagePercent d))) w1)).
    apply IH; [exact Hst|apply Hpct; cbn [In]; tauto|reflexivity].
  - (* waitProvide *)
    apply int_accounted_send; [apply Hpct; cbn [In]; tauto|].
    unfold waitProvide.
    match goal with
    | |- int_accounted (andThen (waitProvideLoop client fuel ?d' w) _) =>
        destruct (int_waitProvideLoop_frame fuel d' w)
          as ((Hc & _ & Hs & Hstate) & Hnone & Hkeep & Hret)
    end.
    apply int_accounted_andThen.
    + exact Hc.
    + rewrite Hnone. constructor.
    + intros _. apply IH.
      * rewrite Hs. exact Hst.
      * rewrite Hkeep. apply Hpct. cbn [In]. tauto.
      * rewrite Hstate. reflexivity.
    + intros e He. destruct (Hret e He) as [Hne Herr'].
      split; [exact Hne|]. split; [rewrite Herr'; exact Hnil|exact Hstate].
  - (* deploy *)
    apply int_accounted_send; [apply Hpct; cbn [In]; tauto|].
    unfold deploy. cbn [ConfigDrive NodeUUID set_currentState set_currentPercent].
    destruct (ConfigDrive d w) as [[configDrive err] w1].
    destruct (negb (isNil err));
      [apply IH; [exact Hst|apply Hpct; cbn [In]; tauto|reflexivity]|].
    destruct (nodes.ChangeProvisionState _ _ _ _) as [err2 w2].
    change (int_accounted
              (nextState client fuel
                 (set_Error err2
                    (set_currentState StateDeploy
                       (set_currentPercent StateProvidePercent d))) w2)).
    apply IH; [exact Hst|apply Hpct; cbn [In]; tauto|reflexivity].
  - (* waitDeploy *)
    apply int_accounted_send; [apply Hpct; cbn [In]; tauto|].
    unfold waitDeploy.
    match goal with
    | |- int_accounted (andThen (waitDeployLoop client fuel ?d' w) _) =>
        destruct (int_waitDeployLoop_frame fuel d' w)
          as ((Hc & _ & Hs & Hstate) & Hnoret);
        pose proof (int_waitDeployLoop_percentage fuel d' w) as Hkeep;
        pose proof (int_waitDeployLoop_sends fuel d' w) as Hsends
    end.
    assert (Hp : percentage StateWaitProvidePercent)
      by (apply Hpct; cbn [In]; tauto).
    apply int_accounted_andThen.
    + exact Hc.
    + apply Hsends. exact Hp.
    + intros _. apply IH.
      * rewrite Hs. exact Hst.
      * apply Hkeep. exact Hp.
      * rewrite Hstate. reflexivity.
    + intros e He. destruct (Hnoret e He).
  - (* done *)
    apply int_accounted_send; [apply Hpct; cbn [In]; tauto|].
    apply int_accounted_done. exact Hst.
  - (* no case of the switch *)
    rewrite int_dispatchable_false in Hknown by assumption. discriminate.
Qed.

End IntRuns.

Section DeferClose.
Context {D W M : Type}.

Lemma dep_deferClose c (r : Run Outcome D W M) : dep (deferClose c r) = dep r.
Proof. unfold deferClose. destruct (exit r) eqn:E; reflexivity. Qed.

Lemma closes_deferClose c (r : Run Outcome D W M) e :
  closes (trace r) = O -> exit r = Returned e ->
  closes (trace (deferClose c r)) = 1%nat
  /\ last (trace (deferClose c r)) = Some (EvClose c)
  /\ sent (trace (deferClose c r)) = sent (trace r).
Proof.
  intros Hclose Hexit. rewrite trace_deferClose, Hexit, closes_app, Hclose.
  split; [reflexivity|]. split; [apply last_snoc|].
  rewrite sent_app. apply app_nil_r.
Qed.

Lemma sent_deferClose c (r : Run Outcome D W M) :
  sent (trace (deferClose c r)) = sent (trace r).
Proof.
  rewrite trace_deferClose, sent_app.
  destruct (exit r); cbn [sent]; apply app_nil_r.
Qed.

Lemma Forall_sent (P : M -> Prop) (tr : list (Event M)) :
  Forall P (map snd (sendAttempts tr)) -> Forall P (sent tr).
Proof.
  induction tr as [|ev tr IH]; intros H; [constructor|].
  destruct ev; cbn [sendAttempts sent map snd] in *; try (apply IH; exact H).
  inversion H as [|? ? Hv Htl]; subst.
  destruct (delivered c); [constructor; [exact Hv|]|]; apply IH; exact Htl.
Qed.

End DeferClose.

Section IntDeploy.
Import IntVariant.
Context {W : Type} (client : nodes.ServiceClient W).

(** A whole run with the caller's channel. *)
Lemma int_Deploy_accounted fuel (d : Deployment W) w :
  percentage (currentPercent d) ->
  let r := Deploy client fuel d (Some caller_chan) w in
  Forall percentage (sent (trace r))
  /\ forall e, exit r = Returned e ->
       closes (trace r) = 1%nat
       /\ last (trace r) = Some (EvClose caller_chan)
       /\ ((Error (dep r) = e /\ last (sent (trace r)) = Some StateDonePercent)
           \/ (e <> None /\ Error (dep r) = None
               /\ currentState (dep r) = StateWaitProvide)).
Proof.
  intros Hcp. cbv zeta. unfold Deploy. cbv zeta.
  cbn [send delivered status set_status].
  set (d0 := set_status (Some caller_chan) (set_currentState StateBegin d)).
  destruct (int_nextState_accounted client fuel d0 w eq_refl Hcp eq_refl)
    as (Hclose & Hsends & Hret).
  cbn [emit trace exit dep sent delivered].
  rewrite exit_deferClose, dep_deferClose, sent_deferClose.
  split.
  - constructor; [unfold percentage, StateBeginPercent; lia|].
    apply Forall_sent. exact Hsends.
  - intros e He.
    destruct (closes_deferClose caller_chan _ e Hclose He) as (Hc1 & Hlast & _).
    split; [exact Hc1|]. split.
    + rewrite last_cons, Hlast. reflexivity.
    + destruct (Hret e He) as [[Herr Hl]|Hearly]; [left|right; exact Hearly].
      split; [exact Herr|]. rewrite last_cons, Hl. reflexivity.
Qed.

(** A failed poll ends the loop of WAIT_DEPLOY at once: the result does
    not mention the node that came with the error. *)
Lemma int_waitDeployLoop_failed_poll fuel (d : Deployment W) w node e w1 :
  nodes.Get client (NodeUUID d) w = ((node, Some e), w1) ->
  waitDeployLoop client (S fuel) d w
  = mkRun Break (set_Error (Some e) d) w1 [EvGet (NodeUUID d)].
Proof. intros Hget. rewrite waitDeployLoop_S, Hget. reflexivity. Qed.

(** An error on the deployment stays there through the polls of
    WAIT_MANAGE. *)
Lemma int_waitManageLoop_keeps_error fuel : forall (d : Deployment W) w,
  isNil (Error d) = false ->
  isNil (Error (dep (waitManageLoop client fuel d w))) = false.
Proof.
  induction fuel as [|fuel IH]; intros d w Hd; [exact Hd|].
  cbn [waitManageLoop].
  destruct (nodes.Get client (NodeUUID d) w) as [[node err] w1].
  destruct err as [e|]; cbn [isNil negb]; [reflexivity|].
  split_ifs; cbn [emit dep]; try exact Hd; apply IH; [exact Hd|reflexivity].
Qed.

(** With an error on the deployment the dispatcher only reports and
    returns it. *)
Lemma int_nextState_failed fuel (d : Deployment W) w :
  isNil (Error d) = false ->
  let r := nextState client fuel d w in
  requested (trace r) = []
  /\ forall e, exit r = Returned e -> e <> None /\ Error (dep r) = e.
Proof.
  intros Hd. cbv zeta. destruct fuel as [|fuel]; [split; [reflexivity|discriminate]|].
  rewrite nextState_S, Hd. cbn [negb]. unfold done, send.
  destruct (delivered (status d)); cbn [emit trace exit dep requested];
    (split; [reflexivity|]); [|discriminate].
  intros e [= <-]. split; [|reflexivity].
  destruct (Error d); [discriminate|discriminate].
Qed.

Lemma int_waitManage_unexpected fuel fuel' (d : Deployment W) w node w1 :
  nodes.Get client (NodeUUID d) w = ((node, None), w1) ->
  String.eqb (nodes.ProvisionState node) nodes.Manageable = false ->
  String.eqb (nodes.ProvisionState node) nodes.Verifying = false ->
  let r := waitManage client (S fuel) (nextState client fuel') d w in
  requested (trace r) = []
  /\ forall e, exit r = Returned e -> e <> None /\ Error (dep r) = e.
Proof.
  intros Hget Hm Hv. cbv zeta. unfold waitManage.
  cbn [waitManageLoop]. rewrite Hget, Hm, Hv. cbn [isNil negb].
  set (d' := set_Error _ d).
  destruct (int_waitManageLoop_frame client fuel d' w1)
    as ((_ & Hreq & _ & _) & _ & _ & Hnoret).
  pose proof (int_waitManageLoop_keeps_error fuel d' w1 eq_refl) as Hkept.
  rewrite trace_andThen, exit_andThen, dep_andThen, requested_app.
  cbn [emit trace exit dep world requested]. rewrite Hreq.
  destruct (exit (waitManageLoop client fuel d' w1)) as [|o] eqn:Hexit.
  - exact (int_nextState_failed fuel' _ _ Hkept).
  - split; [reflexivity|]. intros e ->. destruct (Hnoret e eq_refl).
Qed.

End IntDeploy.

(** ** What every run of the state-struct revision does *)

Section StructRuns.
Import StructVariant.
Context {W : Type} (client : nodes.ServiceClient W).

Lemma struct_waitManageLoop_frame fuel : forall (d : Deployment W) w,
  struct_frame d (waitManageLoop client fuel d w)
  /\ sendAttempts (trace (waitManageLoop client fuel d w)) = []
  /\ forall e, exit (waitManageLoop client fuel d w) <> Stop (Returned e).
Proof.
  unfold struct_frame.
  induction fuel as [|fuel IH]; intros d w; [repeat split; discriminate|].
  cbn [waitManageLoop].
  destruct (nodes.Get client (NodeUUID d) w) as [[node err] w1].
  split_ifs; cbn [emit trace dep exit closes requested sendAttempts];
    try (repeat split; discriminate); use_loop_IH IH.
Qed.

Lemma struct_waitProvideLoop_frame fuel node : forall (d : Deployment W) w,
  struct_frame d (waitProvideLoop fuel node d w)
  /\ sendAttempts (trace (waitProvideLoop fuel node d w)) = []
  /\ forall e, exit (waitProvideLoop fuel node d w) = Stop (Returned e) ->
       e <> None /\ Error (dep (waitProvideLoop fuel node d w)) = Error d.
Proof.
  unfold struct_frame.
  induction fuel as [|fuel IH]; intros d w; [repeat split; discriminate|].
  cbn [waitProvideLoop].
  split_ifs; cbn [emit trace dep exit closes requested sendAttempts];
    try (repeat split; discriminate); try apply IH.
  split; [repeat split|]. split; [reflexivity|].
  intros e' [= <-]. split; [discriminate|reflexivity].
Qed.

Lemma struct_waitDeployLoop_frame fuel : forall percentage (d : Deployment W) w,
  struct_frame d (waitDeployLoop client fuel percentage d w)
  /\ forall e, exit (waitDeployLoop client fuel percentage d w) <> Stop (Returned e).
Proof.
  unfold struct_frame.
  induction fuel as [|fuel IH]; intros pct d w; [repeat split; discriminate|].
  cbn [waitDeployLoop].
  destruct (nodes.Get client (NodeUUID d) w) as [[node err] w1].
  unfold send.
  split_ifs; cbn [emit trace dep exit closes requested sendAttempts];
    try (repeat split; discriminate);
    match goal with
    | |- context [waitDeployLoop client fuel ?p ?d' ?w'] => exact (IH p d' w')
    end.
Qed.

Lemma struct_waitDeployLoop_sends fuel : forall pct (d : Deployment W) w,
  percentage pct ->
  Forall (fun s => percentage (Percentage s))
    (map snd (sendAttempts (trace (waitDeployLoop client fuel pct d w)))).
Proof.
  unfold percentage.
  induction fuel as [|fuel IH]; intros pct d w Hp; [constructor|].
  cbn [waitDeployLoop].
  destruct (nodes.Get client (NodeUUID d) w) as [[node err] w1].
  assert (Hp' : 0 <= (if pct <? 99 then pct + 1 else pct) <= 100).
  { destruct (pct <? 99) eqn:Hlt; [apply Z.ltb_lt in Hlt; lia|exact Hp]. }
  unfold send.
  split_ifs; cbn [emit trace sendAttempts map snd]; try constructor;
    try exact Hp'; try constructor; apply IH; assumption.
Qed.

Lemma struct_accounted_send v (d : Deployment W) w k :
  percentage (Percentage v) -> struct_accounted k ->
  struct_accounted (send Blocked (Some caller_chan) v d w k).
Proof.
  unfold struct_accounted. intros Hv (Hclose & Hsends & Hret).
  cbn [send delivered emit trace exit dep closes sendAttempts sent map snd].
  split; [exact Hclose|]. split; [constructor; assumption|].
  intros e He. destruct (Hret e He) as [[Herr Hlast]|Hearly];
    [left|right; exact Hearly].
  split; [exact Herr|]. rewrite last_cons, Hlast. reflexivity.
Qed.

(** The two places where the dispatcher ends the run. *)
Lemma struct_accounted_error (d : Deployment W) w :
  status d = Some caller_chan -> isNil (Error d) = false ->
  struct_accounted (sendIfSet StateError d w (done d w)).
Proof.
  intros Hst Herr. unfold sendIfSet, done, struct_accounted. rewrite Hst.
  cbn [send delivered emit trace exit dep closes sendAttempts sent map snd last].
  split; [reflexivity|]. split.
  - constructor; [|constructor]. unfold percentage. cbn. lia.
  - intros e [= <-]. left. rewrite Herr. split; reflexivity.
Qed.

Lemma struct_accounted_done (d : Deployment W) w :
  Error d = None ->
  struct_accounted (send Blocked (Some caller_chan) StateDone d w (done d w)).
Proof.
  intros Herr. unfold done, struct_accounted. rewrite Herr.
  cbn [send delivered emit trace exit dep closes sendAttempts sent map snd last].
  split; [reflexivity|]. split.
  - constructor; [|constructor]. unfold percentage. cbn. lia.
  - intros e [= <-]. left. split; [exact Herr|reflexivity].
Qed.

Lemma struct_accounted_blocked (d : Deployment W) w tr :
  closes tr = O ->
  Forall (fun s => percentage (Percentage s)) (map snd (sendAttempts tr)) ->
  forall o, (forall e, o <> Returned e) ->
  struct_accounted (mkRun o d w tr).
Proof.
  intros Hclose Hsends o Ho. unfold struct_accounted. cbn [trace exit dep].
  split; [exact Hclose|]. split; [exact Hsends|].
  intros e He. exfalso. exact (Ho e He).
Qed.

Lemma struct_accounted_andThen
    (r : Run Exit (Deployment W) W DeploymentState) k :
  closes (trace r) = O ->
  Forall (fun s => percentage (Percentage s)) (map snd (sendAttempts (trace r))) ->
  (exit r = Break -> struct_accounted (k (dep r) (world r))) ->
  (forall e, exit r = Stop (Returned e) ->
     e <> None /\ Error (dep r) = None /\ currentState (dep r) = StateWaitProvide) ->
  struct_accounted (andThen r k).
Proof.
  intros Hclose Hsends Hbreak Hstop. unfold andThen.
  destruct (exit r) as [|o] eqn:Hexit.
  - destruct (Hbreak eq_refl) as (Hc & Hs & Hret).
    unfold struct_accounted. cbn [trace exit dep].
    rewrite closes_app, sendAttempts_app, map_app, sent_app, Hclose, Hc.
    split; [reflexivity|]. split; [apply Forall_app; split; assumption|].
    intros e He. destruct (Hret e He) as [[Herr Hlast]|Hearly];
      [left|right; exact Hearly].
    split; [exact Herr|]. rewrite last_app, Hlast. reflexivity.
  - unfold struct_accounted. cbn [trace exit dep].
    split; [exact Hclose|]. split; [exact Hsends|].
    intros e ->. right. apply Hstop. reflexivity.
Qed.

Lemma struct_dispatchable_false s :
  state_eqb s StateBegin = false -> state_eqb s StateConfigure = false ->
  state_eqb s StateManage = false -> state_eqb s StateWaitManage = false ->
  state_eqb s StateProvide = false -> state_eqb s StateWaitProvide = false ->
  state_eqb s StateDeploy = false -> state_eqb s StateWaitDeploy = false ->
  struct_dispatchable s = false.
Proof.
  intros H1 H2 H3 H4 H5 H6 H7 H8. unfold struct_dispatchable. cbn [existsb].
  rewrite H1, H2, H3, H4, H5, H6, H7, H8. reflexivity.
Qed.

Lemma struct_nextState_accounted fuel : forall (d : Deployment W) w,
  status d = Some caller_chan ->
  struct_dispatchable (currentState d) = true ->
  struct_accounted (nextState client fuel d w).
Proof.
  assert (Hpct : forall s, In s [StateConfigure; StateManage; StateWaitManage;
                                 StateProvide; StateWaitProvide; StateDeploy;
                                 StateWaitDeploy; StateDone] ->
                           percentage (Percentage s)).
  { intros s Hs. unfold percentage. cbn [In] in Hs.
    repeat destruct Hs as [<-|Hs]; try (vm_compute; split; discriminate).
    destruct Hs. }
  induction fuel as [|fuel IH]; intros d w Hst Hknown.
  { apply struct_accounted_blocked; try discriminate; [reflexivity|constructor]. }
  rewrite struct_nextState_S.
  destruct (negb (isNil (Error d))) eqn:Herr.
  { apply struct_accounted_error; [exact Hst|]. apply negb_true_iff, Herr. }
  apply negb_false_iff in Herr.
  assert (Hnil : Error d = None) by (destruct (Error d); [discriminate|reflexivity]).
  cbv zeta.
  split_ifs_eqn;
    try (unfold sendIfSet at 1; cbn [status set_currentState currentState];
         rewrite Hst).
  - (* configure *)
    apply struct_accounted_send; [apply Hpct; cbn [In]; tauto|].
    unfold configure. cbn [UpdateOpts NodeUUID set_currentState].
    destruct (negb _); [|apply IH; assumption || reflexivity].
    destruct (nodes.Update _ _ _ _) as [err w1].
    change (struct_accounted
              (nextState client fuel
                 (if isNil err then set_currentState StateConfigure d
                  else set_Error err (set_currentState StateConfigure d)) w1)).
    destruct (isNil err); apply IH; assumption || reflexivity.
  - (* manage *)
    apply struct_accounted_send; [apply Hpct; cbn [In]; tauto|].
    unfold manage. cbn [NodeUUID set_currentState].
    destruct (nodes.ChangeProvisionState _ _ _ _) as [err w1].
    change (struct_accounted
              (nextState client fuel
                 (if isNil err then set_currentState StateManage d
                  else set_Error err (set_currentState StateManage d)) w1)).
    destruct (isNil err); apply IH; assumption || reflexivity.
  - (* waitManage *)
    apply struct_accounted_send; [apply Hpct; cbn [In]; tauto|].
    unfold waitManage.
    match goal with
    | |- struct_accounted (andThen (waitManageLoop client fuel ?d' w) _) =>
        destruct (struct_waitManageLoop_frame fuel d' w)
          as ((Hc & _ & Hs & Hstate) & Hnone & Hnoret)
    end.
    apply struct_accounted_andThen.
    + exact Hc.
    + rewrite Hnone. constructor.
    + intros _. apply IH; [rewrite Hs; exact Hst|rewrite Hstate; reflexivity].
    + intros e He. destruct (Hnoret e He).
  - (* provide *)
    apply struct_accounted_send; [apply Hpct; cbn [In]; tauto|].
    unfold provide. cbn [NodeUUID set_currentState].
    destruct (nodes.ChangeProvisionState _ _ _ _) as [err w1].
    change (struct_accounted
              (nextState client fuel
                 (set_Error err (set_currentState StateProvide d)) w1)).
    apply IH; [exact Hst|reflexivity].
  - (* waitProvide *)
    apply struct_accounted_send; [apply Hpct; cbn [In]; tauto|].
    unfold waitProvide. cbv zeta. cbn [NodeUUID set_currentState].
    destruct (nodes.Get client (NodeUUID d) w) as [[node err] w1].
    set (d' := set_currentState StateWaitProvide d).
    change (struct_accounted
              (emit (EvGet (NodeUUID d))
                 (andThen
                    (if isNil err then waitProvideLoop fuel node d' w1
                     else mkRun Break d' w1 [])
                    (fun d'' w' => nextState client fuel (set_Error None d'') w')))).
    assert (Hk : forall d'' w', status d'' = Some caller_chan ->
                   currentState d'' = StateWaitProvide ->
                   struct_accounted (nextState client fuel (set_Error None d'') w')).
    { intros d'' w' Hs'' Hstate''. apply IH; [exact Hs''|].
      cbn [currentState set_Error]. rewrite Hstate''. reflexivity. }
    match goal with
    | |- struct_accounted (emit ?ev ?r) =>
        assert (Hr : struct_accounted r);
          [|destruct Hr as (Hc & Hs & Hret);
            unfold struct_accounted;
            cbn [emit trace exit dep closes sendAttempts sent];
            exact (conj Hc (conj Hs Hret))]
    end.
    destruct (isNil err).
    + destruct (struct_waitProvideLoop_frame fuel node d' w1)
        as ((Hc & _ & Hs & Hstate) & Hnone & Hret).
      apply struct_accounted_andThen.
      * exact Hc.
      * rewrite Hnone. constructor.
      * intros _. apply Hk; [rewrite Hs; exact Hst|rewrite Hstate; reflexivity].
      * intros e He. destruct (Hret e He) as [Hne Herr'].
        split; [exact Hne|]. split; [rewrite Herr'; exact Hnil|exact Hstate].
    + apply struct_accounted_andThen; cbn [trace exit dep world closes sendAttempts map].
      * reflexivity.
      * constructor.
      * intros _. apply Hk; [exact Hst|reflexivity].
      * discriminate.
  - (* deploy *)
    apply struct_accounted_send; [apply Hpct; cbn [In]; tauto|].
    unfold deploy. cbn [ConfigDrive NodeUUID set_currentState].
    destruct (ConfigDrive d w) as [[configDrive err] w1].
    destruct (negb (isNil err)); [apply IH; [exact Hst|reflexivity]|].
    destruct (nodes.ChangeProvisionState _ _ _ _) as [err2 w2].
    change (struct_accounted
              (nextState client fuel
                 (set_Error err2 (set_currentState StateDeploy d)) w2)).
    apply IH; [exact Hst|reflexivity].
  - (* waitDeploy *)
    apply struct_accounted_send; [apply Hpct; cbn [In]; tauto|].
    unfold waitDeploy.
    match goal with
    | |- struct_accounted (andThen (waitDeployLoop client fuel ?p ?d' w) _) =>
        destruct (struct_waitDeployLoop_frame fuel p d' w)
          as ((Hc & _ & Hs & Hstate) & Hnoret);
        pose proof (struct_waitDeployLoop_sends fuel p d' w) as Hsends
    end.
    apply struct_accounted_andThen.
    + exact Hc.
    + apply Hsends. unfold percentage. lia.
    + intros _. apply IH; [rewrite Hs; exact Hst|rewrite Hstate; reflexivity].
    + intros e He. destruct (Hnoret e He).
  - (* done *)
    exact (struct_accounted_done (set_currentState StateDone d) w Hnil).
  - (* no case of the switch *)
    rewrite struct_dispatchable_false in Hknown by assumption. discriminate.
Qed.

End StructRuns.

Section StructDeploy.
Import StructVariant.
Context {W : Type} (client : nodes.ServiceClient W).

Lemma struct_Deploy_accounted fuel (d : Deployment W) w :
  let r := Deploy client fuel d (Some caller_chan) w in
  Forall (fun s => percentage (Percentage s)) (sent (trace r))
  /\ forall e, exit r = Returned e ->
       closes (trace r) = 1%nat
       /\ last (trace r) = Some (EvClose caller_chan)
       /\ ((Error (dep r) = e
            /\ last (sent (trace r))
               = Some (if isNil e then StateDone else StateError))
           \/ (e <> None /\ Error (dep r) = None
               /\ currentState (dep r) = StateWaitProvide)).
Proof.
  cbv zeta. unfold Deploy. cbv zeta.
  cbn [send delivered status set_status].
  set (d0 := set_status (Some caller_chan) (set_currentState StateBegin d)).
  destruct (struct_nextState_accounted client fuel d0 w eq_refl eq_refl)
    as (Hclose & Hsends & Hret).
  cbn [emit trace exit dep sent delivered].
  rewrite exit_deferClose, dep_deferClose, sent_deferClose.
  split.
  - constructor; [unfold percentage; cbn; lia|].
    apply Forall_sent. exact Hsends.
  - intros e He.
    destruct (closes_deferClose caller_chan _ e Hclose He) as (Hc1 & Hlast & _).
    split; [exact Hc1|]. split.
    + rewrite last_cons, Hlast. reflexivity.
    + destruct (Hret e He) as [[Herr Hl]|Hearly]; [left|right; exact Hearly].
      split; [exact Herr|]. rewrite last_cons, Hl. reflexivity.
Qed.

Lemma struct_waitManageLoop_keeps_error fuel : forall (d : Deployment W) w,
  isNil (Error d) = false ->
  isNil (Error (dep (waitManageLoop client fuel d w))) = false.
Proof.
  induction fuel as [|fuel IH]; intros d w Hd; [exact Hd|].
  cbn [waitManageLoop].
  destruct (nodes.Get client (NodeUUID d) w) as [[node err] w1].
  destruct err as [e|]; cbn [isNil negb]; [reflexivity|].
  split_ifs; cbn [emit dep]; try exact Hd; apply IH; [exact Hd|reflexivity].
Qed.

Lemma struct_nextState_failed fuel (d : Deployment W) w :
  isNil (Error d) = false ->
  let r := nextState client fuel d w in
  requested (trace r) = []
  /\ forall e, exit r = Returned e -> e <> None /\ Error (dep r) = e.
Proof.
  intros Hd. cbv zeta.
  destruct fuel as [|fuel]; [split; [reflexivity|discriminate]|].
  rewrite struct_nextState_S, Hd. cbn [negb]. unfold sendIfSet, done, send.
  assert (Hne : forall e, Returned (Error d) = Returned e ->
                          e <> None /\ Error d = e).
  { intros e [= <-]. split; [|reflexivity]. destruct (Error d); discriminate. }
  destruct (status d) as [c|]; [destruct (delivered (Some c))|];
    cbn [emit trace exit dep requested];
    (split; [reflexivity|]); try exact Hne; discriminate.
Qed.

Lemma struct_waitManage_unexpected fuel fuel' (d : Deployment W) w node w1 :
  nodes.Get client (NodeUUID d) w = ((node, None), w1) ->
  String.eqb (nodes.ProvisionState node) nodes.Manageable = false ->
  String.eqb (nodes.ProvisionState node) nodes.Verifying = false ->
  let r := waitManage client (S fuel) (nextState client fuel') d w in
  requested (trace r) = []
  /\ forall e, exit r = Returned e -> e <> None /\ Error (dep r) = e.
Proof.
  intros Hget Hm Hv. cbv zeta. unfold waitManage.
  cbn [waitManageLoop]. rewrite Hget, Hm, Hv. cbn [isNil negb].
  set (d' := set_Error _ d).
  destruct (struct_waitManageLoop_frame client fuel d' w1)
    as ((_ & Hreq & _ & _) & _ & Hnoret).
  pose proof (struct_waitManageLoop_keeps_error fuel d' w1 eq_refl) as Hkept.
  rewrite trace_andThen, exit_andThen, dep_andThen, requested_app.
  cbn [emit trace exit dep world requested]. rewrite Hreq.
  destruct (exit (waitManageLoop client fuel d' w1)) as [|o] eqn:Hexit.
  - exact (struct_nextState_failed fuel' _ _ Hkept).
  - split; [reflexivity|]. intros e ->. destruct (Hnoret e eq_refl).
Qed.

End StructDeploy.

(** ** Where the checked properties do hold *)

(** X1: in the integer-channel revision a failed poll ends the loop of
    WAIT_DEPLOY at once, with the transport error on the deployment; the
    node that came with the error has no part in the result. *)
Theorem int_wait_deploy_stops_on_failed_poll :
  forall (W : Type) (client : nodes.ServiceClient W) (fuel : nat)
    (d : IntVariant.Deployment W) (w w1 : W) (node : nodes.Node) (e : string),
    nodes.Get client (IntVariant.NodeUUID d) w = ((node, Some e), w1) ->
    IntVariant.waitDeployLoop client (S fuel) d w
    = mkRun Break (IntVariant.set_Error (Some e) d) w1
        [EvGet (IntVariant.NodeUUID d)].
Proof.
  intros W client fuel d w w1 node e Hget.
  exact (int_waitDeployLoop_failed_poll client fuel d w node e w1 Hget).
Qed.

Lemma int_wait_deploy_stops_on_failed_poll_witness :
  IntVariant.waitDeployLoop (Scripted.client (Scripted.reports "active")) 5
    (Scripted.newInt Scripted.instanceInfo)
    [(nodes.mkNode "master-0" "deploying", Some "connection refused");
     Scripted.reports "active"]
  = mkRun Break
      (IntVariant.set_Error (Some "connection refused")
         (Scripted.newInt Scripted.instanceInfo))
      [Scripted.reports "active"] [EvGet "uuid-0"].
Proof.
  apply (int_wait_deploy_stops_on_failed_poll Scripted.World
           (Scripted.client (Scripted.reports "active")) 4
           (Scripted.newInt Scripted.instanceInfo) _ _
           (nodes.mkNode "master-0" "deploying") "connection refused").
  reflexivity.
Defined.

(** X2: in both revisions, once a poll of WAIT_MANAGE has found the node
    in a state that is neither "manageable" nor "verifying", the rest of
    the run requests no provision-state change, "provide" least of all,
    and if the run returns it returns a non-nil error that is on the
    deployment. *)
Theorem wait_manage_unexpected_state_never_provides :
  forall (W : Type) (client : nodes.ServiceClient W) (fuel fuel' : nat)
    (dI : IntVariant.Deployment W) (dS : StructVariant.Deployment W)
    (w w1 : W) (node : nodes.Node),
    nodes.Get client (IntVariant.NodeUUID dI) w = ((node, None), w1) ->
    nodes.Get client (StructVariant.NodeUUID dS) w = ((node, None), w1) ->
    String.eqb (nodes.ProvisionState node) nodes.Manageable = false ->
    String.eqb (nodes.ProvisionState node) nodes.Verifying = false ->
    let rI := IntVariant.waitManage client (S fuel)
                (IntVariant.nextState client fuel') dI w in
    let rS := StructVariant.waitManage client (S fuel)
                (StructVariant.nextState client fuel') dS w in
    (requested (trace rI) = []
     /\ forall e, exit rI = Returned e ->
          e <> None /\ IntVariant.Error (dep rI) = e)
    /\ (requested (trace rS) = []
        /\ forall e, exit rS = Returned e ->
             e <> None /\ StructVariant.Error (dep rS) = e).
Proof.
  intros W client fuel fuel' dI dS w w1 node HgI HgS Hm Hv. cbv zeta. split.
  - exact (int_waitManage_unexpected client fuel fuel' dI w node w1 HgI Hm Hv).
  - exact (struct_waitManage_unexpected client fuel fuel' dS w node w1 HgS Hm Hv).
Qed.

Lemma wait_manage_unexpected_state_never_provides_witness :
  let client := Scripted.client (Scripted.reports "active") in
  let polled := [Scripted.reports "enroll"; Scripted.reports "manageable"] in
  let dI := IntVariant.set_status (Some caller_chan)
              (Scripted.newInt Scripted.instanceInfo) in
  let rI := IntVariant.waitManage client 5 (IntVariant.nextState client 9)
              dI polled in
  exit rI = Returned (Some "manage failed: master-0 current state is: enroll")
  /\ requested (trace rI) = []
  /\ IntVariant.Error (dep rI)
     = Some "manage failed: master-0 current state is: enroll".
Proof.
  cbv zeta.
  pose proof (wait_manage_unexpected_state_never_provides Scripted.World
                (Scripted.client (Scripted.reports "active")) 4 9
                (IntVariant.set_status (Some caller_chan)
                   (Scripted.newInt Scripted.instanceInfo))
                (Scripted.newStruct Scripted.instanceInfo)
                [Scripted.reports "enroll"; Scripted.reports "manageable"]
                [Scripted.reports "manageable"]
                (nodes.mkNode "master-0" "enroll")
                eq_refl eq_refl eq_refl eq_refl) as [[Hreq Hret] _].
  split; [reflexivity|]. split; [exact Hreq|].
  exact (proj2 (Hret _ eq_refl)).
Defined.

(** X3: a successful run of the integer-channel [Deploy] on the caller's
    channel, started with a percentage in the deployment, sends only
    values between 0 and 100, sends 100 last, leaves no error on the
    deployment and closes the channel once, as the last thing it does. *)
Theorem int_successful_run_ends_with_100_and_one_close :
  forall (W : Type) (client : nodes.ServiceClient W) (fuel : nat)
    (d : IntVariant.Deployment W) (w : W),
    percentage (IntVariant.currentPercent d) ->
    exit (IntVariant.Deploy client fuel d (Some caller_chan) w) = Returned None ->
    let r := IntVariant.Deploy client fuel d (Some caller_chan) w in
    Forall percentage (sent (trace r))
    /\ last (sent (trace r)) = Some 100
    /\ closes (trace r) = 1%nat
    /\ last (trace r) = Some (EvClose caller_chan)
    /\ IntVariant.Error (dep r) = None.
Proof.
  intros W client fuel d w Hcp Hexit. cbv zeta.
  destruct (int_Deploy_accounted client fuel d w Hcp) as [Hrange Hret].
  destruct (Hret None Hexit) as (Hclose & Hlast & [[Herr Hsent]|[Hne _]]).
  - repeat split; assumption.
  - destruct (Hne eq_refl).
Qed.

Lemma int_successful_run_ends_with_100_and_one_close_witness :
  let r :=
    IntVariant.Deploy (Scripted.client (Scripted.reports "active")) 12
      (Scripted.newInt Scripted.instanceInfo) (Some caller_chan)
      [Scripted.reports "manageable"; Scripted.reports "available";
       Scripted.reports "deploying"; Scripted.reports "active"] in
  exit r = Returned None
  /\ Forall percentage (sent (trace r))
  /\ last (sent (trace r)) = Some 100
  /\ closes (trace r) = 1%nat.
Proof.
  cbv zeta. split; [reflexivity|].
  pose proof (int_successful_run_ends_with_100_and_one_close Scripted.World
                (Scripted.client (Scripted.reports "active")) 12
                (Scripted.newInt Scripted.instanceInfo)
                [Scripted.reports "manageable"; Scripted.reports "available";
                 Scripted.reports "deploying"; Scripted.reports "active"]
                (conj (Z.le_refl 0) (Zle_0_pos 100)) eq_refl)
    as (Hrange & Hlast & Hclose & _).
  exact (conj Hrange (conj Hlast Hclose)).
Defined.

(** X4: a run of the integer-channel [Deploy] on the caller's channel
    that returns an error closes the channel once, last of all, and
    either the error is on the deployment and 100 was the last value
    sent, or the error came from the early return of WAIT_PROVIDE and the
    deployment holds no error. *)
Theorem int_failed_run_accounting :
  forall (W : Type) (client : nodes.ServiceClient W) (fuel : nat)
    (d : IntVariant.Deployment W) (w : W) (e : string),
    percentage (IntVariant.currentPercent d) ->
    exit (IntVariant.Deploy client fuel d (Some caller_chan) w)
      = Returned (Some e) ->
    let r := IntVariant.Deploy client fuel d (Some caller_chan) w in
    closes (trace r) = 1%nat
    /\ last (trace r) = Some (EvClose caller_chan)
    /\ ((IntVariant.Error (dep r) = Some e /\ last (sent (trace r)) = Some 100)
        \/ (IntVariant.Error (dep r) = None
            /\ IntVariant.currentState (dep r) = IntVariant.StateWaitProvide)).
Proof.
  intros W client fuel d w e Hcp Hexit. cbv zeta.
  destruct (int_Deploy_accounted client fuel d w Hcp) as [_ Hret].
  destruct (Hret (Some e) Hexit) as (Hclose & Hlast & [Hdone|(_ & Hearly)]).
  - split; [exact Hclose|]. split; [exact Hlast|]. left. exact Hdone.
  - split; [exact Hclose|]. split; [exact Hlast|]. right. exact Hearly.
Qed.

Lemma int_failed_run_accounting_witness :
  let r :=
    IntVariant.Deploy (Scripted.client (Scripted.reports "active")) 12
      (Scripted.newInt Scripted.instanceInfo) (Some caller_chan)
      [Scripted.reports "manageable"; Scripted.reports "available";
       Scripted.reports "deploy failed"] in
  exit r
    = Returned (Some "deploy failed: master-0 current state is: deploy failed")
  /\ closes (trace r) = 1%nat
  /\ last (trace r) = Some (EvClose caller_chan).
Proof.
  cbv zeta. split; [reflexivity|].
  pose proof (int_failed_run_accounting Scripted.World
                (Scripted.client (Scripted.reports "active")) 12
                (Scripted.newInt Scripted.instanceInfo)
                [Scripted.reports "manageable"; Scripted.reports "available";
                 Scripted.reports "deploy failed"]
                "deploy failed: master-0 current state is: deploy failed"
                (conj (Z.le_refl 0) (Zle_0_pos 100)) eq_refl)
    as (Hclose & Hlast & _).
  exact (conj Hclose Hlast).
Defined.

(** X5: the same for the state-struct revision, where the last value of
    a run that recorded its error is the ERROR marker, with percentage
    100. *)
Theorem struct_failed_run_accounting :
  forall (W : Type) (client : nodes.ServiceClient W) (fuel : nat)
    (d : StructVariant.Deployment W) (w : W) (e : string),
    exit (StructVariant.Deploy client fuel d (Some caller_chan) w)
      = Returned (Some e) ->
    let r := StructVariant.Deploy client fuel d (Some caller_chan) w in
    closes (trace r) = 1%nat
    /\ last (trace r) = Some (EvClose caller_chan)
    /\ ((StructVariant.Error (dep r) = Some e
         /\ last (sent (trace r)) = Some StructVariant.StateError
         /\ StructVariant.Percentage StructVariant.StateError = 100)
        \/ (StructVariant.Error (dep r) = None
            /\ StructVariant.currentState (dep r)
               = StructVariant.StateWaitProvide)).
Proof.
  intros W client fuel d w e Hexit. cbv zeta.
  destruct (struct_Deploy_accounted client fuel d w) as [_ Hret].
  destruct (Hret (Some e) Hexit) as (Hclose & Hlast & [[Herr Hsent]|(_ & Hearly)]).
  - split; [exact Hclose|]. split; [exact Hlast|]. left.
    split; [exact Herr|]. split; [exact Hsent|reflexivity].
  - split; [exact Hclose|]. split; [exact Hlast|]. right. exact Hearly.
Qed.

Lemma struct_failed_run_accounting_witness :
  let r :=
    StructVariant.Deploy (Scripted.client (Scripted.reports "active")) 12
      (Scripted.newStruct Scripted.instanceInfo) (Some caller_chan)
      [Scripted.reports "manageable"; Scripted.reports "available";
       Scripted.reports "deploy failed"] in
  exit r = Returned (Some "deploy failed: node's current state is: deploy failed")
  /\ closes (trace r) = 1%nat
  /\ last (trace r) = Some (EvClose caller_chan).
Proof.
  cbv zeta. split; [reflexivity|].
  pose proof (struct_failed_run_accounting Scripted.World
                (Scripted.client (Scripted.reports "active")) 12
                (Scripted.newStruct Scripted.instanceInfo)
                [Scripted.reports "manageable"; Scripted.reports "available";
                 Scripted.reports "deploy failed"]
                "deploy failed: node's current state is: deploy failed"
                eq_refl)
    as (Hclose & Hlast & _).
  exact (conj Hclose Hlast).
Defined.

(** ** The builder goes through when nothing fails *)

Section BuilderSucceeds.
Import configdrive.

Lemma succeeds_ret {A} (a : A) : succeeds (ret a).
Proof. intros os Hos. exists a, os. split; [reflexivity|exact Hos]. Qed.

Lemma succeeds_bind {A B} (m : IO A) (k : A -> IO B) :
  succeeds m -> (forall a, succeeds (k a)) -> succeeds (bind m k).
Proof.
  intros Hm Hk os Hos. destruct (Hm os Hos) as (a & os1 & Hrun & Hos1).
  destruct (Hk a os1 Hos1) as (b & os2 & Hrun2 & Hos2).
  exists b, os2. unfold bind. rewrite Hrun. split; [exact Hrun2|exact Hos2].
Qed.

Lemma succeeds_lift {A} (a : A) : succeeds (lift (a, None)).
Proof. apply succeeds_ret. Qed.

Lemma succeeds_syscall {A} (ok : OS -> A * OS) :
  (forall os, faults (snd (ok os)) = faults os) -> succeeds (syscall ok).
Proof.
  intros Hok os Hos. unfold syscall. rewrite Hos.
  destruct (ok os) as [a os'] eqn:E. exists a, os'. split; [reflexivity|].
  specialize (Hok os). rewrite E in Hok. cbn [snd] in Hok. congruence.
Qed.

Lemma succeeds_TempDir prefix : succeeds (TempDir prefix).
Proof. apply succeeds_syscall. reflexivity. Qed.

Lemma succeeds_MkdirAll path : succeeds (MkdirAll path).
Proof. apply succeeds_syscall. reflexivity. Qed.

Lemma succeeds_WriteFile path data : succeeds (WriteFile path data).
Proof. apply succeeds_syscall. reflexivity. Qed.

Lemma succeeds_write_optional {A} (field : option A)
    (marshal : A -> list byte * error) path :
  (forall v, field = Some v -> snd (marshal v) = None) ->
  succeeds match field with
           | Some v => data <- lift (marshal v) ;; WriteFile path data
           | None => ret tt
           end.
Proof.
  intros Hm. destruct field as [v|]; [|apply succeeds_ret].
  specialize (Hm v eq_refl). destruct (marshal v) as [data err].
  cbn [snd] in Hm. subst err.
  apply succeeds_bind; [apply succeeds_lift|].
  intros data'. apply succeeds_WriteFile.
Qed.

End BuilderSucceeds.

(** On a system where no call fails, with user data, metadata and
    network data that serialize, [ToConfigDrive] returns a config drive
    and no error. *)
Theorem ToConfigDrive_succeeds_without_faults :
  forall (GoMap : Type)
    (json_MarshalIndent : GoMap -> string -> string -> list byte * error)
    (json_Marshal : GoMap -> list byte * error)
    (mkisofs : list (string * list byte) -> list byte)
    (gzip : list byte -> list byte)
    (configDrive : configdrive.ConfigDrive GoMap) (os : configdrive.OS),
    configdrive.faults os = [] ->
    (forall userData, configdrive.UserData configDrive = Some userData ->
       snd (configdrive.ToUserData json_MarshalIndent userData) = None) ->
    (forall m, configdrive.MetaData configDrive = Some m ->
       snd (json_Marshal m) = None) ->
    (forall m, configdrive.NetworkData configDrive = Some m ->
       snd (json_Marshal m) = None) ->
    snd (fst (configdrive.ToConfigDrive json_MarshalIndent json_Marshal
                mkisofs gzip configDrive os)) = None.
Proof.
  intros GoMap json_MarshalIndent json_Marshal mkisofs gzip configDrive os
    Hos Huser Hmeta Hnet.
  assert (Hbuild : configdrive.succeeds
                     (configdrive.buildConfigDrive json_MarshalIndent
                        json_Marshal mkisofs gzip configDrive)).
  { unfold configdrive.buildConfigDrive.
    apply succeeds_bind; [apply succeeds_TempDir|]. intros directory.
    apply succeeds_bind; [apply succeeds_MkdirAll|]. intros _.
    apply succeeds_bind; [apply succeeds_write_optional; exact Huser|]. intros _.
    apply succeeds_bind; [apply succeeds_write_optional; exact Hmeta|]. intros _.
    apply succeeds_bind; [apply succeeds_write_optional; exact Hnet|]. intros _.
    apply succeeds_bind; [|intros result; apply succeeds_ret].
    apply succeeds_syscall. reflexivity. }
  destruct (Hbuild os Hos) as (s & os' & Hrun & _).
  unfold configdrive.ToConfigDrive. rewrite Hrun. reflexivity.
Qed.

Lemma ToConfigDrive_succeeds_without_faults_witness :
  configdrive.faults Sample.emptyDisk = []
  /\ snd (fst Sample.built) = None.
Proof.
  split; [reflexivity|].
  apply (ToConfigDrive_succeeds_without_faults unit Sample.marshalIndent
           Sample.marshal Sample.listing Sample.stored Sample.cloudInit
           Sample.emptyDisk eq_refl).
  - intros userData [= <-]. reflexivity.
  - intros m _. reflexivity.
  - intros m _. reflexivity.
Defined.

(** ** The order of the commands *)

Lemma mutations_app {M : Type} (tr1 tr2 : list (Event M)) :
  mutations (tr1 ++ tr2) = mutations tr1 ++ mutations tr2.
Proof.
  induction tr1 as [|e tr1 IH]; [reflexivity|].
  destruct e; simpl; congruence.
Qed.

(** Case analysis on the tests of the dispatcher's switch. *)
Ltac split_state_tests :=
  repeat match goal with
         | |- context [if String.eqb ?a ?b then _ else _] =>
             destruct (String.eqb a b) eqn:?
         | |- context [if StructVariant.state_eqb ?a ?b then _ else _] =>
             destruct (StructVariant.state_eqb a b) eqn:?
         end.

(** The dispatcher after a loop: the induction hypothesis, read at the
    state the loop has kept. *)
Ltac after_loop IH Hstate :=
  match goal with
  | |- on_plan _ (_ _ _ ?d' ?w') =>
      let H := fresh "H" in
      pose proof (IH d' w') as H; rewrite Hstate in H; exact H
  end.

Section IntCommands.
Import IntVariant.
Context {W : Type} (client : nodes.ServiceClient W).

(** The polling loops send no command and keep the state and the patch
    operations. *)
Lemma int_waitManageLoop_quiet fuel : forall (d : Deployment W) w,
  let r := waitManageLoop client fuel d w in
  mutations (trace r) = []
  /\ currentState (dep r) = currentState d
  /\ UpdateOpts (dep r) = UpdateOpts d
  /\ forall e, exit r <> Stop (Returned e).
Proof.
  induction fuel as [|fuel IH]; intros d w; [repeat split; discriminate|].
  cbv zeta. cbn [waitManageLoop].
  destruct (nodes.Get client (NodeUUID d) w) as [[node err] w1].
  split_ifs; cbn [emit trace dep exit mutations];
    try (repeat split; discriminate); use_loop_IH IH.
Qed.

Lemma int_waitProvideLoop_quiet fuel : forall (d : Deployment W) w,
  let r := waitProvideLoop client fuel d w in
  mutations (trace r) = []
  /\ currentState (dep r) = currentState d
  /\ UpdateOpts (dep r) = UpdateOpts d
  /\ exit r <> Stop (Returned None).
Proof.
  induction fuel as [|fuel IH]; intros d w; [repeat split; discriminate|].
  cbv zeta. cbn [waitProvideLoop].
  destruct (nodes.Get client (NodeUUID d) w) as [[node err] w1].
  split_ifs; cbn [emit trace dep exit mutations];
    try (repeat split; discriminate); use_loop_IH IH.
Qed.

Lemma int_waitDeployLoop_quiet fuel : forall (d : Deployment W) w,
  let r := waitDeployLoop client fuel d w in
  mutations (trace r) = []
  /\ currentState (dep r) = currentState d
  /\ UpdateOpts (dep r) = UpdateOpts d
  /\ forall e, exit r <> Stop (Returned e).
Proof.
  induction fuel as [|fuel IH]; intros d w; [repeat split; discriminate|].
  cbv zeta. cbn [waitDeployLoop].
  destruct (nodes.Get client (NodeUUID d) w) as [[node err] w1].
  unfold send.
  split_ifs; cbn [emit trace dep exit mutations];
    try (repeat split; discriminate); use_loop_IH IH.
Qed.

Lemma int_on_plan_send c v (d : Deployment W) w
    (k : Run Outcome (Deployment W) W Z) plan :
  on_plan plan k -> on_plan plan (send Blocked c v d w k).
Proof.
  unfold on_plan, send. intros [Hpre Hall].
  destruct (delivered c); cbn [emit trace exit mutations].
  - split; assumption.
  - split; [apply prefix_nil|discriminate].
Qed.

Lemma int_on_plan_command ev step (k : Run Outcome (Deployment W) W Z) plan :
  mutations [ev] = [step] ->
  on_plan plan k -> on_plan (step :: plan) (emit ev k).
Proof.
  unfold on_plan. intros Hev [Hpre Hall].
  change (trace (emit ev k)) with ([ev] ++ trace k).
  rewrite mutations_app, Hev. cbn [app exit emit].
  split; [apply prefix_cons, Hpre|].
  intros He. f_equal. apply Hall, He.
Qed.

Lemma int_on_plan_failed fuel (d : Deployment W) w plan :
  isNil (Error d) = false -> on_plan plan (nextState client fuel d w).
Proof.
  intros Hd. unfold on_plan.
  destruct fuel as [|fuel]; [split; [apply prefix_nil|discriminate]|].
  rewrite nextState_S, Hd. cbn [negb]. unfold done, send.
  destruct (delivered (status d)); cbn [emit trace exit mutations];
    (split; [apply prefix_nil|]); [|discriminate].
  intros [= He]. rewrite He in Hd. discriminate.
Qed.

Lemma int_on_plan_andThen (r : Run Exit (Deployment W) W Z) k plan :
  mutations (trace r) = [] ->
  exit r <> Stop (Returned None) ->
  (exit r = Break -> on_plan plan (k (dep r) (world r))) ->
  on_plan plan (andThen r k).
Proof.
  unfold on_plan. intros Hquiet Hnoret Hk.
  rewrite trace_andThen, exit_andThen, mutations_app, Hquiet.
  destruct (exit r) as [|o]; [exact (Hk eq_refl)|].
  split; [apply prefix_nil|]. intros ->. destruct (Hnoret eq_refl).
Qed.

Lemma int_nextState_on_plan fuel : forall (d : Deployment W) w,
  on_plan (int_plan (currentState d) (UpdateOpts d))
    (nextState client fuel d w).
Proof.
  induction fuel as [|fuel IH]; intros d w.
  { split; [apply prefix_nil|discriminate]. }
  destruct (isNil (Error d)) eqn:Herr;
    [|apply int_on_plan_failed; exact Herr].
  rewrite nextState_S, Herr. cbn [negb]. cbv zeta.
  unfold int_plan.
  split_state_tests; try apply int_on_plan_send.
  - (* configure *)
    unfold configure. cbn [UpdateOpts NodeUUID set_currentState].
    destruct (negb (Nat.eqb (length (UpdateOpts d)) 0)).
    + destruct (nodes.Update _ _ _ _) as [err w1].
      apply (int_on_plan_command _ "patch"); [reflexivity|].
      destruct (isNil err); exact (IH _ w1).
    + exact (IH (set_currentState StateConfigure d) w).
  - (* manage *)
    unfold manage. cbn [NodeUUID set_currentState].
    destruct (nodes.ChangeProvisionState _ _ _ _) as [err w1].
    apply (int_on_plan_command _ "manage"); [reflexivity|].
    destruct (isNil err); exact (IH _ w1).
  - (* waitManage *)
    unfold waitManage.
    match goal with
    | |- on_plan _ (andThen (waitManageLoop client fuel ?d' w) _) =>
        destruct (int_waitManageLoop_quiet fuel d' w)
          as (Hq & Hstate & Hopts & Hnoret)
    end.
    apply int_on_plan_andThen; [exact Hq|apply Hnoret|].
    intros _. after_loop IH Hstate.
  - (* provide *)
    unfold provide. cbn [NodeUUID set_currentState set_currentPercent].
    destruct (nodes.ChangeProvisionState _ _ _ _) as [err w1].
    apply (int_on_plan_command _ "provide"); [reflexivity|].
    exact (IH _ w1).
  - (* waitProvide *)
    unfold waitProvide.
    match goal with
    | |- on_plan _ (andThen (waitProvideLoop client fuel ?d' w) _) =>
        destruct (int_waitProvideLoop_quiet fuel d' w)
          as (Hq & Hstate & Hopts & Hnoret)
    end.
    apply int_on_plan_andThen; [exact Hq|exact Hnoret|].
    intros _. after_loop IH Hstate.
  - (* deploy *)
    unfold deploy. cbn [ConfigDrive NodeUUID set_currentState set_currentPercent].
    destruct (ConfigDrive d w) as [[configDrive err] w1].
    destruct (isNil err) eqn:Hcd; cbn [negb].
    + destruct (nodes.ChangeProvisionState _ _ _ _) as [err2 w2].
      apply (int_on_plan_command _ "active"); [reflexivity|].
      exact (IH _ w2).
    + apply int_on_plan_failed. exact Hcd.
  - (* waitDeploy *)
    unfold waitDeploy.
    match goal with
    | |- on_plan _ (andThen (waitDeployLoop client fuel ?d' w) _) =>
        destruct (int_waitDeployLoop_quiet fuel d' w)
          as (Hq & Hstate & Hopts & Hnoret)
    end.
    apply int_on_plan_andThen; [exact Hq|apply Hnoret|].
    intros _. after_loop IH Hstate.
  - (* done *)
    unfold done, on_plan, send.
    destruct (delivered _); cbn [emit trace exit mutations];
      (split; [apply prefix_nil|]); [reflexivity|discriminate].
  - (* no case of the switch *)
    split; [apply prefix_nil|discriminate].
Qed.

End IntCommands.

Lemma on_plan_deferClose {D W M : Type} c (r : Run Outcome D W M) plan :
  on_plan plan r -> on_plan plan (deferClose c r).
Proof.
  unfold on_plan. intros [Hpre Hall].
  rewrite trace_deferClose, exit_deferClose, mutations_app.
  assert (Hnone : mutations (match exit r with
                             | Returned _ => [EvClose c]
                             | _ => []
                             end : list (Event M)) = [])
    by (destruct (exit r); reflexivity).
  rewrite Hnone, app_nil_r. split; assumption.
Qed.

Lemma plan_from_begin (opts : nodes.UpdateOpts) :
  (if negb (Nat.eqb (length opts) 0) then ["patch"] else [])
    ++ ["manage"; "provide"; "active"]
  = match opts with
    | [] => ["manage"; "provide"; "active"]
    | _ :: _ => ["patch"; "manage"; "provide"; "active"]
    end.
Proof. destruct opts; reflexivity. Qed.

Section StructCommands.
Import StructVariant.
Context {W : Type} (client : nodes.ServiceClient W).

Lemma struct_waitManageLoop_quiet fuel : forall (d : Deployment W) w,
  let r := waitManageLoop client fuel d w in
  mutations (trace r) = []
  /\ currentState (dep r) = currentState d
  /\ UpdateOpts (dep r) = UpdateOpts d
  /\ forall e, exit r <> Stop (Returned e).
Proof.
  induction fuel as [|fuel IH]; intros d w; [repeat split; discriminate|].
  cbv zeta. cbn [waitManageLoop].
  destruct (nodes.Get client (NodeUUID d) w) as [[node err] w1].
  split_ifs; cbn [emit trace dep exit mutations];
    try (repeat split; discriminate); use_loop_IH IH.
Qed.

Lemma struct_waitProvideLoop_quiet fuel node : forall (d : Deployment W) w,
  let r := waitProvideLoop fuel node d w in
  mutations (trace r) = []
  /\ currentState (dep r) = currentState d
  /\ UpdateOpts (dep r) = UpdateOpts d
  /\ exit r <> Stop (Returned None).
Proof.
  induction fuel as [|fuel IH]; intros d w; [repeat split; discriminate|].
  cbv zeta. cbn [waitProvideLoop].
  split_ifs; cbn [emit trace dep exit mutations];
    try (repeat split; discriminate); apply IH.
Qed.

Lemma struct_waitDeployLoop_quiet fuel : forall pct (d : Deployment W) w,
  let r := waitDeployLoop client fuel pct d w in
  mutations (trace r) = []
  /\ currentState (dep r) = currentState d
  /\ UpdateOpts (dep r) = UpdateOpts d
  /\ forall e, exit r <> Stop (Returned e).
Proof.
  induction fuel as [|fuel IH]; intros pct d w; [repeat split; discriminate|].
  cbv zeta. cbn [waitDeployLoop].
  destruct (nodes.Get client (NodeUUID d) w) as [[node err] w1].
  unfold send.
  split_ifs; cbn [emit trace dep exit mutations];
    try (repeat split; discriminate);
    match goal with
    | |- context [waitDeployLoop client fuel ?p ?d' ?w'] => exact (IH p d' w')
    end.
Qed.

Lemma struct_on_plan_sendIfSet v (d : Deployment W) w
    (k : Run Outcome (Deployment W) W DeploymentState) plan :
  on_plan plan k -> on_plan plan (sendIfSet v d w k).
Proof.
  unfold on_plan, sendIfSet, send. intros [Hpre Hall].
  destruct (status d) as [c|]; [|split; assumption].
  destruct (delivered (Some c)); cbn [emit trace exit mutations].
  - split; assumption.
  - split; [apply prefix_nil|discriminate].
Qed.

Lemma struct_on_plan_command ev step
    (k : Run Outcome (Deployment W) W DeploymentState) plan :
  mutations [ev] = [step] ->
  on_plan plan k -> on_plan (step :: plan) (emit ev k).
Proof.
  unfold on_plan. intros Hev [Hpre Hall].
  change (trace (emit ev k)) with ([ev] ++ trace k).
  rewrite mutations_app, Hev. cbn [app exit emit].
  split; [apply prefix_cons, Hpre|].
  intros He. f_equal. apply Hall, He.
Qed.

Lemma struct_on_plan_failed fuel (d : Deployment W) w plan :
  isNil (Error d) = false -> on_plan plan (nextState client fuel d w).
Proof.
  intros Hd.
  destruct fuel as [|fuel]; [split; [apply prefix_nil|discriminate]|].
  rewrite struct_nextState_S, Hd. cbn [negb].
  apply struct_on_plan_sendIfSet. unfold done, on_plan.
  cbn [trace exit mutations]. split; [apply prefix_nil|].
  intros [= He]. rewrite He in Hd. discriminate.
Qed.

Lemma struct_on_plan_andThen
    (r : Run Exit (Deployment W) W DeploymentState) k plan :
  mutations (trace r) = [] ->
  exit r <> Stop (Returned None) ->
  (exit r = Break -> on_plan plan (k (dep r) (world r))) ->
  on_plan plan (andThen r k).
Proof.
  unfold on_plan. intros Hquiet Hnoret Hk.
  rewrite trace_andThen, exit_andThen, mutations_app, Hquiet.
  destruct (exit r) as [|o]; [exact (Hk eq_refl)|].
  split; [apply prefix_nil|]. intros ->. destruct (Hnoret eq_refl).
Qed.

Lemma struct_nextState_on_plan fuel : forall (d : Deployment W) w,
  on_plan (struct_plan (currentState d) (UpdateOpts d))
    (nextState client fuel d w).
Proof.
  induction fuel as [|fuel IH]; intros d w.
  { split; [apply prefix_nil|discriminate]. }
  destruct (isNil (Error d)) eqn:Herr;
    [|apply struct_on_plan_failed; exact Herr].
  rewrite struct_nextState_S, Herr. cbn [negb]. cbv zeta.
  unfold struct_plan.
  split_state_tests; try apply struct_on_plan_sendIfSet.
  - (* configure *)
    unfold configure. cbn [UpdateOpts NodeUUID set_currentState].
    destruct (negb (Nat.eqb (length (UpdateOpts d)) 0)).
    + destruct (nodes.Update _ _ _ _) as [err w1].
      apply (struct_on_plan_command _ "patch"); [reflexivity|].
      destruct (isNil err); exact (IH _ w1).
    + exact (IH (set_currentState StateConfigure d) w).
  - (* manage *)
    unfold manage. cbn [NodeUUID set_currentState].
    destruct (nodes.ChangeProvisionState _ _ _ _) as [err w1].
    apply (struct_on_plan_command _ "manage"); [reflexivity|].
    destruct (isNil err); exact (IH _ w1).
  - (* waitManage *)
    unfold waitManage.
    match goal with
    | |- on_plan _ (andThen (waitManageLoop client fuel ?d' w) _) =>
        destruct (struct_waitManageLoop_quiet fuel d' w)
          as (Hq & Hstate & Hopts & Hnoret)
    end.
    apply struct_on_plan_andThen; [exact Hq|apply Hnoret|].
    intros _. after_loop IH Hstate.
  - (* provide *)
    unfold provide. cbn [NodeUUID set_currentState].
    destruct (nodes.ChangeProvisionState _ _ _ _) as [err w1].
    apply (struct_on_plan_command _ "provide"); [reflexivity|].
    exact (IH _ w1).
  - (* waitProvide *)
    unfold waitProvide. cbv zeta. cbn [NodeUUID set_currentState].
    destruct (nodes.Get client (NodeUUID d) w) as [[node err] w1].
    set (d' := set_currentState StateWaitProvide d).
    match goal with
    | |- on_plan ?plan (emit ?ev ?r) => change (on_plan plan r)
    end.
    assert (Hloop : let r := if isNil err then waitProvideLoop fuel node d' w1
                             else mkRun Break d' w1 [] in
                    mutations (trace r) = []
                    /\ currentState (dep r) = StateWaitProvide
                    /\ exit r <> Stop (Returned None)).
    { cbv zeta. destruct (isNil err).
      - destruct (struct_waitProvideLoop_quiet fuel node d' w1)
          as (Hq & Hstate & _ & Hnoret).
        split; [exact Hq|]. split; [exact Hstate|exact Hnoret].
      - repeat split. discriminate. }
    cbv zeta in Hloop. destruct Hloop as (Hq & Hstate & Hnoret).
    apply struct_on_plan_andThen; [exact Hq|exact Hnoret|].
    intros _. cbv beta.
    match goal with
    | |- on_plan _ (nextState client fuel ?d'' ?w') =>
        pose proof (IH d'' w') as H;
        assert (Hs : currentState d'' = StateWaitProvide) by exact Hstate;
        rewrite Hs in H; exact H
    end.
  - (* deploy *)
    unfold deploy. cbn [ConfigDrive NodeUUID set_currentState].
    destruct (ConfigDrive d w) as [[configDrive err] w1].
    destruct (isNil err) eqn:Hcd; cbn [negb].
    + destruct (nodes.ChangeProvisionState _ _ _ _) as [err2 w2].
      apply (struct_on_plan_command _ "active"); [reflexivity|].
      exact (IH _ w2).
    + apply struct_on_plan_failed. exact Hcd.
  - (* waitDeploy *)
    unfold waitDeploy.
    match goal with
    | |- on_plan _ (andThen (waitDeployLoop client fuel ?p ?d' w) _) =>
        destruct (struct_waitDeployLoop_quiet fuel p d' w)
          as (Hq & Hstate & Hopts & Hnoret)
    end.
    apply struct_on_plan_andThen; [exact Hq|apply Hnoret|].
    intros _. after_loop IH Hstate.
  - (* done *)
    unfold done, on_plan. cbn [trace exit mutations].
    split; [apply prefix_nil|reflexivity].
  - (* no case of the switch *)
    split; [apply prefix_nil|discriminate].
Qed.

End StructCommands.

Section DeployCommands.
Context {W : Type} (client : nodes.ServiceClient W).

Lemma int_Deploy_on_plan fuel (d : IntVariant.Deployment W) percent w :
  on_plan (int_plan IntVariant.StateBegin (IntVariant.UpdateOpts d))
    (IntVariant.Deploy client fuel d percent w).
Proof.
  unfold IntVariant.Deploy. cbv zeta.
  destruct percent as [c|].
  - apply int_on_plan_send, on_plan_deferClose.
    exact (int_nextState_on_plan client fuel _ w).
  - apply on_plan_deferClose.
    exact (int_nextState_on_plan client fuel _ w).
Qed.

Lemma struct_Deploy_on_plan fuel (d : StructVariant.Deployment W) status' w :
  on_plan (struct_plan StructVariant.StateBegin (StructVariant.UpdateOpts d))
    (StructVariant.Deploy client fuel d status' w).
Proof.
  unfold StructVariant.Deploy. cbv zeta.
  destruct status' as [c|].
  - unfold send. destruct (delivered _);
      [|split; [apply prefix_nil|discriminate]].
    match goal with
    | |- on_plan ?plan (emit ?ev ?r) => change (on_plan plan r)
    end.
    apply on_plan_deferClose.
    exact (struct_nextState_on_plan client fuel _ w).
  - exact (struct_nextState_on_plan client fuel _ w).
Qed.

End DeployCommands.

(** X6: whatever the remote answers and whatever channel is passed, the
    commands a run of [Deploy] sends are, in this order, a beginning of:
    the patch (only with patch operations), "manage", "provide",
    "active".  Nothing is sent twice, out of order, or beyond. *)
Theorem commands_follow_the_happy_path :
  forall (W : Type) (client : nodes.ServiceClient W) (fuel : nat)
    (dI : IntVariant.Deployment W) (dS : StructVariant.Deployment W)
    (channel : option Chan) (w : W),
    mutations (trace (IntVariant.Deploy client fuel dI channel w))
      `prefix_of` match IntVariant.UpdateOpts dI with
                  | [] => ["manage"; "provide"; "active"]
                  | _ :: _ => ["patch"; "manage"; "provide"; "active"]
                  end
    /\ mutations (trace (StructVariant.Deploy client fuel dS channel w))
         `prefix_of` match StructVariant.UpdateOpts dS with
                     | [] => ["manage"; "provide"; "active"]
                     | _ :: _ => ["patch"; "manage"; "provide"; "active"]
                     end.
Proof.
  intros W client fuel dI dS channel w. split.
  - rewrite <- plan_from_begin.
    exact (proj1 (int_Deploy_on_plan client fuel dI channel w)).
  - rewrite <- plan_from_begin.
    exact (proj1 (struct_Deploy_on_plan client fuel dS channel w)).
Qed.

(** X7: a run of the integer-channel [Deploy] that returns no error has
    sent every command of the happy path, each once and in order. *)
Theorem int_successful_run_sends_every_command :
  forall (W : Type) (client : nodes.ServiceClient W) (fuel : nat)
    (d : IntVariant.Deployment W) (channel : option Chan) (w : W),
    exit (IntVariant.Deploy client fuel d channel w) = Returned None ->
    mutations (trace (IntVariant.Deploy client fuel d channel w))
    = match IntVariant.UpdateOpts d with
      | [] => ["manage"; "provide"; "active"]
      | _ :: _ => ["patch"; "manage"; "provide"; "active"]
      end.
Proof.
  intros W client fuel d channel w Hexit. rewrite <- plan_from_begin.
  exact (proj2 (int_Deploy_on_plan client fuel d channel w) Hexit).
Qed.

Lemma int_successful_run_sends_every_command_witness :
  mutations
    (trace (IntVariant.Deploy (Scripted.client (Scripted.reports "active")) 12
              (Scripted.newInt Scripted.instanceInfo) (Some caller_chan)
              [Scripted.reports "manageable"; Scripted.reports "available"]))
  = ["patch"; "manage"; "provide"; "active"].
Proof.
  exact (int_successful_run_sends_every_command Scripted.World
           (Scripted.client (Scripted.reports "active")) 12
           (Scripted.newInt Scripted.instanceInfo) (Some caller_chan)
           [Scripted.reports "manageable"; Scripted.reports "available"]
           eq_refl).
Defined.

(** X8: the same for the state-struct revision. *)
Theorem struct_successful_run_sends_every_command :
  forall (W : Type) (client : nodes.ServiceClient W) (fuel : nat)
    (d : StructVariant.Deployment W) (channel : option Chan) (w : W),
    exit (StructVariant.Deploy client fuel d channel w) = Returned None ->
    mutations (trace (StructVariant.Deploy client fuel d channel w))
    = match StructVariant.UpdateOpts d with
      | [] => ["manage"; "provide"; "active"]
      | _ :: _ => ["patch"; "manage"; "provide"; "active"]
      end.
Proof.
  intros W client fuel d channel w Hexit. rewrite <- plan_from_begin.
  exact (proj2 (struct_Deploy_on_plan client fuel d channel w) Hexit).
Qed.

Lemma struct_successful_run_sends_every_command_witness :
  mutations
    (trace (StructVariant.Deploy (Scripted.client (Scripted.reports "active")) 12
              (Scripted.newStruct []) (Some caller_chan)
              [Scripted.reports "manageable"; Scripted.reports "available"]))
  = ["manage"; "provide"; "active"].
Proof.
  exact (struct_successful_run_sends_every_command Scripted.World
           (Scripted.client (Scripted.reports "active")) 12
           (Scripted.newStruct []) (Some caller_chan)
           [Scripted.reports "manageable"; Scripted.reports "available"]
           eq_refl).
Defined.

(** ** Failures of the remote calls *)

(** X9: when the patch call fails, a run on the caller's channel ends
    there, in both revisions: the error is recorded and returned, the
    final value is sent and the channel closed, and no provision-state
    change and no poll was made. *)
Theorem failed_patch_ends_the_run :
  forall (W : Type) (client : nodes.ServiceClient W) (fuel : nat)
    (dI : IntVariant.Deployment W) (dS : StructVariant.Deployment W)
    (w w1 : W) (e : string),
    IntVariant.UpdateOpts dI <> [] ->
    IntVariant.Error dI = None ->
    nodes.Update client (IntVariant.NodeUUID dI) (IntVariant.UpdateOpts dI) w
      = (Some e, w1) ->
    StructVariant.UpdateOpts dS <> [] ->
    StructVariant.Error dS = None ->
    nodes.Update client (StructVariant.NodeUUID dS) (StructVariant.UpdateOpts dS) w
      = (Some e, w1) ->
    let rI := IntVariant.Deploy client (S (S fuel)) dI (Some caller_chan) w in
    let rS := StructVariant.Deploy client (S (S fuel)) dS (Some caller_chan) w in
    (exit rI = Returned (Some e)
     /\ IntVariant.Error (dep rI) = Some e
     /\ trace rI
        = [EvSend (Some caller_chan) 0;
           EvSend (Some caller_chan) (IntVariant.currentPercent dI);
           EvUpdate (IntVariant.NodeUUID dI) (IntVariant.UpdateOpts dI);
           EvSend (Some caller_chan) 100;
           EvClose caller_chan])
    /\ (exit rS = Returned (Some e)
        /\ StructVariant.Error (dep rS) = Some e
        /\ trace rS
           = [EvSend (Some caller_chan) StructVariant.StateBegin;
              EvSend (Some caller_chan) StructVariant.StateConfigure;
              EvUpdate (StructVariant.NodeUUID dS) (StructVariant.UpdateOpts dS);
              EvSend (Some caller_chan) StructVariant.StateError;
              EvClose caller_chan]).
Proof.
  intros W client fuel dI dS w w1 e HoI HeI HuI HoS HeS HuS. cbv zeta. split.
  - destruct dI as [uuid opts cd err t dl st cp s].
    cbn in HoI, HeI, HuI. subst err.
    destruct opts as [|op ops]; [contradiction|].
    cbn. rewrite HuI. cbn. repeat split; reflexivity.
  - destruct dS as [uuid opts cd err t dl st s].
    cbn in HoS, HeS, HuS. subst err.
    destruct opts as [|op ops]; [contradiction|].
    cbn. rewrite HuS. cbn. repeat split; reflexivity.
Qed.

Lemma failed_patch_ends_the_run_witness :
  let client := Faulty.client (Some "409 Conflict") None (Scripted.reports "active") in
  mutations (trace (IntVariant.Deploy client 12
                      (Scripted.newInt Scripted.instanceInfo)
                      (Some caller_chan) [])) = ["patch"]
  /\ exit (StructVariant.Deploy client 12
             (Scripted.newStruct Scripted.instanceInfo)
             (Some caller_chan) []) = Returned (Some "409 Conflict").
Proof.
  cbv zeta.
  pose proof (failed_patch_ends_the_run Scripted.World
                (Faulty.client (Some "409 Conflict") None (Scripted.reports "active"))
                10 (Scripted.newInt Scripted.instanceInfo)
                (Scripted.newStruct Scripted.instanceInfo) [] [] "409 Conflict"
                ltac:(discriminate) eq_refl eq_refl
                ltac:(discriminate) eq_refl eq_refl)
    as [(_ & _ & HtI) [HxS _]].
  split; [rewrite HtI; reflexivity|exact HxS].
Defined.

(** X10: when the remote refuses provision-state changes, the method that
    asks for one ends the run, in both revisions: the refusal is recorded
    and returned, the final value is the only one sent after it, and no
    further change and no poll is made.  For [deploy] this is the case in
    which the config drive was built. *)
Theorem refused_change_ends_the_run :
  forall (W : Type) (client : nodes.ServiceClient W) (fuel : nat)
    (dI : IntVariant.Deployment W) (dS : StructVariant.Deployment W)
    (w : W) (e : string),
    IntVariant.status dI = Some caller_chan ->
    StructVariant.status dS = Some caller_chan ->
    (forall uuid opts w',
       fst (nodes.ChangeProvisionState client uuid opts w') = Some e) ->
    snd (fst (IntVariant.ConfigDrive dI w)) = None ->
    snd (fst (StructVariant.ConfigDrive dS w)) = None ->
    let endedI target (r : Run Outcome (IntVariant.Deployment W) W Z) :=
      exit r = Returned (Some e)
      /\ IntVariant.Error (dep r) = Some e
      /\ mutations (trace r) = [target]
      /\ polls (trace r) = O
      /\ sent (trace r) = [100] in
    let endedS target
        (r : Run Outcome (StructVariant.Deployment W) W
               StructVariant.DeploymentState) :=
      exit r = Returned (Some e)
      /\ StructVariant.Error (dep r) = Some e
      /\ mutations (trace r) = [target]
      /\ polls (trace r) = O
      /\ sent (trace r) = [StructVariant.StateError] in
    let kI := IntVariant.nextState client (S fuel) in
    let kS := StructVariant.nextState client (S fuel) in
    (endedI "manage" (IntVariant.manage client kI dI w)
     /\ endedI "provide" (IntVariant.provide client kI dI w)
     /\ endedI "active" (IntVariant.deploy client kI dI w))
    /\ (endedS "manage" (StructVariant.manage client kS dS w)
        /\ endedS "provide" (StructVariant.provide client kS dS w)
        /\ endedS "active" (StructVariant.deploy client kS dS w)).
Proof.
  intros W client fuel dI dS w e HsI HsS Hrefuse HcI HcS. cbv zeta.
  assert (Hcall : forall uuid opts w',
            exists w1, nodes.ChangeProvisionState client uuid opts w'
                       = (Some e, w1)).
  { intros uuid opts w'. specialize (Hrefuse uuid opts w').
    destruct (nodes.ChangeProvisionState client uuid opts w') as [err' w1].
    cbn in Hrefuse. subst err'. exists w1. reflexivity. }
  split.
  - destruct dI as [uuid opts cd err t dl st cp s].
    cbn in HsI, HcI. subst s.
    split; [|split].
    + unfold IntVariant.manage. cbn [IntVariant.NodeUUID].
      destruct (Hcall uuid (nodes.mkProvisionStateOpts "manage" "") w) as [w1 ->].
      cbn. repeat split; reflexivity.
    + unfold IntVariant.provide. cbn [IntVariant.NodeUUID].
      destruct (Hcall uuid (nodes.mkProvisionStateOpts "provide" "") w) as [w1 ->].
      cbn. repeat split; reflexivity.
    + unfold IntVariant.deploy. cbn [IntVariant.NodeUUID IntVariant.ConfigDrive].
      destruct (cd w) as [[drive err'] w1]. cbn in HcI. subst err'.
      cbn [isNil negb].
      destruct (Hcall uuid (nodes.mkProvisionStateOpts "active" drive) w1) as [w2 ->].
      cbn. repeat split; reflexivity.
  - destruct dS as [uuid opts cd err t dl st s].
    cbn in HsS, HcS. subst s.
    split; [|split].
    + unfold StructVariant.manage. cbn [StructVariant.NodeUUID].
      destruct (Hcall uuid (nodes.mkProvisionStateOpts "manage" "") w) as [w1 ->].
      cbn. repeat split; reflexivity.
    + unfold StructVariant.provide. cbn [StructVariant.NodeUUID].
      destruct (Hcall uuid (nodes.mkProvisionStateOpts "provide" "") w) as [w1 ->].
      cbn. repeat split; reflexivity.
    + unfold StructVariant.deploy.
      cbn [StructVariant.NodeUUID StructVariant.ConfigDrive].
      destruct (cd w) as [[drive err'] w1]. cbn in HcS. subst err'.
      cbn [isNil negb].
      destruct (Hcall uuid (nodes.mkProvisionStateOpts "active" drive) w1) as [w2 ->].
      cbn. repeat split; reflexivity.
Qed.

Lemma refused_change_ends_the_run_witness :
  let client := Faulty.client None (Some "409 Conflict") (Scripted.reports "active") in
  mutations (trace (IntVariant.deploy client (IntVariant.nextState client 5)
                      (Faulty.newInt Scripted.builtDrive) [])) = ["active"]
  /\ sent (trace (StructVariant.manage client (StructVariant.nextState client 5)
                    (Faulty.newStruct Scripted.builtDrive) []))
     = [StructVariant.StateError].
Proof.
  cbv zeta.
  pose proof (refused_change_ends_the_run Scripted.World
                (Faulty.client None (Some "409 Conflict") (Scripted.reports "active"))
                4 (Faulty.newInt Scripted.builtDrive)
                (Faulty.newStruct Scripted.builtDrive) [] "409 Conflict"
                eq_refl eq_refl (fun _ _ _ => eq_refl) eq_refl eq_refl)
    as [(_ & _ & (_ & _ & HI & _)) ((_ & _ & _ & _ & HS) & _)].
  exact (conj HI HS).
Defined.

(** X11: when building the config drive fails, [deploy] never asks for
    "active", in both revisions: the build error is recorded and
    returned, and the final value is all that is sent. *)
Theorem failed_build_never_requests_active :
  forall (W : Type) (client : nodes.ServiceClient W) (fuel : nat)
    (dI : IntVariant.Deployment W) (dS : StructVariant.Deployment W)
    (w : W) (e : string),
    IntVariant.status dI = Some caller_chan ->
    StructVariant.status dS = Some caller_chan ->
    snd (fst (IntVariant.ConfigDrive dI w)) = Some e ->
    snd (fst (StructVariant.ConfigDrive dS w)) = Some e ->
    let rI := IntVariant.deploy client (IntVariant.nextState client (S fuel)) dI w in
    let rS := StructVariant.deploy client (StructVariant.nextState client (S fuel))
                dS w in
    (exit rI = Returned (Some e)
     /\ IntVariant.Error (dep rI) = Some e
     /\ trace rI = [EvSend (Some caller_chan) 100])
    /\ (exit rS = Returned (Some e)
        /\ StructVariant.Error (dep rS) = Some e
        /\ trace rS = [EvSend (Some caller_chan) StructVariant.StateError]).
Proof.
  intros W client fuel dI dS w e HsI HsS HcI HcS. cbv zeta. split.
  - destruct dI as [uuid opts cd err t dl st cp s].
    cbn in HsI, HcI. subst s.
    unfold IntVariant.deploy. cbn [IntVariant.ConfigDrive].
    destruct (cd w) as [[drive err'] w1]. cbn in HcI. subst err'.
    cbn. repeat split; reflexivity.
  - destruct dS as [uuid opts cd err t dl st s].
    cbn in HsS, HcS. subst s.
    unfold StructVariant.deploy. cbn [StructVariant.ConfigDrive].
    destruct (cd w) as [[drive err'] w1]. cbn in HcS. subst err'.
    cbn. repeat split; reflexivity.
Qed.

Lemma failed_build_never_requests_active_witness :
  let client := Scripted.client (Scripted.reports "active") in
  trace (IntVariant.deploy client (IntVariant.nextState client 5)
           (Faulty.newInt Faulty.brokenDrive) [])
  = [EvSend (Some caller_chan) 100].
Proof.
  cbv zeta.
  exact (proj2 (proj2 (proj1
    (failed_build_never_requests_active Scripted.World
       (Scripted.client (Scripted.reports "active")) 4
       (Faulty.newInt Faulty.brokenDrive) (Faulty.newStruct Faulty.brokenDrive)
       [] "genisoimage: not found" eq_refl eq_refl eq_refl eq_refl)))).
Defined.

(** ** The progress reported by the state-struct revision *)

Lemma climbs_le lo hi l : climbs lo hi l -> lo <= hi.
Proof.
  revert lo. induction l as [|x l IH]; intros lo H; [exact H|].
  destruct H as [Hx Hl]. specialize (IH x Hl). lia.
Qed.

Lemma climbs_weaken lo lo' hi l : lo' <= lo -> climbs lo hi l -> climbs lo' hi l.
Proof.
  intros Hlo. destruct l as [|x l]; cbn [climbs]; [lia|].
  intros [Hx Hl]. split; [lia|exact Hl].
Qed.

Lemma climbs_app lo mid hi l1 l2 :
  climbs lo mid l1 -> climbs mid hi l2 -> climbs lo hi (l1 ++ l2).
Proof.
  revert lo. induction l1 as [|x l1 IH]; intros lo H1 H2.
  - cbn [app]. eapply climbs_weaken; [exact H1|exact H2].
  - destruct H1 as [Hx Hl]. cbn [app climbs]. split; [exact Hx|].
    apply IH; assumption.
Qed.

Lemma climbs_nondecreasing lo hi l :
  climbs lo hi l ->
  nondecreasing l = true /\ Forall (fun v => lo <= v <= hi) l.
Proof.
  revert lo. induction l as [|x l IH]; intros lo H; [split; [reflexivity|constructor]|].
  destruct H as [Hx Hl]. destruct (IH x Hl) as [Hsorted Hall].
  pose proof (climbs_le _ _ _ Hl) as Hxhi. split.
  - destruct l as [|y l]; [reflexivity|].
    change ((x <=? y) && nondecreasing (y :: l) = true).
    rewrite Hsorted, andb_true_r. apply Z.leb_le. exact (proj1 Hl).
  - constructor; [lia|].
    eapply Forall_impl; [exact Hall|]. cbv beta. intros v Hv. lia.
Qed.

Lemma sent_nil_of_attempts {M : Type} (tr : list (Event M)) :
  sendAttempts tr = [] -> sent tr = [].
Proof.
  induction tr as [|ev tr IH]; [reflexivity|].
  destruct ev; cbn [sendAttempts sent]; try exact IH. discriminate.
Qed.

Section StructProgress.
Import StructVariant.
Context {W : Type} (client : nodes.ServiceClient W).

Lemma struct_next_le_100 s : struct_next s <= 100.
Proof. unfold struct_next. split_state_tests; vm_compute; discriminate. Qed.

(** The values the loop of WAIT_DEPLOY sends climb from its counter and
    stop at 99. *)
Lemma struct_waitDeployLoop_climbs fuel : forall pct (d : Deployment W) w,
  pct <= 99 ->
  climbs pct 99
    (map Percentage (sent (trace (waitDeployLoop client fuel pct d w)))).
Proof.
  induction fuel as [|fuel IH]; intros pct d w Hp; [exact Hp|].
  cbn [waitDeployLoop].
  destruct (nodes.Get client (NodeUUID d) w) as [[node err] w1].
  assert (Hp' : pct <= (if pct <? 99 then pct + 1 else pct) <= 99).
  { destruct (pct <? 99) eqn:Hlt; [apply Z.ltb_lt in Hlt; lia|lia]. }
  unfold send.
  destruct (String.eqb (nodes.ProvisionState node) nodes.Active);
    [exact Hp|].
  destruct (_ || _); [|exact Hp].
  match goal with
  | |- context [delivered ?c] => destruct (delivered c) eqn:Hdel
  end.
  - cbn [emit trace sent]. rewrite Hdel. cbn [map Percentage climbs].
    split; [exact (proj1 Hp')|]. apply IH. exact (proj2 Hp').
  - cbn [emit trace sent]. rewrite Hdel. exact Hp.
Qed.

Lemma struct_climbs_sendIfSet v (d : Deployment W) w
    (k : Run Outcome (Deployment W) W DeploymentState) lo :
  lo <= Percentage v -> Percentage v <= 100 ->
  climbs (Percentage v) 100 (map Percentage (sent (trace k))) ->
  climbs lo 100 (map Percentage (sent (trace (sendIfSet v d w k)))).
Proof.
  intros Hlo Hhi Hk. rewrite trace_sendIfSet.
  destruct (status d) as [c|].
  - cbn [sent]. destruct (delivered (Some c)).
    + cbn [map climbs]. split; [exact Hlo|exact Hk].
    + cbn [sent map climbs]. lia.
  - eapply climbs_weaken; [exact Hlo|exact Hk].
Qed.

Lemma struct_climbs_andThen
    (r : Run Exit (Deployment W) W DeploymentState) k lo mid :
  climbs lo mid (map Percentage (sent (trace r))) ->
  mid <= 100 ->
  (exit r = Break ->
   climbs mid 100 (map Percentage (sent (trace (k (dep r) (world r)))))) ->
  climbs lo 100 (map Percentage (sent (trace (andThen r k)))).
Proof.
  intros Hr Hmid Hk. rewrite trace_andThen, sent_app, map_app.
  eapply climbs_app; [exact Hr|].
  destruct (exit r); [exact (Hk eq_refl)|exact Hmid].
Qed.

Lemma struct_nextState_climbs fuel : forall (d : Deployment W) w lo,
  lo <= struct_next (currentState d) ->
  climbs lo 100 (map Percentage (sent (trace (nextState client fuel d w)))).
Proof.
  induction fuel as [|fuel IH]; intros d w lo Hlo.
  { pose proof (struct_next_le_100 (currentState d)). cbn [nextState trace sent map climbs]. lia. }
  assert (Hlo100 : lo <= 100)
    by (pose proof (struct_next_le_100 (currentState d)); lia).
  rewrite struct_nextState_S.
  destruct (negb (isNil (Error d))).
  { apply struct_climbs_sendIfSet; cbn [Percentage StateError];
      [exact Hlo100|lia|]. cbn [done trace sent map climbs]. lia. }
  cbv zeta. revert Hlo. unfold struct_next.
  split_state_tests; intros Hlo;
    try (apply struct_climbs_sendIfSet;
         cbn [currentState set_currentState];
         [exact Hlo|vm_compute; discriminate|]).
  - (* configure *)
    unfold configure. cbn [UpdateOpts NodeUUID set_currentState].
    destruct (negb _);
      [|apply IH; vm_compute; discriminate].
    destruct (nodes.Update _ _ _ _) as [err w1].
    cbn [emit trace sent].
    destruct (isNil err); apply IH; vm_compute; discriminate.
  - (* manage *)
    unfold manage. cbn [NodeUUID set_currentState].
    destruct (nodes.ChangeProvisionState _ _ _ _) as [err w1].
    cbn [emit trace sent].
    destruct (isNil err); apply IH; vm_compute; discriminate.
  - (* waitManage *)
    unfold waitManage.
    match goal with
    | |- context [andThen (waitManageLoop client fuel ?d' w) _] =>
        destruct (struct_waitManageLoop_frame client fuel d' w)
          as ((_ & _ & _ & Hstate) & Hnone & _)
    end.
    eapply struct_climbs_andThen with (mid := Percentage StateWaitManage).
    + rewrite (sent_nil_of_attempts _ Hnone). cbn [map climbs Percentage]. lia.
    + vm_compute. discriminate.
    + intros _. apply IH. rewrite Hstate. vm_compute. discriminate.
  - (* provide *)
    unfold provide. cbn [NodeUUID set_currentState].
    destruct (nodes.ChangeProvisionState _ _ _ _) as [err w1].
    cbn [emit trace sent]. apply IH. vm_compute. discriminate.
  - (* waitProvide *)
    unfold waitProvide. cbv zeta. cbn [NodeUUID set_currentState].
    destruct (nodes.Get client (NodeUUID d) w) as [[node err] w1].
    cbn [emit trace sent].
    set (d' := set_currentState StateWaitProvide d).
    change (climbs (Percentage StateWaitProvide) 100
              (map Percentage
                 (sent (trace
                    (andThen
                       (if isNil err then waitProvideLoop fuel node d' w1
                        else mkRun Break d' w1 [])
                       (fun d'' w' =>
                          nextState client fuel (set_Error None d'') w')))))).
    match goal with
    | |- context [andThen ?r _] =>
        assert (Hloop : sent (trace r) = []
                        /\ currentState (dep r) = StateWaitProvide)
    end.
    { destruct (isNil err).
      - destruct (struct_waitProvideLoop_frame fuel node d' w1)
          as ((_ & _ & _ & Hstate) & Hnone & _).
        split; [exact (sent_nil_of_attempts _ Hnone)|exact Hstate].
      - split; reflexivity. }
    destruct Hloop as [Hnone Hstate].
    eapply struct_climbs_andThen with (mid := Percentage StateWaitProvide).
    + rewrite Hnone. cbn [map climbs Percentage]. lia.
    + vm_compute. discriminate.
    + intros _. cbv beta. apply IH.
      cbn [currentState set_Error].
      change (currentState (set_Error None ?x)) with (currentState x).
      rewrite Hstate. vm_compute. discriminate.
  - (* deploy *)
    unfold deploy. cbn [ConfigDrive NodeUUID set_currentState].
    destruct (ConfigDrive d w) as [[configDrive err] w1].
    destruct (negb (isNil err)); [apply IH; vm_compute; discriminate|].
    destruct (nodes.ChangeProvisionState _ _ _ _) as [err2 w2].
    cbn [emit trace sent]. apply IH. vm_compute. discriminate.
  - (* waitDeploy *)
    unfold waitDeploy.
    match goal with
    | |- context [andThen (waitDeployLoop client fuel ?p ?d' w) _] =>
        destruct (struct_waitDeployLoop_frame client fuel p d' w)
          as ((_ & _ & _ & Hstate) & _);
        pose proof (struct_waitDeployLoop_climbs fuel p d' w) as Hramp
    end.
    eapply struct_climbs_andThen with (mid := 99).
    + apply Hramp. lia.
    + lia.
    + intros _. apply IH. rewrite Hstate. vm_compute. discriminate.
  - (* done *)
    cbn [done trace sent map climbs]. vm_compute. discriminate.
  - (* no case of the switch *)
    cbn [trace sent map climbs]. exact Hlo.
Qed.

Lemma struct_Deploy_climbs fuel (d : Deployment W) status' w :
  climbs 0 100 (map Percentage (sent (trace (Deploy client fuel d status' w)))).
Proof.
  unfold Deploy. cbv zeta. destruct status' as [c|].
  - rewrite trace_send. cbn [sent status set_status].
    destruct (delivered (Some c)); [|cbn [sent map climbs]; lia].
    rewrite sent_deferClose. cbn [map climbs Percentage StateBegin].
    split; [lia|]. apply struct_nextState_climbs. vm_compute. discriminate.
  - apply struct_nextState_climbs. vm_compute. discriminate.
Qed.

End StructProgress.

(** X12: in the state-struct revision the percentages a run of [Deploy]
    puts on the channel never fall and lie between 0 and 100, whatever
    the remote answers and however the run ends. *)
Theorem struct_progress_never_falls :
  forall (W : Type) (client : nodes.ServiceClient W) (fuel : nat)
    (d : StructVariant.Deployment W) (channel : option Chan) (w : W),
    let percentages :=
      map StructVariant.Percentage
        (sent (trace (StructVariant.Deploy client fuel d channel w))) in
    nondecreasing percentages = true
    /\ Forall (fun v => 0 <= v <= 100) percentages.
Proof.
  intros W client fuel d channel w. cbv zeta.
  apply climbs_nondecreasing. apply struct_Deploy_climbs.
Qed.

(** ** What the builder leaves on the file system *)

Section BuilderFiles.
Import configdrive.


Lemma syscall_inr {A} (ok : OS -> A * OS) os e os' :
  syscall ok os = (inr e, os') ->
  files os' = files os /\ dirs os' = dirs os.
Proof.
  unfold syscall. destruct (faults os) as [|[e0|] rest].
  - destruct (ok os). discriminate.
  - intros [= <- <-]. split; reflexivity.
  - destruct (ok _). discriminate.
Qed.





(** A file of the staged tree is a file below the directory. *)
Lemma stagedTree_elem directory os rel data :
  (rel, data) ∈ stagedTree directory os
  <-> files os !! (directory +:+ "/" +:+ rel) = Some data.
Proof.
  unfold stagedTree. rewrite list_elem_of_omap. split.
  - intros [[p b] [Hin Hrel]].
    destruct (stripPrefix (directory +:+ "/") p) as [rel'|] eqn:E; [|discriminate].
    injection Hrel as -> ->.
    apply stripPrefix_Some in E. subst p.
    apply elem_of_map_to_list in Hin.
    rewrite append_assoc in Hin. exact Hin.
  - intros Hfile. exists (directory +:+ "/" +:+ rel, data). split.
    + apply elem_of_map_to_list. exact Hfile.
    + rewrite <- append_assoc, stripPrefix_app. reflexivity.
Qed.

End BuilderFiles.





(** ** The string-channel revision *)

Lemma polls_app {M : Type} (tr1 tr2 : list (Event M)) :
  polls (tr1 ++ tr2) = (polls tr1 + polls tr2)%nat.
Proof.
  induction tr1 as [|e tr1 IH]; [reflexivity|].
  destruct e; simpl; congruence.
Qed.

Section StringRuns.
Import StringVariant.
Context {W : Type} (client : nodes.ServiceClient W).

Lemma string_nextState_S fuel (d : Deployment) (w : W) :
  nextState client (S fuel) d w
  = if negb (isNil (Error d)) then sendIfSet "ERROR" d w (done d w)
    else
      let state := currentState d in
      let go (d' : Deployment) (next : Deployment -> W -> CallRun) :=
        sendIfSet (currentState d') d' w (next d' w) in
      if String.eqb state StateBegin then
        go (set_currentState StateConfigure d)
           (configure client (nextState client fuel))
      else if String.eqb state StateConfigure then
        go (set_currentState StateManage d) (manage client (nextState client fuel))
      else if String.eqb state StateManage then
        go (set_currentState StateWaitManage d)
           (waitManage client fuel (nextState client fuel))
      else if String.eqb state StateWaitManage then
        go (set_currentState StateProvide d)
           (provide client (nextState client fuel))
      else if String.eqb state StateProvide then
        go (set_currentState StateWaitProvide d)
           (waitProvide client fuel (nextState client fuel))
      else if String.eqb state StateWaitProvide then
        go (set_currentState StateDeploy d) (deploy client (nextState client fuel))
      else if String.eqb state StateDeploy then
        go (set_currentState StateWaitDeploy d)
           (waitDeploy client fuel (nextState client fuel))
      else if String.eqb state StateWaitDeploy then
        go (set_currentState StateDone d) done
      else mkRun (Returned (Some "Unknown state")) d w [].
Proof. reflexivity. Qed.

(** A wait loop that does not find the awaited state at its one look
    never ends. *)
Lemma string_waitManageLoop_miss node :
  String.eqb (nodes.ProvisionState node) nodes.Manageable = false ->
  forall fuel (d : Deployment) (w : W),
    let r := waitManageLoop fuel node d w in
    exit r = Stop OutOfFuel /\ status (dep r) = status d /\ silent (trace r).
Proof.
  intros Hmiss. unfold silent.
  induction fuel as [|fuel IH]; intros d w; cbv zeta; [repeat split|].
  cbn [waitManageLoop]. rewrite Hmiss.
  destruct (String.eqb _ nodes.Verifying).
  - cbn [emit exit dep trace sendAttempts mutations polls closes]. apply IH.
  - match goal with
    | |- context [waitManageLoop fuel node ?d' w] => exact (IH d' w)
    end.
Qed.

Lemma string_waitDeployLoop_miss node :
  String.eqb (nodes.ProvisionState node) nodes.Active = false ->
  forall fuel (d : Deployment) (w : W),
    let r := waitDeployLoop fuel node d w in
    exit r = Stop OutOfFuel /\ status (dep r) = status d /\ silent (trace r).
Proof.
  intros Hmiss. unfold silent.
  induction fuel as [|fuel IH]; intros d w; cbv zeta; [repeat split|].
  cbn [waitDeployLoop]. rewrite Hmiss.
  destruct (String.eqb _ nodes.DeployWait).
  - cbn [emit exit dep trace sendAttempts mutations polls closes]. apply IH.
  - match goal with
    | |- context [waitDeployLoop fuel node ?d' w] => exact (IH d' w)
    end.
Qed.

(** How each wait loop ends. *)
Lemma string_waitManageLoop_ends fuel node (d : Deployment) (w : W) :
  string_loop_ends d w (waitManageLoop fuel node d w).
Proof.
  unfold string_loop_ends.
  destruct (String.eqb (nodes.ProvisionState node) nodes.Manageable) eqn:Hfound.
  - destruct fuel as [|fuel].
    + right; left. unfold silent. repeat split.
    + left. cbn [waitManageLoop]. rewrite Hfound. reflexivity.
  - right; left. apply string_waitManageLoop_miss, Hfound.
Qed.

Lemma string_waitDeployLoop_ends fuel node (d : Deployment) (w : W) :
  string_loop_ends d w (waitDeployLoop fuel node d w).
Proof.
  unfold string_loop_ends.
  destruct (String.eqb (nodes.ProvisionState node) nodes.Active) eqn:Hfound.
  - destruct fuel as [|fuel].
    + right; left. unfold silent. repeat split.
    + left. cbn [waitDeployLoop]. rewrite Hfound. reflexivity.
  - right; left. apply string_waitDeployLoop_miss, Hfound.
Qed.

Lemma string_waitProvideLoop_ends fuel node (d : Deployment) (w : W) :
  string_loop_ends d w (waitProvideLoop fuel node d w).
Proof.
  unfold string_loop_ends, silent.
  destruct fuel as [|fuel]; [right; left; repeat split|].
  cbn [waitProvideLoop].
  destruct (String.eqb _ nodes.Available); [left; reflexivity|].
  destruct (String.eqb _ nodes.Cleaning) eqn:Hcleaning;
    [|right; right; eexists; reflexivity].
  right; left.
  cbn [emit exit dep trace sendAttempts mutations polls closes].
  clear -Hcleaning. induction fuel as [|fuel IH]; [repeat split|].
  cbn [waitProvideLoop].
  destruct (String.eqb _ nodes.Available) eqn:Havailable.
  - apply String.eqb_eq in Havailable, Hcleaning.
    rewrite Havailable in Hcleaning. discriminate Hcleaning.
  - rewrite Hcleaning.
    cbn [emit exit dep trace sendAttempts mutations polls closes]. exact IH.
Qed.

Lemma string_loop_ends_break (d : Deployment) (w : W) :
  string_loop_ends d w (mkRun Break d w []).
Proof. left. reflexivity. Qed.

(** *** Staying within the plan *)

Lemma string_within_end (d d' : Deployment) (w : W) n plan o :
  status d' = status d -> string_within d n plan (mkRun o d' w []).
Proof.
  intros Hstatus. unfold string_within. cbn [trace dep polls mutations closes
    sendAttempts].
  repeat split; [apply Nat.le_0_l|apply prefix_nil|exact Hstatus].
Qed.

Lemma string_within_status (d d' : Deployment) n plan (r : CallRun (W := W)) :
  status d' = status d -> string_within d' n plan r -> string_within d n plan r.
Proof. unfold string_within. intros <-. exact id. Qed.

Lemma string_within_sendIfSet v (d : Deployment) (w : W) n plan k :
  string_within d n plan k -> string_within d n plan (sendIfSet v d w k).
Proof.
  unfold string_within, sendIfSet, send.
  intros (Hpolls & Hplan & Hcloses & Hstatus & Hnil).
  destruct (status d) as [[|]|] eqn:Hchan;
    cbn [delivered emit trace dep polls mutations closes sendAttempts].
  - repeat split; try assumption. discriminate.
  - repeat split; [apply Nat.le_0_l|apply prefix_nil|exact Hchan|discriminate].
  - repeat split; assumption.
Qed.

Lemma string_within_poll uuid (d : Deployment) n plan (k : CallRun (W := W)) :
  string_within d n plan k -> string_within d (S n) plan (emit (EvGet uuid) k).
Proof.
  unfold string_within.
  cbn [emit trace dep polls mutations closes sendAttempts].
  intros (Hpolls & Hrest). split; [apply le_n_S, Hpolls|exact Hrest].
Qed.

Lemma string_within_patch uuid opts (d : Deployment) n plan
    (k : CallRun (W := W)) :
  string_within d n plan k ->
  string_within d n ("patch" :: plan) (emit (EvUpdate uuid opts) k).
Proof.
  unfold string_within.
  cbn [emit trace dep polls mutations closes sendAttempts].
  intros (Hpolls & Hplan & Hrest).
  split; [exact Hpolls|]. split; [apply prefix_cons, Hplan|exact Hrest].
Qed.

Lemma string_within_change uuid target drive (d : Deployment) n plan
    (k : CallRun (W := W)) :
  string_within d n plan k ->
  string_within d n (target :: plan)
    (emit (EvChangeProvisionState uuid
             (nodes.mkProvisionStateOpts target drive)) k).
Proof.
  unfold string_within.
  cbn [emit trace dep polls mutations closes sendAttempts].
  intros (Hpolls & Hplan & Hrest).
  split; [exact Hpolls|]. split; [apply prefix_cons, Hplan|exact Hrest].
Qed.

Lemma string_within_andThen (d : Deployment) (w : W) n plan l k :
  string_loop_ends d w l ->
  string_within d n plan (k d w) ->
  string_within d n plan (andThen l k).
Proof.
  intros [-> | [(Hexit & Hstatus & Hs1 & Hs2 & Hs3 & Hs4) | [state ->]]] Hk.
  - destruct Hk as (Hpolls & Hplan & Hcloses & Hstatus & Hnil).
    unfold string_within, andThen. cbn [exit dep world trace app].
    repeat split; assumption.
  - unfold string_within, andThen. rewrite Hexit. cbn [exit dep world trace].
    rewrite Hs2, Hs3, Hs4.
    repeat split; [apply Nat.le_0_l|apply prefix_nil|exact Hstatus|].
    intros _. exact Hs1.
  - unfold andThen. cbn [exit dep world trace].
    apply string_within_end. reflexivity.
Qed.

(** A poll goes out at most once in each wait, the commands follow the
    plan, and a [nil] channel is never sent on. *)
Lemma string_nextState_within fuel : forall (d : Deployment) (w : W),
  string_within d (string_polls_left (currentState d))
    (string_plan (currentState d)) (nextState client fuel d w).
Proof.
  induction fuel as [|fuel IH]; intros d w.
  { apply string_within_end. reflexivity. }
  rewrite string_nextState_S. cbv zeta.
  destruct (negb (isNil (Error d))).
  { apply string_within_sendIfSet, string_within_end. reflexivity. }
  split_state_tests.
  all: repeat match goal with
         | H : String.eqb (currentState _) _ = true |- _ =>
             apply String.eqb_eq in H; rewrite H
         end.
  all: try match goal with
         | |- string_within _ _ _ (sendIfSet _ ?d' _ _) =>
             apply (string_within_status d d'); [reflexivity|];
             apply string_within_sendIfSet;
             match goal with
             | |- string_within _ (string_polls_left ?s) _ _ =>
                 let n := eval vm_compute in (string_polls_left s) in
                 let plan := eval vm_compute in (string_plan s) in
                 change (string_polls_left s) with n;
                 change (string_plan s) with plan
             end
         end.
  - unfold configure.
    destruct (nodes.Update client _ _ w) as [err w1].
    apply string_within_patch.
    match goal with
    | |- string_within _ _ _ (nextState _ _ ?d' ?w') =>
        apply (string_within_status _ d');
          [destruct err; reflexivity|];
        generalize (IH d' w'); destruct err; exact id
    end.
  - unfold manage.
    destruct (nodes.ChangeProvisionState client _ _ w) as [err w1].
    apply string_within_change.
    match goal with
    | |- string_within _ _ _ (nextState _ _ ?d' ?w') =>
        apply (string_within_status _ d');
          [destruct err; reflexivity|];
        generalize (IH d' w'); destruct err; exact id
    end.
  - unfold waitManage.
    destruct (nodes.Get client _ w) as [[node err] w1]. cbv zeta.
    apply string_within_poll.
    apply string_within_andThen with (w := w1).
    + destruct err; cbn [isNil];
        [apply string_loop_ends_break|apply string_waitManageLoop_ends].
    + cbn [isNil]. apply IH.
  - unfold provide.
    destruct (nodes.ChangeProvisionState client _ _ w) as [err w1].
    apply string_within_change.
    destruct err; cbn [isNil negb];
      [apply string_within_end; reflexivity|apply IH].
  - unfold waitProvide.
    destruct (nodes.Get client _ w) as [[node err] w1].
    apply string_within_poll.
    apply string_within_andThen with (w := w1).
    + destruct err; cbn [isNil];
        [apply string_loop_ends_break|apply string_waitProvideLoop_ends].
    + apply IH.
  - unfold deploy.
    destruct (nodes.ChangeProvisionState client _ _ w) as [err w1].
    apply string_within_change.
    destruct err; cbn [isNil negb];
      [apply string_within_end; reflexivity|apply IH].
  - unfold waitDeploy.
    destruct (nodes.Get client _ w) as [[node err] w1]. cbv zeta.
    apply string_within_poll.
    apply string_within_andThen with (w := w1).
    + destruct err; cbn [isNil];
        [apply string_loop_ends_break|apply string_waitDeployLoop_ends].
    + cbn [isNil]. apply IH.
  - apply string_within_end. reflexivity.
  - apply string_within_end. reflexivity.
Qed.

End StringRuns.

(** X15: in the string-channel revision a run started with a [nil]
    channel on a deployment that holds no channel never executes a send
    statement and never closes a channel, whatever the remote answers. *)
Theorem string_nil_channel_never_sends :
  forall (W : Type) (client : nodes.ServiceClient W) (fuel : nat)
    (d : StringVariant.Deployment) (w : W),
    StringVariant.status d = None ->
    let r := StringVariant.Deploy client fuel d None w in
    sendAttempts (trace r) = [] /\ closes (trace r) = O.
Proof.
  intros W client fuel d w Hnil. cbv zeta. unfold StringVariant.Deploy.
  destruct (string_nextState_within client fuel
              (StringVariant.set_currentState StringVariant.StateBegin d) w)
    as (_ & _ & Hcloses & _ & Hsends).
  split; [apply Hsends; exact Hnil|exact Hcloses].
Qed.

Lemma string_nil_channel_never_sends_witness :
  let r :=
    StringVariant.Deploy (Scripted.client (Scripted.reports "active")) 20
      StringSample.new None
      [Scripted.reports "manageable"; Scripted.reports "available"] in
  sendAttempts (trace r) = [] /\ closes (trace r) = O.
Proof.
  exact (string_nil_channel_never_sends Scripted.World
           (Scripted.client (Scripted.reports "active")) 20 StringSample.new
           [Scripted.reports "manageable"; Scripted.reports "available"]
           eq_refl).
Defined.

(** X16: whatever the remote answers and whatever the channel, a run of
    the string-channel revision polls the node at most three times, once
    in each wait, and the commands it sends are a beginning of patch,
    manage, provide, active. *)
Theorem string_waits_poll_once :
  forall (W : Type) (client : nodes.ServiceClient W) (fuel : nat)
    (d : StringVariant.Deployment) (channel : option Chan) (w : W),
    let r := StringVariant.Deploy client fuel d channel w in
    (polls (trace r) <= 3)%nat
    /\ mutations (trace r) `prefix_of` ["patch"; "manage"; "provide"; "active"].
Proof.
  intros W client fuel d channel w. cbv zeta. unfold StringVariant.Deploy.
  destruct channel as [c|].
  - unfold send. destruct (delivered (Some c));
      [|split; [apply Nat.le_0_l|apply prefix_nil]].
    cbn [emit trace polls mutations].
    rewrite trace_deferClose, polls_app, mutations_app.
    match goal with
    | |- context [StringVariant.nextState client fuel ?d' w] =>
        destruct (string_nextState_within client fuel d' w)
          as (Hpolls & Hplan & _)
    end.
    cbn [StringVariant.currentState StringVariant.set_status
      StringVariant.set_currentState] in Hpolls, Hplan.
    destruct (exit _); cbn [polls mutations];
      rewrite Nat.add_0_r, app_nil_r; split; assumption.
  - destruct (string_nextState_within client fuel
                (StringVariant.set_currentState StringVariant.StateBegin d) w)
      as (Hpolls & Hplan & _).
    split; [exact Hpolls|exact Hplan].
Qed.

(** *** What a returned call shows *)

Section StringReturns.
Import StringVariant.
Context {W : Type} (client : nodes.ServiceClient W).

Lemma string_accounted_send v (d : Deployment) (w : W) names plan n k :
  status d = Some caller_chan ->
  string_accounted names plan n k ->
  string_accounted (v :: names) plan n (sendIfSet v d w k).
Proof.
  intros Hchan. unfold string_accounted, sendIfSet, send. rewrite Hchan.
  cbn [delivered emit exit dep trace sent mutations polls].
  destruct (exit k) as [[e|]| |]; [| |exact id..].
  - intros [[Herr Hlast] | H]; [left|right; exact H].
    split; [exact Herr|]. rewrite last_cons, Hlast. reflexivity.
  - intros (-> & Hrest). split; [reflexivity|exact Hrest].
Qed.

Lemma string_accounted_poll uuid names plan n (k : CallRun (W := W)) :
  string_accounted names plan n k ->
  string_accounted names plan (S n) (emit (EvGet uuid) k).
Proof.
  unfold string_accounted.
  cbn [emit exit dep trace sent mutations polls].
  destruct (exit k) as [[e|]| |]; try exact id.
  intros (Hsent & Hplan & <- & Herr). repeat split; assumption.
Qed.

Lemma string_accounted_patch uuid opts names plan n (k : CallRun (W := W)) :
  string_accounted names plan n k ->
  string_accounted names ("patch" :: plan) n (emit (EvUpdate uuid opts) k).
Proof.
  unfold string_accounted.
  cbn [emit exit dep trace sent mutations polls].
  destruct (exit k) as [[e|]| |]; try exact id.
  intros (Hsent & <- & Hpolls & Herr). repeat split; assumption.
Qed.

Lemma string_accounted_change uuid target drive names plan n
    (k : CallRun (W := W)) :
  string_accounted names plan n k ->
  string_accounted names (target :: plan) n
    (emit (EvChangeProvisionState uuid
             (nodes.mkProvisionStateOpts target drive)) k).
Proof.
  unfold string_accounted.
  cbn [emit exit dep trace sent mutations polls nodes.Target].
  destruct (exit k) as [[e|]| |]; try exact id.
  intros (Hsent & <- & Hpolls & Herr). repeat split; assumption.
Qed.

Lemma string_accounted_unrecorded (d : Deployment) (w : W) names plan n e :
  Error d = None -> string_unrecorded e ->
  string_accounted names plan n (mkRun (Returned (Some e)) d w []).
Proof. intros Herr He. right. split; assumption. Qed.

Lemma string_accounted_andThen (d : Deployment) (w : W) names plan n l k :
  Error d = None ->
  string_loop_ends d w l ->
  string_accounted names plan n (k d w) ->
  string_accounted names plan n (andThen l k).
Proof.
  intros Herr [-> | [(Hexit & _) | [state ->]]] Hk.
  - unfold string_accounted, andThen in *.
    cbn [exit dep world trace app] in *. exact Hk.
  - unfold string_accounted. rewrite exit_andThen, Hexit. exact I.
  - unfold andThen. cbn [exit dep world trace].
    apply string_accounted_unrecorded; [exact Herr|].
    right; right. exists state. reflexivity.
Qed.

Lemma string_nextState_accounted fuel : forall (d : Deployment) (w : W),
  status d = Some caller_chan ->
  string_dispatchable (currentState d) = true ->
  string_accounted (string_rest (currentState d))
    (string_plan (currentState d)) (string_polls_left (currentState d))
    (nextState client fuel d w).
Proof.
  induction fuel as [|fuel IH]; intros d w Hchan Hstate; [exact I|].
  rewrite string_nextState_S. cbv zeta.
  destruct (Error d) as [e|] eqn:Herr; cbn [isNil negb].
  { unfold string_accounted, sendIfSet, send, done. rewrite Hchan.
    cbn [delivered emit exit dep trace sent]. rewrite Herr.
    left. split; reflexivity. }
  split_state_tests.
  all: repeat match goal with
         | H : String.eqb (currentState _) _ = true |- _ =>
             apply String.eqb_eq in H; rewrite H
         end.
  all: try match goal with
         | |- string_accounted (string_rest ?s) _ _ (sendIfSet _ ?d' _ _) =>
             let names := eval vm_compute in (string_rest s) in
             let plan := eval vm_compute in (string_plan s) in
             let n := eval vm_compute in (string_polls_left s) in
             change (string_rest s) with names;
             change (string_plan s) with plan;
             change (string_polls_left s) with n;
             apply string_accounted_send; [exact Hchan|]
         end.
  - unfold configure.
    destruct (nodes.Update client _ _ w) as [err w1].
    apply string_accounted_patch.
    match goal with
    | |- string_accounted _ _ _ (nextState _ _ ?d' ?w') =>
        generalize (IH d' w'); destruct err; intros H; apply H;
          first [exact Hchan|reflexivity]
    end.
  - unfold manage.
    destruct (nodes.ChangeProvisionState client _ _ w) as [err w1].
    apply string_accounted_change.
    match goal with
    | |- string_accounted _ _ _ (nextState _ _ ?d' ?w') =>
        generalize (IH d' w'); destruct err; intros H; apply H;
          first [exact Hchan|reflexivity]
    end.
  - unfold waitManage.
    destruct (nodes.Get client _ w) as [[node err] w1]. cbv zeta.
    apply string_accounted_poll.
    match goal with
    | |- context [mkRun Break ?d' w1 []] =>
        apply string_accounted_andThen with (d := d') (w := w1);
          [exact Herr| |]
    end.
    + destruct err; cbn [isNil];
        [apply string_loop_ends_break|apply string_waitManageLoop_ends].
    + cbn [isNil]. apply IH; [exact Hchan|reflexivity].
  - unfold provide.
    destruct (nodes.ChangeProvisionState client _ _ w) as [err w1].
    apply string_accounted_change.
    destruct err; cbn [isNil negb].
    + apply string_accounted_unrecorded; [exact Herr|]. left. reflexivity.
    + apply IH; [exact Hchan|reflexivity].
  - unfold waitProvide.
    destruct (nodes.Get client _ w) as [[node err] w1].
    apply string_accounted_poll.
    match goal with
    | |- context [mkRun Break ?d' w1 []] =>
        apply string_accounted_andThen with (d := d') (w := w1);
          [exact Herr| |]
    end.
    + destruct err; cbn [isNil];
        [apply string_loop_ends_break|apply string_waitProvideLoop_ends].
    + apply IH; [exact Hchan|reflexivity].
  - unfold deploy.
    destruct (nodes.ChangeProvisionState client _ _ w) as [err w1].
    apply string_accounted_change.
    destruct err; cbn [isNil negb].
    + apply string_accounted_unrecorded; [exact Herr|]. right; left. reflexivity.
    + apply IH; [exact Hchan|reflexivity].
  - unfold waitDeploy.
    destruct (nodes.Get client _ w) as [[node err] w1]. cbv zeta.
    apply string_accounted_poll.
    match goal with
    | |- context [mkRun Break ?d' w1 []] =>
        apply string_accounted_andThen with (d := d') (w := w1);
          [exact Herr| |]
    end.
    + destruct err; cbn [isNil];
        [apply string_loop_ends_break|apply string_waitDeployLoop_ends].
    + cbn [isNil]. apply IH; [exact Hchan|reflexivity].
  - unfold done, string_accounted. cbn [exit dep trace sent mutations polls
      Error set_currentState]. rewrite Herr. repeat split.
  - unfold string_dispatchable in Hstate. cbn [existsb] in Hstate.
    repeat match goal with
           | H : String.eqb _ _ = false |- _ => rewrite H in Hstate; clear H
           end.
    discriminate Hstate.
Qed.

End StringReturns.

Section StringDeploy.
Import StringVariant.
Context {W : Type} (client : nodes.ServiceClient W).

(** A run on the caller's channel that returns: BEGIN, the dispatcher's
    run, the close. *)
Lemma string_Deploy_returned fuel (d : Deployment) (w : W) o :
  let r := Deploy client fuel d (Some caller_chan) w in
  let inner :=
    nextState client fuel
      (set_status (Some caller_chan) (set_currentState StateBegin d)) w in
  exit r = Returned o ->
  exit inner = Returned o
  /\ dep r = dep inner
  /\ trace r
     = EvSend (Some caller_chan) StateBegin :: trace inner
       ++ [EvClose caller_chan].
Proof.
  cbv zeta. unfold Deploy, send. cbn [delivered emit exit dep trace].
  rewrite exit_deferClose, trace_deferClose. intros Hexit.
  split; [exact Hexit|]. split.
  - clear Hexit. unfold deferClose. destruct (exit _); reflexivity.
  - rewrite Hexit. reflexivity.
Qed.

Lemma string_Deploy_closes_last fuel (d : Deployment) (w : W) o :
  let r := Deploy client fuel d (Some caller_chan) w in
  exit r = Returned o ->
  closes (trace r) = 1%nat /\ last (trace r) = Some (EvClose caller_chan).
Proof.
  cbv zeta. intros Hexit.
  destruct (string_Deploy_returned fuel d w o Hexit) as (_ & _ & ->).
  destruct (string_nextState_within client fuel
              (set_status (Some caller_chan) (set_currentState StateBegin d)) w)
    as (_ & _ & Hcloses & _).
  cbn [closes]. rewrite closes_app, Hcloses. split; [reflexivity|].
  rewrite app_comm_cons, last_snoc. reflexivity.
Qed.

End StringDeploy.

(** X17: a run of the string-channel revision on a drained caller
    channel that returns no error has announced the nine state names in
    order, BEGIN to DONE, each once; it has sent patch, manage, provide and
    active, in this order, polled the node three times, left no error on
    the deployment and closed the channel once, as its last step. *)
Theorem string_successful_run_announces_every_state :
  forall (W : Type) (client : nodes.ServiceClient W) (fuel : nat)
    (d : StringVariant.Deployment) (w : W),
    let r := StringVariant.Deploy client fuel d (Some caller_chan) w in
    exit r = Returned None ->
    sent (trace r) = StringSample.announced
    /\ mutations (trace r) = ["patch"; "manage"; "provide"; "active"]
    /\ polls (trace r) = 3%nat
    /\ StringVariant.Error (dep r) = None
    /\ closes (trace r) = 1%nat
    /\ last (trace r) = Some (EvClose caller_chan).
Proof.
  intros W client fuel d w. cbv zeta. intros Hexit.
  destruct (string_Deploy_closes_last client fuel d w None Hexit)
    as [Hcloses Hlast].
  destruct (string_Deploy_returned client fuel d w None Hexit)
    as (Hinner & Hdep & Htrace).
  pose proof (string_nextState_accounted client fuel
                (StringVariant.set_status (Some caller_chan)
                   (StringVariant.set_currentState StringVariant.StateBegin d))
                w eq_refl eq_refl) as Hacc.
  unfold string_accounted in Hacc. rewrite Hinner in Hacc.
  destruct Hacc as (Hsent & Hplan & Hpolls & Herr).
  rewrite Hdep.
  repeat split; try assumption; rewrite Htrace.
  - cbn [sent delivered]. rewrite sent_app, Hsent. reflexivity.
  - cbn [mutations]. rewrite mutations_app, Hplan. reflexivity.
  - cbn [polls]. rewrite polls_app, Hpolls. reflexivity.
Qed.

Lemma string_successful_run_announces_every_state_witness :
  let r :=
    StringVariant.Deploy (Scripted.client (Scripted.reports "active")) 20
      StringSample.new (Some caller_chan)
      [Scripted.reports "manageable"; Scripted.reports "available"] in
  sent (trace r) = StringSample.announced
  /\ mutations (trace r) = ["patch"; "manage"; "provide"; "active"]
  /\ polls (trace r) = 3%nat
  /\ StringVariant.Error (dep r) = None
  /\ closes (trace r) = 1%nat
  /\ last (trace r) = Some (EvClose caller_chan).
Proof.
  exact (string_successful_run_announces_every_state Scripted.World
           (Scripted.client (Scripted.reports "active")) 20 StringSample.new
           [Scripted.reports "manageable"; Scripted.reports "available"]
           eq_refl).
Defined.

(** X18: a run of the string-channel revision on a drained caller
    channel that returns an error has closed the channel once, as its last
    step, and either the error is the one recorded on the deployment and
    "ERROR" is the last name the caller received, or the deployment holds
    no error and the one returned is one of three: a refused "provide", a
    refused "active", or an unexpected state seen in WAIT_PROVIDE. *)
Theorem string_failed_run_accounting :
  forall (W : Type) (client : nodes.ServiceClient W) (fuel : nat)
    (d : StringVariant.Deployment) (w : W) (e : string),
    let r := StringVariant.Deploy client fuel d (Some caller_chan) w in
    exit r = Returned (Some e) ->
    closes (trace r) = 1%nat
    /\ last (trace r) = Some (EvClose caller_chan)
    /\ ((StringVariant.Error (dep r) = Some e
         /\ last (sent (trace r)) = Some "ERROR")
        \/ (StringVariant.Error (dep r) = None /\ string_unrecorded e)).
Proof.
  intros W client fuel d w e. cbv zeta. intros Hexit.
  destruct (string_Deploy_closes_last client fuel d w (Some e) Hexit)
    as [Hcloses Hlast].
  destruct (string_Deploy_returned client fuel d w (Some e) Hexit)
    as (Hinner & Hdep & Htrace).
  pose proof (string_nextState_accounted client fuel
                (StringVariant.set_status (Some caller_chan)
                   (StringVariant.set_currentState StringVariant.StateBegin d))
                w eq_refl eq_refl) as Hacc.
  unfold string_accounted in Hacc. rewrite Hinner in Hacc.
  split; [exact Hcloses|]. split; [exact Hlast|].
  rewrite Hdep.
  destruct Hacc as [[Herr Hsent] | Hacc]; [left|right; exact Hacc].
  split; [exact Herr|].
  rewrite Htrace. cbn [sent delivered].
  rewrite sent_app. cbn [sent]. rewrite app_nil_r, last_cons, Hsent.
  reflexivity.
Qed.

Lemma string_failed_run_accounting_witness :
  let r :=
    StringVariant.Deploy (Scripted.client (Scripted.reports "active")) 20
      StringSample.new (Some caller_chan)
      [Scripted.reports "manageable"; Scripted.reports "clean failed"] in
  closes (trace r) = 1%nat
  /\ last (trace r) = Some (EvClose caller_chan)
  /\ ((StringVariant.Error (dep r)
       = Some "Provide failed, node's current state is: clean failed"
       /\ last (sent (trace r)) = Some "ERROR")
      \/ (StringVariant.Error (dep r) = None
          /\ string_unrecorded
               "Provide failed, node's current state is: clean failed")).
Proof.
  exact (string_failed_run_accounting Scripted.World
           (Scripted.client (Scripted.reports "active")) 20 StringSample.new
           [Scripted.reports "manageable"; Scripted.reports "clean failed"]
           "Provide failed, node's current state is: clean failed" eq_refl).
Defined.

(** *** Polls that fail, and polls that come too early *)

Ltac decide_state_tests :=
  repeat match goal with
         | |- context [String.eqb ?a ?b] =>
             let v := eval vm_compute in (String.eqb a b) in
             change (String.eqb a b) with v
         end;
  cbv iota.

Section StringPolls.
Import StringVariant.
Context {W : Type} (client : nodes.ServiceClient W).

Hypothesis patch_accepted : forall uuid opts w,
  fst (nodes.Update client uuid opts w) = None.
Hypothesis change_accepted : forall uuid opts w,
  fst (nodes.ChangeProvisionState client uuid opts w) = None.

Ltac accept_command :=
  match goal with
  | |- context [nodes.Update client ?uuid ?opts ?w] =>
      let H := fresh "H" in
      pose proof (patch_accepted uuid opts w) as H;
      destruct (nodes.Update client uuid opts w) as [? ?];
      cbn [fst] in H; subst
  | |- context [nodes.ChangeProvisionState client ?uuid ?opts ?w] =>
      let H := fresh "H" in
      pose proof (change_accepted uuid opts w) as H;
      destruct (nodes.ChangeProvisionState client uuid opts w) as [? ?];
      cbn [fst] in H; subst
  end.

Ltac announce Hchan :=
  unfold sendIfSet, send; cbn [status set_currentState set_Error];
  rewrite Hchan; cbn [delivered emit exit trace polls].

Lemma string_failed_polls_go_on fuel : forall (d : Deployment) (w : W),
  (forall uuid w', snd (fst (nodes.Get client uuid w')) <> None) ->
  Error d = None ->
  status d = Some caller_chan ->
  string_dispatchable (currentState d) = true ->
  (length (string_rest (currentState d)) <= fuel)%nat ->
  exit (nextState client fuel d w) = Returned None.
Proof.
  intros d w Hfails. revert d w.
  induction fuel as [|fuel IH]; intros d w Herr Hchan Hstate Hfuel.
  { exfalso. unfold string_dispatchable in Hstate. cbn [existsb] in Hstate.
    repeat match type of Hstate with
           | (String.eqb ?a ?b || _)%bool = true =>
               destruct (String.eqb a b) eqn:?; cbn [orb] in Hstate
           end;
      try discriminate Hstate;
      match goal with
      | H : String.eqb _ _ = true |- _ =>
          apply String.eqb_eq in H; rewrite H in Hfuel;
          vm_compute in Hfuel; lia
      end. }
  rewrite string_nextState_S. cbv zeta. rewrite Herr. cbn [isNil negb].
  split_state_tests.
  all: repeat match goal with
         | H : String.eqb (currentState _) _ = true |- _ =>
             apply String.eqb_eq in H; rewrite H in Hfuel;
             vm_compute in Hfuel; apply le_S_n in Hfuel
         end.
  all: try announce Hchan.
  - unfold configure. accept_command. cbn [isNil emit exit].
    apply IH; try assumption; try reflexivity.
  - unfold manage. accept_command. cbn [isNil emit exit].
    apply IH; try assumption; try reflexivity.
  - unfold waitManage.
    pose proof (Hfails (NodeUUID (set_currentState StateWaitManage d)) w) as Hpoll.
    destruct (nodes.Get client _ w) as [[node [e|]] w1];
      [|exfalso; apply Hpoll; reflexivity].
    cbv zeta. cbn [isNil emit exit andThen dep world].
    apply IH; try assumption; try reflexivity.
  - unfold provide. accept_command. cbn [isNil negb emit exit].
    apply IH; try assumption; try reflexivity.
  - unfold waitProvide.
    pose proof (Hfails (NodeUUID (set_currentState StateWaitProvide d)) w)
      as Hpoll.
    destruct (nodes.Get client _ w) as [[node [e|]] w1];
      [|exfalso; apply Hpoll; reflexivity].
    cbn [isNil emit exit andThen dep world].
    apply IH; try assumption; try reflexivity.
  - unfold deploy. accept_command. cbn [isNil negb emit exit].
    apply IH; try assumption; try reflexivity.
  - unfold waitDeploy.
    pose proof (Hfails (NodeUUID (set_currentState StateWaitDeploy d)) w)
      as Hpoll.
    destruct (nodes.Get client _ w) as [[node [e|]] w1];
      [|exfalso; apply Hpoll; reflexivity].
    cbv zeta. cbn [isNil emit exit andThen dep world].
    apply IH; try assumption; try reflexivity.
  - unfold done. cbn [exit Error set_currentState]. rewrite Herr. reflexivity.
  - unfold string_dispatchable in Hstate. cbn [existsb] in Hstate.
    repeat match goal with
           | H : String.eqb _ _ = false |- _ => rewrite H in Hstate; clear H
           end.
    discriminate Hstate.
Qed.

Lemma string_early_poll_spins fuel : forall (d : Deployment) (w : W),
  (forall uuid w',
     snd (fst (nodes.Get client uuid w')) = None
     /\ nodes.ProvisionState (fst (fst (nodes.Get client uuid w')))
        <> nodes.Manageable) ->
  Error d = None ->
  status d = Some caller_chan ->
  currentState d = StateBegin \/ currentState d = StateConfigure
  \/ currentState d = StateManage ->
  exit (nextState client fuel d w) = OutOfFuel
  /\ (polls (trace (nextState client fuel d w)) <= 1)%nat.
Proof.
  intros d w Hearly. revert d w.
  induction fuel as [|fuel IH]; intros d w Herr Hchan Hstate.
  { split; [reflexivity|apply Nat.le_0_l]. }
  rewrite string_nextState_S. cbv zeta. rewrite Herr. cbn [isNil negb].
  destruct Hstate as [Hstate | [Hstate | Hstate]]; rewrite Hstate;
    decide_state_tests; announce Hchan.
  - unfold configure. accept_command. cbn [isNil emit exit trace polls].
    apply IH; try assumption. right; left. reflexivity.
  - unfold manage. accept_command. cbn [isNil emit exit trace polls].
    apply IH; try assumption. right; right. reflexivity.
  - unfold waitManage.
    destruct (Hearly (NodeUUID (set_currentState StateWaitManage d)) w)
      as [Hnil Hnot].
    destruct (nodes.Get client _ w) as [[node err] w1].
    cbn [fst snd] in Hnil, Hnot. subst err. cbv zeta.
    cbn [isNil emit exit trace polls].
    assert (Hmiss : String.eqb (nodes.ProvisionState node) nodes.Manageable
                    = false).
    { apply String.eqb_neq. exact Hnot. }
    destruct (string_waitManageLoop_miss (W := W) node Hmiss fuel
                (set_currentState StateWaitManage d) w1)
      as (Hexit & _ & _ & _ & Hpolls & _).
    rewrite exit_andThen, trace_andThen, Hexit, app_nil_r, Hpolls.
    split; [reflexivity|apply Nat.le_refl].
Qed.

End StringPolls.

(** X19: in the string-channel revision a poll that fails counts as the
    awaited state.  Against a remote that accepts every command and whose
    polls all fail, a run on a drained caller channel of a deployment
    without an error returns no error, given fuel for its eight steps: the
    [err] the [for] statement declares hides the one tested after the
    loop. *)
Theorem string_failed_polls_pass_for_success :
  forall (W : Type) (client : nodes.ServiceClient W) (fuel : nat)
    (d : StringVariant.Deployment) (w : W),
    (8 <= fuel)%nat ->
    StringVariant.Error d = None ->
    (forall uuid opts w', fst (nodes.Update client uuid opts w') = None) ->
    (forall uuid opts w',
       fst (nodes.ChangeProvisionState client uuid opts w') = None) ->
    (forall uuid w', snd (fst (nodes.Get client uuid w')) <> None) ->
    let r := StringVariant.Deploy client fuel d (Some caller_chan) w in
    exit r = Returned None /\ StringVariant.Error (dep r) = None.
Proof.
  intros W client fuel d w Hfuel Herr Hpatch Hchange Hfails. cbv zeta.
  assert (Hexit : exit (StringVariant.Deploy client fuel d
                          (Some caller_chan) w) = Returned None).
  { unfold StringVariant.Deploy, send. cbn [delivered emit exit].
    rewrite exit_deferClose.
    apply string_failed_polls_go_on;
      [exact Hpatch|exact Hchange|exact Hfails|exact Herr|reflexivity
      |reflexivity|exact Hfuel]. }
  split; [exact Hexit|].
  destruct (string_Deploy_returned client fuel d w None Hexit)
    as (Hinner & -> & _).
  pose proof (string_nextState_accounted client fuel
                (StringVariant.set_status (Some caller_chan)
                   (StringVariant.set_currentState StringVariant.StateBegin d))
                w eq_refl eq_refl) as Hacc.
  unfold string_accounted in Hacc. rewrite Hinner in Hacc.
  destruct Hacc as (_ & _ & _ & Hnone). exact Hnone.
Qed.

Lemma string_failed_polls_pass_for_success_witness :
  let r :=
    StringVariant.Deploy
      (Steady.client (Scripted.fails "connection refused")) 8
      StringSample.new (Some caller_chan) tt in
  exit r = Returned None /\ StringVariant.Error (dep r) = None.
Proof.
  refine (string_failed_polls_pass_for_success unit
            (Steady.client (Scripted.fails "connection refused")) 8
            StringSample.new tt (le_n 8) eq_refl (fun _ _ _ => eq_refl)
            (fun _ _ _ => eq_refl) _).
  intros uuid w'. discriminate.
Defined.

(** X20: in the string-channel revision the wait for "manageable" looks
    at the node once.  Against a remote that accepts every command and
    whose polls succeed but do not show "manageable", a run on a drained
    caller channel never returns, whatever the fuel, and has polled the
    node at most once: the poll is the init statement of the [for], and
    the loop goes round on the same answer. *)
Theorem string_wait_manage_never_polls_again :
  forall (W : Type) (client : nodes.ServiceClient W) (fuel : nat)
    (d : StringVariant.Deployment) (w : W),
    StringVariant.Error d = None ->
    (forall uuid opts w', fst (nodes.Update client uuid opts w') = None) ->
    (forall uuid opts w',
       fst (nodes.ChangeProvisionState client uuid opts w') = None) ->
    (forall uuid w',
       snd (fst (nodes.Get client uuid w')) = None
       /\ nodes.ProvisionState (fst (fst (nodes.Get client uuid w')))
          <> nodes.Manageable) ->
    let r := StringVariant.Deploy client fuel d (Some caller_chan) w in
    exit r = OutOfFuel /\ (polls (trace r) <= 1)%nat.
Proof.
  intros W client fuel d w Herr Hpatch Hchange Hearly. cbv zeta.
  destruct (string_early_poll_spins client Hpatch Hchange fuel
              (StringVariant.set_status (Some caller_chan)
                 (StringVariant.set_currentState StringVariant.StateBegin d))
              w Hearly Herr eq_refl (or_introl eq_refl))
    as [Hexit Hpolls].
  unfold StringVariant.Deploy, send. cbn [delivered emit exit trace polls].
  rewrite exit_deferClose, trace_deferClose, polls_app.
  split; [exact Hexit|]. clear Hexit.
  destruct (exit _); cbn [polls]; rewrite Nat.add_0_r; exact Hpolls.
Qed.

Lemma string_wait_manage_never_polls_again_witness :
  let r :=
    StringVariant.Deploy (Steady.client (Scripted.reports "verifying")) 50
      StringSample.new (Some caller_chan) tt in
  exit r = OutOfFuel /\ (polls (trace r) <= 1)%nat.
Proof.
  refine (string_wait_manage_never_polls_again unit
            (Steady.client (Scripted.reports "verifying")) 50
            StringSample.new tt eq_refl (fun _ _ _ => eq_refl)
            (fun _ _ _ => eq_refl) _).
  intros uuid w'. split; [reflexivity|discriminate].
Defined.

(** ** Creating the nodes *)

Section CreateNodesFacts.
Import main.
Context {NodeOpts PortFields W : Type}.
Variable optsName : NodeOpts -> string.
Variable ReadFile : string -> list byte * error.
Variable unmarshalCreateOpts : list byte -> list NodeOpts * error.
Variable unmarshalPortOpts :
  list byte -> list (string * list (PortOpts PortFields)) * error.
Variable client : Client NodeOpts PortFields W.

Lemma nodeRequests_app (c1 c2 : list (Call NodeOpts PortFields)) :
  nodeRequests (c1 ++ c2) = nodeRequests c1 ++ nodeRequests c2.
Proof.
  induction c1 as [|c c1 IH]; [reflexivity|].
  destruct c; cbn [app nodeRequests]; congruence.
Qed.

Lemma portRequests_app (c1 c2 : list (Call NodeOpts PortFields)) :
  portRequests (c1 ++ c2) = portRequests c1 ++ portRequests c2.
Proof.
  induction c1 as [|c c1 IH]; [reflexivity|].
  destruct c; cbn [app portRequests]; congruence.
Qed.

(** The inner loops call nothing but [ports.Create]; when they go
    through, they have asked for every port, bound to the node. *)
Lemma createPorts_calls uuid ports : forall w,
  let '(err, _, calls) := createPorts client uuid ports w in
  nodeRequests calls = []
  /\ (err = None ->
      portRequests calls
      = map (fun port => mkPortOpts uuid (fields port)) ports).
Proof.
  induction ports as [|port ports IH]; intros w; cbn [createPorts].
  { split; reflexivity. }
  destruct (portsCreate client _ w) as [[e|] w1].
  - split; [reflexivity|discriminate].
  - specialize (IH w1).
    destruct (createPorts client uuid ports w1) as [[err' w2] calls].
    destruct IH as [Hnodes Hports].
    cbn [nodeRequests portRequests map]. split; [exact Hnodes|].
    intros Hnone. rewrite (Hports Hnone). reflexivity.
Qed.

Lemma createPortsOf_calls node portNodes : forall w,
  let '(err, _, calls) := createPortsOf client node portNodes w in
  nodeRequests calls = []
  /\ (err = None -> portRequests calls = portsFor portNodes node).
Proof.
  unfold portsFor.
  induction portNodes as [|[name ports] portNodes IH]; intros w;
    cbn [createPortsOf].
  { split; reflexivity. }
  rewrite filter_cons. cbn [fst].
  destruct (String.eqb name (Name node)) eqn:Hname.
  - pose proof (createPorts_calls (UUID node) ports w) as Hinner.
    destruct (createPorts client (UUID node) ports w) as [[[e|] w1] calls].
    + destruct Hinner as [Hnodes _]. split; [exact Hnodes|discriminate].
    + destruct Hinner as [Hnodes Hports].
      specialize (IH w1).
      destruct (createPortsOf client node portNodes w1) as [[err' w2] calls'].
      destruct IH as [Hnodes' Hports'].
      rewrite nodeRequests_app, portRequests_app, Hnodes, Hnodes'.
      split; [reflexivity|]. intros Hnone.
      rewrite (Hports eq_refl), (Hports' Hnone).
      rewrite decide_True by reflexivity.
      cbn [flat_map snd]. rewrite map_app. reflexivity.
  - rewrite decide_False by discriminate. exact (IH w).
Qed.

Lemma createLoop_calls portNodes opts : forall createdNodes w,
  let '((result, err), _, calls) :=
    createLoop optsName client opts portNodes createdNodes w in
  nodeRequests calls `prefix_of` opts
  /\ match err with
     | Some _ => result = []
     | None =>
         nodeRequests calls = opts
         /\ exists created,
              result = createdNodes ++ created
              /\ length created = length opts
              /\ portRequests calls = flat_map (portsFor portNodes) created
     end.
Proof.
  induction opts as [|node opts IH]; intros createdNodes w; cbn [createLoop].
  { split; [reflexivity|]. split; [reflexivity|].
    exists []. rewrite app_nil_r. repeat split. }
  cbv zeta.
  destruct (nodesCreate client node w) as [[created [e|]] w1].
  { cbn [nodeRequests]. split; [|reflexivity].
    apply prefix_cons, prefix_nil. }
  pose proof (createPortsOf_calls created portNodes w1) as Hports.
  destruct (createPortsOf client created portNodes w1) as [[[e|] w2] calls].
  { destruct Hports as [Hnodes _]. cbn [nodeRequests]. rewrite Hnodes.
    split; [|reflexivity]. apply prefix_cons, prefix_nil. }
  destruct Hports as [Hnodes Hports]. specialize (Hports eq_refl).
  specialize (IH (createdNodes ++ [created]) w2).
  destruct (createLoop optsName client opts portNodes
              (createdNodes ++ [created]) w2) as [[[result err] w3] calls'].
  destruct IH as [Hprefix Hrest].
  cbn [nodeRequests portRequests].
  rewrite nodeRequests_app, portRequests_app, Hnodes, Hports. cbn [app].
  split; [apply prefix_cons, Hprefix|].
  destruct err as [e|]; [exact Hrest|].
  destruct Hrest as (Hall & rest & Hresult & Hlength & Hportcalls).
  split; [rewrite Hall; reflexivity|].
  exists (created :: rest).
  split; [rewrite Hresult, <- app_assoc; reflexivity|].
  split; [cbn [length]; rewrite Hlength; reflexivity|].
  cbn [flat_map]. rewrite Hportcalls. reflexivity.
Qed.

End CreateNodesFacts.



(** X22: whatever happens, the nodes [createNodes] has asked the remote
    for are a beginning of the file's entries, in order; when it returns
    an error it returns no node at all, also when nodes were created
    before the failure; and when the file cannot be read or decoded it
    has called nothing and left the remote as it was. *)
Theorem createNodes_returns_no_node_on_failure :
  forall (NodeOpts PortFields W : Type) (optsName : NodeOpts -> string)
    (ReadFile : string -> list byte * error)
    (unmarshalCreateOpts : list byte -> list NodeOpts * error)
    (unmarshalPortOpts :
       list byte -> list (string * list (main.PortOpts PortFields)) * error)
    (client : main.Client NodeOpts PortFields W) (path : string) (w : W),
    let run :=
      main.createNodes optsName ReadFile unmarshalCreateOpts unmarshalPortOpts
        client path w in
    let result := fst (fst (fst run)) in
    let err := snd (fst (fst run)) in
    let contents := fst (ReadFile path) in
    main.nodeRequests (snd run) `prefix_of` fst (unmarshalCreateOpts contents)
    /\ (err <> None -> result = [])
    /\ (firstError [snd (ReadFile path); snd (unmarshalCreateOpts contents);
                    snd (unmarshalPortOpts contents)] <> None ->
        err = firstError [snd (ReadFile path);
                          snd (unmarshalCreateOpts contents);
                          snd (unmarshalPortOpts contents)]
        /\ snd run = [] /\ snd (fst run) = w).
Proof.
  intros NodeOpts PortFields W optsName ReadFile unmarshalCreateOpts
    unmarshalPortOpts client path w. cbv zeta.
  unfold main.createNodes.
  destruct (ReadFile path) as [contents [e|]]; cbn [fst snd firstError].
  { repeat split. apply prefix_nil. }
  destruct (unmarshalCreateOpts contents) as [opts [e|]];
    cbn [fst snd firstError].
  { repeat split. apply prefix_nil. }
  destruct (unmarshalPortOpts contents) as [portNodes [e|]];
    cbn [fst snd firstError].
  { repeat split. apply prefix_nil. }
  pose proof (createLoop_calls optsName client portNodes opts [] w) as Hloop.
  destruct (main.createLoop optsName client opts portNodes [] w)
    as [[[result err] w'] calls].
  cbn [fst snd]. destruct Hloop as [Hprefix Hrest].
  split; [exact Hprefix|]. split; [|intros H; contradiction H; reflexivity].
  destruct err as [e|]; [intros _; exact Hrest|intros H; contradiction H].
  reflexivity.
Qed.

(** ** Runs that get there *)

Section IntArrives.
Import IntVariant.
Variable rest : nodes.Node * error.

Lemma int_waitManageLoop_arrives k : forall fuel (d : Deployment Scripted.World) tail,
  (k < fuel)%nat ->
  let r := waitManageLoop (Scripted.client rest) fuel d
             (repeat (Scripted.reports "verifying") k
              ++ Scripted.reports "manageable" :: tail) in
  exit r = Break /\ dep r = d /\ world r = tail.
Proof.
  induction k as [|k IH]; intros fuel d tail Hfuel;
    (destruct fuel as [|fuel]; [lia|]).
  - repeat split.
  - apply IH with (d := d) (tail := tail). lia.
Qed.

Lemma int_waitProvideLoop_arrives k : forall fuel (d : Deployment Scripted.World) tail,
  (k < fuel)%nat ->
  let r := waitProvideLoop (Scripted.client rest) fuel d
             (repeat (Scripted.reports "cleaning") k
              ++ Scripted.reports "available" :: tail) in
  exit r = Break /\ dep r = d /\ world r = tail.
Proof.
  induction k as [|k IH]; intros fuel d tail Hfuel;
    (destruct fuel as [|fuel]; [lia|]).
  - repeat split.
  - apply IH with (d := d) (tail := tail). lia.
Qed.

Lemma int_waitDeployLoop_arrives k : forall fuel (d : Deployment Scripted.World) tail,
  (k < fuel)%nat ->
  status d = Some caller_chan ->
  let r := waitDeployLoop (Scripted.client rest) fuel d
             (repeat (Scripted.reports "deploying") k
              ++ Scripted.reports "active" :: tail) in
  exit r = Break /\ world r = tail
  /\ Error (dep r) = Error d /\ currentState (dep r) = currentState d
  /\ status (dep r) = status d.
Proof.
  induction k as [|k IH]; intros fuel d tail Hfuel Hchan;
    (destruct fuel as [|fuel]; [lia|]).
  - repeat split.
  - cbv zeta. rewrite waitDeployLoop_S.
    cbn [repeat app Scripted.client nodes.Get Scripted.reports isNil negb
      nodes.ProvisionState].
    decide_state_tests. cbn [orb].
    destruct (currentPercent d <? StateWaitDeployPercent).
    + unfold send. cbn [status set_currentPercent]. rewrite Hchan.
      cbn [delivered emit exit dep world].
      destruct (IH fuel (set_currentPercent (currentPercent d + 2) d) tail)
        as (Hexit & Hworld & Herr & Hstate & Hstatus);
        [lia|exact Hchan|].
      split; [exact Hexit|]. split; [exact Hworld|].
      split; [exact Herr|]. split; [exact Hstate|].
      rewrite Hstatus. exact Hchan.
    + cbn [emit exit dep world]. apply IH; [lia|exact Hchan].
Qed.

(** From BEGIN to DONE against a node that takes its time. *)
Lemma int_nextState_arrives (k j m fuel : nat) (opts : nodes.UpdateOpts) :
  (9 + k + j + m <= fuel)%nat ->
  exit (nextState (Scripted.client rest) fuel
          (set_status (Some caller_chan)
             (set_currentState StateBegin (Scripted.newInt opts)))
          (repeat (Scripted.reports "verifying") k
           ++ Scripted.reports "manageable"
           :: repeat (Scripted.reports "cleaning") j
           ++ Scripted.reports "available"
           :: repeat (Scripted.reports "deploying") m
           ++ Scripted.reports "active" :: []))
  = Returned None.
Proof.
  intros Hfuel.
  do 3 (destruct fuel as [|fuel]; [lia|]).
  transitivity
    (exit (waitManage (Scripted.client rest) fuel
             (nextState (Scripted.client rest) fuel)
             (mkDeployment "uuid-0" opts Scripted.builtDrive None 0 0
                StateWaitManage StateConfigurePercent (Some caller_chan))
             (repeat (Scripted.reports "verifying") k
              ++ Scripted.reports "manageable"
              :: repeat (Scripted.reports "cleaning") j
              ++ Scripted.reports "available"
              :: repeat (Scripted.reports "deploying") m
              ++ Scripted.reports "active" :: []))).
  { destruct opts; reflexivity. }
  unfold waitManage. rewrite exit_andThen.
  match goal with
  | |- context [waitManageLoop _ fuel ?d (_ ++ _ :: ?tail)] =>
      destruct (int_waitManageLoop_arrives k fuel d tail) as (-> & -> & ->);
        [lia|]
  end.
  do 2 (destruct fuel as [|fuel]; [lia|]).
  transitivity
    (exit (waitProvide (Scripted.client rest) fuel
             (nextState (Scripted.client rest) fuel)
             (mkDeployment "uuid-0" opts Scripted.builtDrive None 0 0
                StateWaitProvide StateWaitManagePercent (Some caller_chan))
             (repeat (Scripted.reports "cleaning") j
              ++ Scripted.reports "available"
              :: repeat (Scripted.reports "deploying") m
              ++ Scripted.reports "active" :: []))).
  { reflexivity. }
  unfold waitProvide. rewrite exit_andThen.
  match goal with
  | |- context [waitProvideLoop _ fuel ?d (_ ++ _ :: ?tail)] =>
      destruct (int_waitProvideLoop_arrives j fuel d tail) as (-> & -> & ->);
        [lia|]
  end.
  do 2 (destruct fuel as [|fuel]; [lia|]).
  transitivity
    (exit (waitDeploy (Scripted.client rest) fuel
             (nextState (Scripted.client rest) fuel)
             (mkDeployment "uuid-0" opts Scripted.builtDrive None 0 0
                StateWaitDeploy StateWaitProvidePercent (Some caller_chan))
             (repeat (Scripted.reports "deploying") m
              ++ Scripted.reports "active" :: []))).
  { reflexivity. }
  unfold waitDeploy. rewrite exit_andThen.
  match goal with
  | |- context [waitDeployLoop _ fuel ?d (_ ++ _ :: ?tail)] =>
      destruct (int_waitDeployLoop_arrives m fuel d tail)
        as (-> & _ & Herr & Hstate & Hstatus); [lia|reflexivity|]
  end.
  destruct fuel as [|fuel]; [lia|].
  rewrite nextState_S, Herr, Hstate. cbn [isNil negb Error currentState].
  decide_state_tests.
  unfold send, done.
  cbn [status set_currentState set_currentPercent Error]. rewrite Hstatus.
  cbn [status delivered emit exit]. rewrite Herr. reflexivity.
Qed.

End IntArrives.

Section StructArrives.
Import StructVariant.
Variable rest : nodes.Node * error.

Lemma struct_waitManageLoop_arrives k :
  forall fuel (d : Deployment Scripted.World) tail,
  (k < fuel)%nat ->
  let r := waitManageLoop (Scripted.client rest) fuel d
             (repeat (Scripted.reports "verifying") k
              ++ Scripted.reports "manageable" :: tail) in
  exit r = Break /\ dep r = d /\ world r = tail.
Proof.
  induction k as [|k IH]; intros fuel d tail Hfuel;
    (destruct fuel as [|fuel]; [lia|]).
  - repeat split.
  - apply IH with (d := d) (tail := tail). lia.
Qed.

Lemma struct_waitManageLoop_short k :
  forall fuel (d : Deployment Scripted.World) tail,
  (fuel <= k)%nat ->
  exit (waitManageLoop (Scripted.client rest) fuel d
          (repeat (Scripted.reports "verifying") k ++ tail))
  = Stop OutOfFuel.
Proof.
  induction k as [|k IH]; intros fuel d tail Hfuel;
    (destruct fuel as [|fuel]; [reflexivity|]); [lia|].
  apply IH with (d := d) (tail := tail). lia.
Qed.

Lemma struct_waitDeployLoop_arrives k :
  forall fuel percentage (d : Deployment Scripted.World) tail,
  (k < fuel)%nat ->
  status d = Some caller_chan ->
  let r := waitDeployLoop (Scripted.client rest) fuel percentage d
             (repeat (Scripted.reports "deploying") k
              ++ Scripted.reports "active" :: tail) in
  exit r = Break /\ dep r = d /\ world r = tail.
Proof.
  induction k as [|k IH]; intros fuel percentage d tail Hfuel Hchan;
    (destruct fuel as [|fuel]; [lia|]).
  - repeat split.
  - cbv zeta. cbn [waitDeployLoop].
    cbn [repeat app Scripted.client nodes.Get Scripted.reports isNil negb
      nodes.ProvisionState].
    decide_state_tests. cbn [orb].
    unfold send. rewrite Hchan. cbn [delivered emit exit dep world].
    apply IH; [lia|exact Hchan].
Qed.

(** The WAIT_PROVIDE loop looks at the one node value it was given. *)
Lemma struct_waitProvideLoop_cleaning fuel :
  forall name (d : Deployment Scripted.World) w,
  exit (waitProvideLoop fuel (nodes.mkNode name "cleaning") d w)
  = Stop OutOfFuel.
Proof.
  induction fuel as [|fuel IH]; intros name d w; [reflexivity|].
  exact (IH name d w).
Qed.

Lemma struct_nextState_arrives (k m fuel : nat) (opts : nodes.UpdateOpts) :
  (9 + k + m <= fuel)%nat ->
  exit (nextState (Scripted.client rest) fuel
          (set_status (Some caller_chan)
             (set_currentState StateBegin (Scripted.newStruct opts)))
          (repeat (Scripted.reports "verifying") k
           ++ Scripted.reports "manageable"
           :: Scripted.reports "available"
           :: repeat (Scripted.reports "deploying") m
           ++ Scripted.reports "active" :: []))
  = Returned None.
Proof.
  intros Hfuel.
  do 3 (destruct fuel as [|fuel]; [lia|]).
  transitivity
    (exit (waitManage (Scripted.client rest) fuel
             (nextState (Scripted.client rest) fuel)
             (mkDeployment "uuid-0" opts Scripted.builtDrive None 0 0
                StateWaitManage (Some caller_chan))
             (repeat (Scripted.reports "verifying") k
              ++ Scripted.reports "manageable"
              :: Scripted.reports "available"
              :: repeat (Scripted.reports "deploying") m
              ++ Scripted.reports "active" :: []))).
  { destruct opts; reflexivity. }
  unfold waitManage. rewrite exit_andThen.
  match goal with
  | |- context [waitManageLoop _ fuel ?d (_ ++ _ :: ?tail)] =>
      destruct (struct_waitManageLoop_arrives k fuel d tail) as (-> & -> & ->);
        [lia|]
  end.
  do 5 (destruct fuel as [|fuel]; [lia|]).
  transitivity
    (exit (waitDeploy (Scripted.client rest) (S fuel)
             (nextState (Scripted.client rest) (S fuel))
             (mkDeployment "uuid-0" opts Scripted.builtDrive None 0 0
                StateWaitDeploy (Some caller_chan))
             (repeat (Scripted.reports "deploying") m
              ++ Scripted.reports "active" :: []))).
  { reflexivity. }
  unfold waitDeploy. rewrite exit_andThen.
  match goal with
  | |- context [waitDeployLoop _ _ ?p ?d (_ ++ _ :: ?tail)] =>
      destruct (struct_waitDeployLoop_arrives m (S fuel) p d tail)
        as (-> & -> & ->); [lia|reflexivity|]
  end.
  reflexivity.
Qed.

Lemma struct_nextState_cleaning (k fuel : nat) (opts : nodes.UpdateOpts)
    (tail : Scripted.World) :
  exit (nextState (Scripted.client rest) fuel
          (set_status (Some caller_chan)
             (set_currentState StateBegin (Scripted.newStruct opts)))
          (repeat (Scripted.reports "verifying") k
           ++ Scripted.reports "manageable"
           :: Scripted.reports "cleaning" :: tail))
  = OutOfFuel.
Proof.
  do 3 (destruct fuel as [|fuel]; [destruct opts; reflexivity|]).
  transitivity
    (exit (waitManage (Scripted.client rest) fuel
             (nextState (Scripted.client rest) fuel)
             (mkDeployment "uuid-0" opts Scripted.builtDrive None 0 0
                StateWaitManage (Some caller_chan))
             (repeat (Scripted.reports "verifying") k
              ++ Scripted.reports "manageable"
              :: Scripted.reports "cleaning" :: tail))).
  { destruct opts; reflexivity. }
  unfold waitManage. rewrite exit_andThen.
  destruct (Nat.le_gt_cases fuel k) as [Hshort | Hlong].
  { rewrite struct_waitManageLoop_short by exact Hshort. reflexivity. }
  match goal with
  | |- context [waitManageLoop _ fuel ?d (_ ++ _ :: ?tail')] =>
      destruct (struct_waitManageLoop_arrives k fuel d tail') as (-> & -> & ->);
        [lia|]
  end.
  do 2 (destruct fuel as [|fuel]; [reflexivity|]).
  transitivity
    (exit (andThen
             (waitProvideLoop fuel (nodes.mkNode "master-0" "cleaning")
                (mkDeployment "uuid-0" opts Scripted.builtDrive None 0 0
                   StateWaitProvide (Some caller_chan)) tail)
             (fun d' w' =>
                nextState (Scripted.client rest) fuel (set_Error None d') w'))).
  { reflexivity. }
  rewrite exit_andThen, struct_waitProvideLoop_cleaning. reflexivity.
Qed.

End StructArrives.

(** X23: both revisions of [Deploy] return, without an error, once the
    node gets there.  Against a remote that accepts every command and
    answers the polls of WAIT_MANAGE with "verifying" any number of times
    and then "manageable", those of WAIT_PROVIDE with "cleaning" any
    number of times and then "available" (at once, for the state-struct
    revision), and those of WAIT_DEPLOY with "deploying" any number of
    times and then "active", a run on a drained caller channel with fuel
    for its nine steps and these polls returns [nil]. *)
Theorem run_returns_once_the_node_gets_there :
  forall (rest : nodes.Node * error) (k j m fuel : nat)
    (opts : nodes.UpdateOpts),
    (9 + k + j + m <= fuel)%nat ->
    exit (IntVariant.Deploy (Scripted.client rest) fuel
            (Scripted.newInt opts) (Some caller_chan)
            (repeat (Scripted.reports "verifying") k
             ++ Scripted.reports "manageable"
             :: repeat (Scripted.reports "cleaning") j
             ++ Scripted.reports "available"
             :: repeat (Scripted.reports "deploying") m
             ++ Scripted.reports "active" :: []))
    = Returned None
    /\ exit (StructVariant.Deploy (Scripted.client rest) fuel
               (Scripted.newStruct opts) (Some caller_chan)
               (repeat (Scripted.reports "verifying") k
                ++ Scripted.reports "manageable"
                :: Scripted.reports "available"
                :: repeat (Scripted.reports "deploying") m
                ++ Scripted.reports "active" :: []))
       = Returned None.
Proof.
  intros rest k j m fuel opts Hfuel. split.
  - unfold IntVariant.Deploy. cbv zeta.
    rewrite exit_send_delivered by reflexivity. rewrite exit_deferClose.
    apply int_nextState_arrives. exact Hfuel.
  - unfold StructVariant.Deploy. cbv zeta.
    rewrite exit_send_delivered by reflexivity. rewrite exit_deferClose.
    apply struct_nextState_arrives. lia.
Qed.

Lemma run_returns_once_the_node_gets_there_witness :
  exit (IntVariant.Deploy (Scripted.client (Scripted.reports "active")) 15
          (Scripted.newInt Scripted.instanceInfo) (Some caller_chan)
          [Scripted.reports "verifying"; Scripted.reports "verifying";
           Scripted.reports "manageable";
           Scripted.reports "cleaning"; Scripted.reports "available";
           Scripted.reports "deploying"; Scripted.reports "deploying";
           Scripted.reports "deploying"; Scripted.reports "active"])
  = Returned None
  /\ exit (StructVariant.Deploy (Scripted.client (Scripted.reports "active")) 15
             (Scripted.newStruct Scripted.instanceInfo) (Some caller_chan)
             [Scripted.reports "verifying"; Scripted.reports "verifying";
              Scripted.reports "manageable"; Scripted.reports "available";
              Scripted.reports "deploying"; Scripted.reports "deploying";
              Scripted.reports "deploying"; Scripted.reports "active"])
     = Returned None.
Proof.
  apply (run_returns_once_the_node_gets_there (Scripted.reports "active")
           2 1 3 15 Scripted.instanceInfo).
  exact (le_n 15).
Defined.

(** X24: in the state-struct revision the wait for "available" looks at
    the node once.  When the poll of WAIT_PROVIDE finds the node
    "cleaning", the usual answer right after "provide", the loop sleeps
    and goes round on the same answer: the run never returns, whatever the
    remote would answer later and however much fuel it gets. *)
Theorem struct_wait_provide_never_polls_again :
  forall (rest : nodes.Node * error) (k fuel : nat) (opts : nodes.UpdateOpts)
    (later : Scripted.World),
    exit (StructVariant.Deploy (Scripted.client rest) fuel
            (Scripted.newStruct opts) (Some caller_chan)
            (repeat (Scripted.reports "verifying") k
             ++ Scripted.reports "manageable"
             :: Scripted.reports "cleaning" :: later))
    = OutOfFuel.
Proof.
  intros rest k fuel opts later.
  unfold StructVariant.Deploy. cbv zeta.
  rewrite exit_send_delivered by reflexivity. rewrite exit_deferClose.
  apply struct_nextState_cleaning.
Qed.
